(** * erdetect: evoked-response (N1) detection in CCEP recordings

    A shallow embedding of the parts of the erdetect sources that the
    specification makes claims about:

    - [app/detection.py]      ([Detection]: [ieeg_detect_n1])
    - [app/config.py]         ([Config]: [load_config], [write_config])
    - [utils/bids.py]         ([Bids]: epoching and averaging)
    - [main_run.py], [erdetect/_erdetect.py]
                              ([StimPairs], [MainFlow])
    - [erdetect/core/metrics/metric_cross_proj.py] ([CrossProj])

    Samples are IEEE-754 binary64 values ([PrimFloat.float]), as in numpy;
    sample indices are Python integers ([Z]); Python exceptions are an
    explicit [result] type.  numpy/scipy reductions whose rounding order is
    not fixed by the source ([np.nanstd], [np.nanmean], ...) and the modules
    of the repository that are not part of the sources at hand
    ([app/peak_finder.py], [utils/misc.py]) are Section variables. *)

From Stdlib Require Import ZArith Lia Bool.
From Stdlib Require Import PrimFloat FloatOps SpecFloat Uint63.
From stdpp Require Import base option list strings.

Set Warnings "-inexact-float".
Set Default Proof Using "Type".

Local Open Scope Z_scope.

(* ===================================================================== *)
(** * Python prelude: exceptions, rounding, slices *)
(* ===================================================================== *)

Module Py.

(** The Python exceptions that the modelled code can raise. *)
Inductive exn :=
| TypeError | KeyError | IndexError | ValueError | OverflowError
| AttributeError | UnboundLocalError | RuntimeError | MemoryError.

Inductive result (A : Type) :=
| Ok (a : A)
| Raise (e : exn).
Arguments Ok {A} a.
Arguments Raise {A} e.

Definition bind {A B} (m : result A) (k : A → result B) : result B :=
  match m with
  | Ok a => k a
  | Raise e => Raise e
  end.

Definition of_option {A} (e : exn) (o : option A) : result A :=
  match o with
  | Some a => Ok a
  | None => Raise e
  end.

(** Round a positive dyadic [m * 2^e] to the nearest integer, ties to even. *)
Definition round_half_even (m e : Z) : Z :=
  if 0 <=? e then m * 2 ^ e
  else
    let d := 2 ^ (- e) in
    let q := m / d in
    let r := m mod d in
    if 2 * r <? d then q
    else if d <? 2 * r then q + 1
    else if Z.even q then q else q + 1.

(** [int(round(x))] for a float [x]: Python rounds half to even and
    raises on NaN and on the infinities. *)
Definition round (x : float) : result Z :=
  match Prim2SF x with
  | S754_zero _ => Ok 0
  | S754_infinity _ => Raise OverflowError
  | S754_nan => Raise ValueError
  | S754_finite s m e =>
      let v := round_half_even (Z.pos m) e in
      Ok (if s then - v else v)
  end.

(** Normalisation of one bound of a slice [l[a:b]] of a sequence of
    length [n]: negative bounds count from the end, and every bound is
    clipped to [0 .. n]. *)
Definition norm_index (n : nat) (i : Z) : nat :=
  Z.to_nat (if i <? 0 then Z.max (i + Z.of_nat n) 0 else Z.min i (Z.of_nat n)).

(** The positions [lo .. hi) selected by [l[a:b]] (empty when [hi <= lo]). *)
Definition slice_bounds (n : nat) (a b : Z) : nat * nat :=
  let lo := norm_index n a in
  let hi := norm_index n b in
  (lo, Nat.max lo hi).

Definition slice {A} (l : list A) (a b : Z) : list A :=
  let '(lo, hi) := slice_bounds (length l) a b in
  take (hi - lo) (drop lo l).

(** [l[a:b] = f(l[a:b])] elementwise, through a view: the positions of the
    slice are rewritten in place, all others are kept. *)
Definition slice_map {A} (f : A → A) (l : list A) (a b : Z) : list A :=
  let '(lo, hi) := slice_bounds (length l) a b in
  take lo l ++ (f <$> take (hi - lo) (drop lo l)) ++ drop hi l.

(** [k] is one of the positions of [l[a:b]]. *)
Definition in_slice (n : nat) (a b : Z) (k : nat) : bool :=
  let '(lo, hi) := slice_bounds n a b in
  (lo <=? k)%nat && (k <? hi)%nat.

(** [np.all(np.isnan(v))] *)
Definition all_nan (v : list float) : bool := forallb is_nan v.

(** [np.max(v)]: NaN as soon as one element is NaN. *)
Definition np_max (v : list float) : float :=
  match v with
  | [] => nan
  | x :: rest =>
      foldl (fun acc y =>
               if is_nan acc then acc
               else if is_nan y then y
               else if PrimFloat.ltb acc y then y else acc) x rest
  end.

End Py.

Import Py.

Declare Scope py_scope.
Delimit Scope py_scope with py.
Notation "x <- m ;; k" := (Py.bind m (fun x => k))
  (at level 100, m at next level, right associativity) : py_scope.
Local Open Scope py_scope.

(* ===================================================================== *)
(** * app/detection.py *)
(* ===================================================================== *)

Module Detection.

(** A numpy array of shape (electrodes x stimulation-pairs x samples): the
    shape tuple together with the cells.  *)
Record ndarray3 := {
  shape3 : nat * nat * nat;
  cells3 : list (list (list float))
}.

(** A two-dimensional numpy array (electrodes x stimulation-pairs). *)
Record ndarray2 := {
  shape2 : nat * nat;
  cells2 : list (list float)
}.

Definition wf3 (d : ndarray3) : Prop :=
  let '(n0, n1, n2) := shape3 d in
  length (cells3 d) = n0 ∧
  Forall (fun plane => length plane = n1 ∧
                       Forall (fun row : list float => length row = n2) plane)
         (cells3 d).

(** The values that [config('n1_detect', ...)] yields.  The sub-dictionaries
    of the three methods may be absent ([load_config] pops them), in which
    case the lookup raises a KeyError. *)
Record n1_detect_config := {
  peak_search_epoch : float * float;
  n1_search_epoch : float * float;
  method : string;
  std_base_baseline_epoch : option (float * float);
  std_base_baseline_threshold_factor : option float;
  cross_proj_threshold : option float;
  waveform_threshold : option float
}.

(** The locals that lines 64-84 bind, by method. *)
Inductive method_params :=
| MStdBase (baseline_epoch : float * float) (baseline_threshold_factor : float)
| MCrossProj (cross_proj_threshold : float)
| MWaveform (waveform_threshold : float)
| MOther.

Definition read_method_params (cfg : n1_detect_config) : result method_params :=
  if String.eqb (method cfg) "std_base" then
    be <- of_option KeyError (std_base_baseline_epoch cfg) ;;
    f <- of_option KeyError (std_base_baseline_threshold_factor cfg) ;;
    Ok (MStdBase be f)
  else if String.eqb (method cfg) "cross_proj" then
    t <- of_option KeyError (cross_proj_threshold cfg) ;;
    Ok (MCrossProj t)
  else if String.eqb (method cfg) "waveform" then
    t <- of_option KeyError (waveform_threshold cfg) ;;
    Ok (MWaveform t)
  else Ok MOther.

(** [int(round(t * sampling_rate)) + stim_onset_index] *)
Definition to_sample (t sampling_rate : float) (stim_onset_index : Z) : result Z :=
  r <- Py.round (t * sampling_rate)%float ;;
  Ok (r + stim_onset_index).

(** What one iteration of the double loop decides for its cell:
    [Skip] leaves the two output cells at NaN, [Peak i a] stores the index
    and the amplitude of an N1. *)
Inductive verdict :=
| Skip
| Peak (index : Z) (amplitude : float).

(** What the call hands back: the pair of output arrays, the error result
    [(None, None)], or an exception that escapes. *)
Inductive outcome :=
| Returned (r : option (list (list (option Z)) * list (list float)))
| Raised (e : exn).

Definition nan_to_zero (x : float) : float := if is_nan x then 0%float else x.

(** [x[i, j]] on an optional metric array: subscripting [None] is a
    TypeError, a position outside the array an IndexError. *)
Definition metric_at (m : option ndarray2) (i j : nat) : result float :=
  match m with
  | None => Raise TypeError
  | Some a => of_option IndexError (cells2 a !! i ≫= (.!! j))
  end.

(** [np.where(abs(mags) == np.max(abs(mags)))[0][0]] *)
Definition first_max_ind (mags : list float) : result nat :=
  let m := np_max (abs <$> mags) in
  of_option IndexError
    (fst <$> list_find (fun x => Is_true (PrimFloat.eqb (abs x) m)) mags).

Section WithCollaborators.

(** [app.peak_finder.peak_finder(signal, sel=20, thresh=None, extrema=-1,
    include_endpoints=True, interpolate=False)]: the parallel arrays of
    peak indices and magnitudes, or [None] for the indices. *)
Variable peak_finder : list float → option (list (Z * float)).

(** [np.nanstd] *)
Variable nanstd : list float → float.

Variable cfg : n1_detect_config.
Variable cross_proj_metrics waveform_metrics : option ndarray2.

(** The sample bounds that are fixed before the loop. *)
Record windows := {
  peak_search_start_sample : Z;
  peak_search_end_sample : Z;
  n1_search_start_sample : Z;
  n1_search_end_sample : Z;
  (** bound only when the method is 'std_base' *)
  baseline_samples : option (Z * Z)
}.

(** Lines 158-195: find the negative peaks in the (NaN-free) signal,
    drop a peak on the first sample, shift to epoch coordinates, keep the
    peaks inside the N1 search range and select the first one of maximal
    magnitude.  [None] is one of the [continue]s. *)
Definition select_peak (w : windows) (signal : list float)
  : result (option (Z * float)) :=
  let found := peak_finder signal in
  let found :=
    match found with
    | Some ((0, _) :: rest) => Some rest
    | _ => found
    end in
  match found with
  | None | Some [] => Ok None
  | Some peaks =>
      let shifted :=
        (fun p : Z * float => (fst p + peak_search_start_sample w, snd p)) <$> peaks in
      let in_range :=
        filter (fun p : Z * float =>
                  Is_true ((n1_search_start_sample w <=? fst p)
                           && (fst p <=? n1_search_end_sample w)))
               shifted in
      match in_range with
      | [] => Ok None
      | _ =>
          max_ind <- first_max_ind (snd <$> in_range) ;;
          p <- of_option IndexError (in_range !! max_ind) ;;
          Ok (Some p)
      end
  end.

(** Lines 197-237: is the selected peak an N1?  [row] is the cell's row of
    [data] after the NaNs of the search window were zeroed. *)
Definition classify (mp : method_params) (w : windows) (iElec iPair : nat)
    (row : list float) (index : Z) (amplitude : float) : result verdict :=
  match mp with
  | MCrossProj cross_proj_threshold =>
      v <- metric_at cross_proj_metrics iElec iPair ;;
      Ok (if PrimFloat.ltb cross_proj_threshold v then Peak index amplitude else Skip)
  | MWaveform waveform_threshold =>
      v <- metric_at waveform_metrics iElec iPair ;;
      Ok (if PrimFloat.ltb waveform_threshold v then Peak index amplitude else Skip)
  | MStdBase _ baseline_threshold_factor =>
      match baseline_samples w with
      | None => Raise UnboundLocalError
      | Some (baseline_start_sample, baseline_end_sample) =>
          let baseline_signal :=
            Py.slice row baseline_start_sample baseline_end_sample in
          if all_nan baseline_signal then Ok Skip
          else
            let baseline_std := nanstd baseline_signal in
            let baseline_std :=
              if PrimFloat.ltb baseline_std 50 then 50%float else baseline_std in
            Ok (if PrimFloat.leb (baseline_threshold_factor * abs baseline_std) (abs amplitude)
                then Peak index amplitude else Skip)
      end
  | MOther => Raise UnboundLocalError
  end.

(** One iteration of the double loop (lines 148-237) on the cell's row
    of [data]: the verdict and the row as the iteration leaves it. *)
Definition n1_cell (mp : method_params) (w : windows) (iElec iPair : nat)
    (row : list float) : result verdict * list float :=
  let a := peak_search_start_sample w + 1 in
  let b := peak_search_end_sample w in
  if all_nan (Py.slice row a b) then (Ok Skip, row)
  else
    let row' := Py.slice_map nan_to_zero row a b in
    let r :=
      sel <- select_peak w (Py.slice row' a b) ;;
      match sel with
      | None => Ok Skip
      | Some (index, amplitude) =>
          if PrimFloat.ltb 0 amplitude then Ok Skip
          else if PrimFloat.ltb 3000 (abs amplitude) then Ok Skip
          else classify mp w iElec iPair row' index amplitude
      end in
    (r, row').

(** The arrays the loop works on: the caller's [data] (mutated through
    the view [signal]) and the two output buffers. *)
Record det_state := {
  st_data : list (list (list float));
  st_indices : list (list (option Z));
  st_amplitudes : list (list float)
}.

Definition set2 {A} (i j : nat) (x : A) (m : list (list A)) : list (list A) :=
  alter (fun r => <[j := x]> r) i m.

Definition get2 {A} (m : list (list A)) (i j : nat) : option A :=
  m !! i ≫= (.!! j).

Definition detect_cell (mp : method_params) (w : windows)
    (c : nat * nat) (st : det_state) : option exn * det_state :=
  let '(iElec, iPair) := c in
  match get2 (st_data st) iElec iPair with
  | None => (Some IndexError, st)
  | Some row =>
      let '(r, row') := n1_cell mp w iElec iPair row in
      let data' := set2 iElec iPair row' (st_data st) in
      match r with
      | Raise e =>
          (Some e, {| st_data := data'; st_indices := st_indices st;
                      st_amplitudes := st_amplitudes st |})
      | Ok Skip =>
          (None, {| st_data := data'; st_indices := st_indices st;
                    st_amplitudes := st_amplitudes st |})
      | Ok (Peak index amplitude) =>
          (None, {| st_data := data';
                    st_indices := set2 iElec iPair (Some index) (st_indices st);
                    st_amplitudes := set2 iElec iPair amplitude (st_amplitudes st) |})
      end
  end.

(** [for iElec in range(n0): for iPair in range(n1)] *)
Definition cell_order (n0 n1 : nat) : list (nat * nat) :=
  i ← seq 0 n0; (fun j => (i, j)) <$> seq 0 n1.

Fixpoint run_cells (mp : method_params) (w : windows)
    (cells : list (nat * nat)) (st : det_state) : option exn * det_state :=
  match cells with
  | [] => (None, st)
  | c :: rest =>
      match detect_cell mp w c st with
      | (Some e, st') => (Some e, st')
      | (None, st') => run_cells mp w rest st'
      end
  end.

(** Lines 117-140: the method's input check.  [Some w] carries on with
    the windows, [None] is [return None, None]. *)
Definition check_method_input (mp : method_params) (sampling_rate : float)
    (stim_onset_index : Z) (out_shape : nat * nat) (w : windows)
  : result (option windows) :=
  if String.eqb (method cfg) "std_base" then
    match mp with
    | MStdBase baseline_epoch _ =>
        bs <- to_sample (fst baseline_epoch) sampling_rate stim_onset_index ;;
        be <- to_sample (snd baseline_epoch) sampling_rate stim_onset_index ;;
        Ok (Some {| peak_search_start_sample := peak_search_start_sample w;
                    peak_search_end_sample := peak_search_end_sample w;
                    n1_search_start_sample := n1_search_start_sample w;
                    n1_search_end_sample := n1_search_end_sample w;
                    baseline_samples := Some (bs, be) |})
    | _ => Raise UnboundLocalError
    end
  else if String.eqb (method cfg) "waveform" then
    match waveform_metrics with
    | None => Ok None
    | Some wm => if decide (shape2 wm = out_shape) then Ok (Some w) else Ok None
    end
  else if String.eqb (method cfg) "cross_proj" then
    match waveform_metrics with
    | None => Ok None
    | Some wm => if decide (shape2 wm = out_shape) then Ok (Some w) else Ok None
    end
  else Ok (Some w).

(** Lines 45-140: the configuration is read, the windows are mapped to
    samples and checked, the method's input is checked.  [Ok None] is
    [return None, None]. *)
Definition detect_prologue (data : ndarray3) (stim_onset_index : Z)
    (sampling_rate : float) : result (option (method_params * windows)) :=
  let '(n0, n1, num_samples) := shape3 data in
  mp <- read_method_params cfg ;;
  pss <- to_sample (fst (peak_search_epoch cfg)) sampling_rate stim_onset_index ;;
  pse <- to_sample (snd (peak_search_epoch cfg)) sampling_rate stim_onset_index ;;
  if pse <? pss then Ok None
  else if Z.of_nat num_samples <? pse then Ok None
  else
    n1s <- to_sample (fst (n1_search_epoch cfg)) sampling_rate stim_onset_index ;;
    n1e <- to_sample (snd (n1_search_epoch cfg)) sampling_rate stim_onset_index ;;
    if n1e <? n1s then Ok None
    else
      ow <- check_method_input mp sampling_rate stim_onset_index (n0, n1)
              {| peak_search_start_sample := pss;
                 peak_search_end_sample := pse;
                 n1_search_start_sample := n1s;
                 n1_search_end_sample := n1e;
                 baseline_samples := None |} ;;
      Ok ((fun w => (mp, w)) <$> ow).

(** The whole call.  The result pairs the outcome with the caller's
    array as the call leaves it. *)
Definition ieeg_detect_n1 (data : ndarray3) (stim_onset_index : Z)
    (sampling_rate : float) : outcome * ndarray3 :=
  match detect_prologue data stim_onset_index sampling_rate with
  | Raise e => (Raised e, data)
  | Ok None => (Returned None, data)
  | Ok (Some (mp, w)) =>
      let n0 := fst (fst (shape3 data)) in
      let n1 := snd (fst (shape3 data)) in
      let st0 := {| st_data := cells3 data;
                    st_indices := replicate n0 (replicate n1 None);
                    st_amplitudes := replicate n0 (replicate n1 nan) |} in
      let '(e, st) := run_cells mp w (cell_order n0 n1) st0 in
      let data' := {| shape3 := shape3 data; cells3 := st_data st |} in
      match e with
      | Some e => (Raised e, data')
      | None => (Returned (Some (st_indices st, st_amplitudes st)), data')
      end
  end.

End WithCollaborators.

End Detection.

(* ===================================================================== *)
(** * main_run.py, erdetect/_erdetect.py: the stimulation-pair conditions *)
(* ===================================================================== *)

Module StimPairs.

(** A trial as the event loop appends it to the parallel lists
    [trial_onsets] and [trial_pairs]: the onset and the two names that
    [electrical_stimulation_site.split('-')] returned. *)
Definition trial : Type := float * (string * string).

Definition trial_onsets (trials : list trial) : list float := fst <$> trials.
Definition trial_pairs (trials : list trial) : list (string * string) := snd <$> trials.

(** The test of the list comprehension that selects the trials of the
    pair of channels [(c0, c1)]. *)
Definition stimulates (concat : bool) (c0 c1 : string) (x : string * string) : bool :=
  if concat
  then (String.eqb (fst x) c0 && String.eqb (snd x) c1)
       || (String.eqb (fst x) c1 && String.eqb (snd x) c0)
  else String.eqb (fst x) c0 && String.eqb (snd x) c1.

(** [[i for i, x in enumerate(trial_pairs) if ...]] *)
Definition matching_indices (concat : bool) (c0 c1 : string)
    (pairs : list (string * string)) : list nat :=
  fst <$> filter (fun ix : nat * (string * string) =>
                    Is_true (stimulates concat c0 c1 (snd ix)))
                 (imap (fun i x => (i, x)) pairs).

(** [indices] for the channels at positions [iChannel0], [iChannel1]:
    with concatenation a pair is looked at in one order only. *)
Definition pair_indices (concat : bool) (channels : list string)
    (pairs : list (string * string)) (iChannel0 iChannel1 : nat) : list nat :=
  match channels !! iChannel0, channels !! iChannel1 with
  | Some c0, Some c1 =>
      if concat
      then if (iChannel1 <? iChannel0)%nat then []
           else matching_indices true c0 c1 pairs
      else matching_indices false c0 c1 pairs
  | _, _ => []
  end.

(** [[trial_onsets[i] for i in indices]] *)
Definition onsets_at (onsets : list float) (indices : list nat) : list float :=
  omap (fun i => onsets !! i) indices.

Definition pair_label (c0 c1 : string) : string := c0 +:+ "-" +:+ c1.

(** One entry of the four parallel lists of main_run.py. *)
Record stimpair := {
  stimpair_label : string;
  stimpair_electrode_indices : nat * nat;
  stimpair_trial_indices : list nat;
  stimpair_trial_onsets : list float
}.

(** The positions [(iChannel0, iChannel1)] in the order of the two loops. *)
Definition channel_pairs (n : nat) : list (nat * nat) :=
  i ← seq 0 n; (fun j => (i, j)) <$> seq 0 n.

(** main_run.py, lines 396-418: the conditions that have trials. *)
Definition build_stimpairs (concat : bool) (channels : list string)
    (trials : list trial) : list stimpair :=
  foldl (fun acc (ij : nat * nat) =>
           let indices := pair_indices concat channels (trial_pairs trials) (fst ij) (snd ij) in
           if (0 <? length indices)%nat
           then acc ++ [{| stimpair_label :=
                             pair_label (default "" (channels !! fst ij))
                                        (default "" (channels !! snd ij));
                           stimpair_electrode_indices := ij;
                           stimpair_trial_indices := indices;
                           stimpair_trial_onsets :=
                             onsets_at (trial_onsets trials) indices |}]
           else acc)
        [] (channel_pairs (length channels)).

(** main_run.py, lines 420-437: the positions of the conditions with fewer
    trials than [minimum_stimpair_trials], deleted from the last to the
    first. *)
Definition remove_indices (minimum : Z) (pairs : list stimpair) : list nat :=
  fst <$> filter (fun ip : nat * stimpair =>
                    Is_true (Z.of_nat (length (stimpair_trial_indices (snd ip))) <? minimum))
                 (imap (fun i p => (i, p)) pairs).

Definition drop_small (minimum : Z) (pairs : list stimpair) : list stimpair :=
  foldl (fun acc index => delete index acc) pairs (reverse (remove_indices minimum pairs)).

Definition main_run_stimpairs (concat : bool) (minimum : Z) (channels : list string)
    (trials : list trial) : list stimpair :=
  drop_small minimum (build_stimpairs concat channels trials).

(** ** erdetect/_erdetect.py: the same on two dictionaries *)

(** A Python [dict] with its insertion order: [d[k] = v] overwrites in
    place or appends, [del d[k]] removes. *)
Fixpoint dict_set {V} (k : string) (v : V) (d : list (string * V)) : list (string * V) :=
  match d with
  | [] => [(k, v)]
  | (k', v') :: rest =>
      if String.eqb k' k then (k, v) :: rest else (k', v') :: dict_set k v rest
  end.

Definition dict_del {V} (k : string) (d : list (string * V)) : list (string * V) :=
  filter (fun kv => Is_true (negb (String.eqb (fst kv) k))) d.

(** _erdetect.py, lines 208-254.  The two dictionaries [stim_pairs_onsets]
    and [stim_pairs_electrode_names] are written and deleted together and
    are kept as one: label -> (onsets, electrode names). *)
Definition process_subset_stimpairs (concat : bool) (minimum : Z)
    (channels_stim_incl : list string) (trials : list trial)
  : list (string * (list float * (string * string))) :=
  let stim_pairs :=
    foldl (fun acc (ij : nat * nat) =>
             let indices :=
               pair_indices concat channels_stim_incl (trial_pairs trials) (fst ij) (snd ij) in
             if (0 <? length indices)%nat
             then
               let c0 := default "" (channels_stim_incl !! fst ij) in
               let c1 := default "" (channels_stim_incl !! snd ij) in
               dict_set (pair_label c0 c1)
                        (onsets_at (trial_onsets trials) indices, (c0, c1)) acc
             else acc)
          [] (channel_pairs (length channels_stim_incl)) in
  let stimpair_remove_indices :=
    fst <$> filter (fun kv : string * (list float * (string * string)) =>
                      Is_true (Z.of_nat (length (fst (snd kv))) <? minimum))
                   stim_pairs in
  foldl (fun acc k => dict_del k acc) stim_pairs stimpair_remove_indices.

End StimPairs.

(* ===================================================================== *)
(** * utils/bids.py: epoching the trials *)
(* ===================================================================== *)

Module Bids.

(** ** Logging and exceptions together *)

Inductive level := WARNING | ERROR.

(** The log lines of the epoching functions, by what they say; each
    carries the onset of the trial it is about. *)
Inductive message :=
| TrialEndBeforeData (onset : float)
| TrialStartBeforeData (onset : float)
| TrialStartAfterData (onset : float)
| TrialEndAfterData (onset : float)
| BaselineOutsideData (onset : float)
| BaselineStartBeforeTrial (onset : float)
| BaselineEndOutsideTrial (onset : float)
| BaselineInOutOfBoundPart (onset : float).

Definition log : Type := list (level * message).

(** A computation that appends to the log and may raise. *)
Definition M (A : Type) : Type := log → result A * log.

Definition ret {A} (a : A) : M A := fun l => (Ok a, l).
Definition raise {A} (e : exn) : M A := fun l => (Raise e, l).
Definition lift {A} (r : result A) : M A := fun l => (r, l).
Definition logging (lv : level) (m : message) : M unit := fun l => (Ok tt, l ++ [(lv, m)]).

Definition bind {A B} (m : M A) (k : A → M B) : M B :=
  fun l => match m l with
           | (Ok a, l') => k a l'
           | (Raise e, l') => (Raise e, l')
           end.

(** [for i, x in enumerate(xs, start)]: the body threads the state. *)
Fixpoint for_each {A St} (body : nat → A → St → M St) (start : nat) (xs : list A)
    (s : St) : M St :=
  match xs with
  | [] => ret s
  | x :: rest => bind (body start x s) (for_each body (S start) rest)
  end.

(** ** The data reader *)

(** Modelled from the spec: utils/IeegDataReader.py is not among the sources.
    The reader exposes the format tag (0 = EDF, 1 = BrainVision, 2 = MEF3),
    the sampling rate, the number of samples, the retrieval of one whole
    channel and the retrieval of a sample range of several channels (one
    row per requested channel). *)
Record reader := {
  data_format : Z;
  sampling_rate : float;
  num_samples : Z;
  retrieve_channel_data : string → result (list float);
  retrieve_sample_range_data : list string → Z → Z → result (list (list float))
}.

(** Modelled from the spec: [utils.misc.allocate_array] is not among the
    sources; the array it returns is filled with the missing-value (NaN)
    sentinel. *)
Definition allocate_array (n0 n1 : nat) (n2 : Z) : list (list (list float)) :=
  replicate n0 (replicate n1 (replicate (Z.to_nat n2) nan)).

(** ** numpy slice assignment *)

(** [row[a:b] = src]: the lengths must agree, or [src] has one element that
    is broadcast; otherwise numpy raises a ValueError. *)
Definition assign_slice (row : list float) (a b : Z) (src : list float)
  : result (list float) :=
  let '(lo, hi) := Py.slice_bounds (length row) a b in
  if decide (length src = hi - lo)%nat
  then Ok (take lo row ++ src ++ drop hi row)
  else match src with
       | [x] => Ok (take lo row ++ replicate (hi - lo) x ++ drop hi row)
       | _ => Raise ValueError
       end.

(** [data[channel_idx, trial_idx, a:b] = src] *)
Definition assign3 (data : list (list (list float))) (channel_idx trial_idx : nat)
    (a b : Z) (src : list float) : result (list (list (list float))) :=
  row <- of_option IndexError (Detection.get2 data channel_idx trial_idx) ;;
  row' <- assign_slice row a b src ;;
  Ok (Detection.set2 channel_idx trial_idx row' data).

(** ** The bounds of one trial *)

(** What the bounds block of a trial decides: [continue], the window to
    read and where it goes in the trial's row, or an exception. *)
Inductive bounds :=
| BSkip
| BWindow (trial_sample_start trial_sample_end local_start local_end : Z).

(** The four checks that every epoching loop makes on a trial (lines
    360-394, 506-536, 650-680, 836-872).  [first] and [last] are the
    loop's tests for the first and the last trial; [warn] tells whether the
    warnings are logged (the per-channel loops log them for channel 0
    only); [size] is the number of samples of the data. *)
Definition trial_bounds (out_of_bound_method : Z) (first last warn : bool)
    (size trial_num_samples trial_sample_start : Z) (onset : float) : M bounds :=
  let warning m := if warn then logging WARNING m else ret tt in
  let allow_first := ((out_of_bound_method =? 1) && first) || (out_of_bound_method =? 2) in
  let allow_last := ((out_of_bound_method =? 1) && last) || (out_of_bound_method =? 2) in
  let trial_sample_end := trial_sample_start + trial_num_samples in
  if trial_sample_end <? 0 then
    if allow_first
    then bind (warning (TrialEndBeforeData onset)) (fun _ => ret BSkip)
    else bind (logging ERROR (TrialEndBeforeData onset)) (fun _ => raise RuntimeError)
  else
    bind
      (if trial_sample_start <? 0 then
         if allow_first
         then bind (warning (TrialStartBeforeData onset))
                   (fun _ => ret (trial_sample_start * -1, 0))
         else bind (logging ERROR (TrialStartBeforeData onset))
                   (fun _ => raise RuntimeError)
       else ret (0, trial_sample_start))
      (fun '(local_start, trial_sample_start) =>
         if size <? trial_sample_start then
           if allow_last
           then bind (warning (TrialStartAfterData onset)) (fun _ => ret BSkip)
           else bind (logging ERROR (TrialStartAfterData onset))
                     (fun _ => raise RuntimeError)
         else if size <? trial_sample_end then
           if allow_last
           then bind (warning (TrialEndAfterData onset))
                     (fun _ => ret (BWindow trial_sample_start size local_start
                                      (trial_num_samples - (trial_sample_end - size))))
           else bind (logging ERROR (TrialEndAfterData onset))
                     (fun _ => raise RuntimeError)
         else ret (BWindow trial_sample_start trial_sample_end local_start
                     trial_num_samples)).

Section WithNumpy.

(** [np.nanmean] and [np.nanmedian] of a one-dimensional array. *)
Variable nanmean nanmedian : list float → float.

(** The row that a trial contributes, from the samples read for it
    (lines 402-412 and 559-569): a copy, or the samples minus the mean or
    the median of the baseline.  Other values of [baseline_method] write
    nothing. *)
Definition normalized (baseline_method : Z) (samples baseline : list float)
  : option (list float) :=
  if baseline_method =? 0 then Some samples
  else if baseline_method =? 1 then
    Some ((fun x => (x - nanmean baseline)%float) <$> samples)
  else if baseline_method =? 2 then
    Some ((fun x => (x - nanmedian baseline)%float) <$> samples)
  else None.

(** One pass of the trial loop of
    [__epoch_data__from_channel_data__by_trials] (lines 352-412). *)
Definition epoch_trial (channel_idx : nat) (channel_data : list float)
    (sampling_rate : float) (num_onsets : nat)
    (trial_num_samples : Z) (trial_epoch : float * float)
    (baseline_num_samples : Z) (baseline_method : Z) (baseline_epoch : float * float)
    (out_of_bound_method : Z)
    (trial_idx : nat) (onset : float) (ref_data : list (list (list float)))
  : M (list (list (list float))) :=
  let size := Z.of_nat (length channel_data) in
  bind (lift (Py.round ((onset + fst trial_epoch) * sampling_rate)%float))
    (fun trial_sample_start =>
  bind (lift (Py.round ((onset + fst baseline_epoch) * sampling_rate)%float))
    (fun baseline_start_sample =>
  let baseline_end_sample := baseline_start_sample + baseline_num_samples in
  bind (trial_bounds out_of_bound_method
          (trial_idx =? 0)%nat (trial_idx =? num_onsets - 1)%nat
          (channel_idx =? 0)%nat
          size trial_num_samples trial_sample_start onset)
    (fun b =>
  match b with
  | BSkip => ret ref_data
  | BWindow trial_sample_start trial_sample_end local_start local_end =>
      bind (if (0 <? baseline_method)
               && ((baseline_start_sample <? 0) || (size <? baseline_end_sample))
            then bind (logging ERROR (BaselineOutsideData onset))
                      (fun _ => raise RuntimeError)
            else ret tt)
        (fun _ =>
      match normalized baseline_method
              (Py.slice channel_data trial_sample_start trial_sample_end)
              (Py.slice channel_data baseline_start_sample baseline_end_sample) with
      | Some src =>
          lift (assign3 ref_data channel_idx trial_idx local_start local_end src)
      | None => ret ref_data
      end)
  end))).

(** [__epoch_data__from_channel_data__by_trials] (lines 344-415): the
    trials of one channel, cut out of the channel's whole series. *)
Definition epoch_data_from_channel_data_by_trials
    (ref_data : list (list (list float))) (channel_idx : nat)
    (channel_data : list float) (sampling_rate : float) (onsets : list float)
    (trial_num_samples : Z) (trial_epoch : float * float)
    (baseline_num_samples : Z) (baseline_method : Z) (baseline_epoch : float * float)
    (out_of_bound_method : Z) : M (list (list (list float))) :=
  for_each
    (epoch_trial channel_idx channel_data sampling_rate (length onsets)
       trial_num_samples trial_epoch baseline_num_samples baseline_method
       baseline_epoch out_of_bound_method)
    0%nat onsets ref_data.

(** [int(round(abs(epoch[1] - epoch[0]) * sampling_rate))] *)
Definition epoch_num_samples (epoch : float * float) (sampling_rate : float) : result Z :=
  Py.round (abs (snd epoch - fst epoch) * sampling_rate)%float.

(** [__load_data_epochs__by_channels] (lines 418-464): channel by channel;
    a RuntimeError of the retrieval or of the epoching is raised again as a
    RuntimeError. *)
Definition load_data_epochs_by_channels (data_reader : reader) (channels : list string)
    (onsets : list float) (trial_epoch : float * float) (baseline_method : Z)
    (baseline_epoch : float * float) (out_of_bound_method : Z)
  : M (float * list (list (list float))) :=
  bind (lift (epoch_num_samples trial_epoch (sampling_rate data_reader)))
    (fun trial_num_samples =>
  bind (lift (epoch_num_samples baseline_epoch (sampling_rate data_reader)))
    (fun baseline_num_samples =>
  let data := allocate_array (length channels) (length onsets) trial_num_samples in
  bind (for_each
          (fun channel_idx channel data =>
             bind (lift (retrieve_channel_data data_reader channel))
               (fun channel_data =>
                  epoch_data_from_channel_data_by_trials data channel_idx channel_data
                    (sampling_rate data_reader) onsets trial_num_samples trial_epoch
                    baseline_num_samples baseline_method baseline_epoch
                    out_of_bound_method))
          0%nat channels data)
    (fun data => ret (sampling_rate data_reader, data)))).

(** The channel loop of [__load_data_epochs__by_trial] (lines 556-569):
    the samples read for the trial go to the trial's row of every
    channel. *)
Definition store_trial (baseline_method : Z) (trial_data : list (list float))
    (baseline_start_sample baseline_end_sample : Z) (trial_idx : nat)
    (local_start local_end : Z) (channels : list string)
    (data : list (list (list float))) : M (list (list (list float))) :=
  for_each
    (fun channel_idx (_ : string) data =>
       bind (lift (of_option IndexError (trial_data !! channel_idx)))
         (fun samples =>
       match normalized baseline_method samples
               (Py.slice samples baseline_start_sample baseline_end_sample) with
       | Some src =>
           lift (assign3 data channel_idx trial_idx local_start local_end src)
       | None => ret data
       end))
    0%nat channels data.

(** One pass of the trial loop of [__load_data_epochs__by_trial] (lines
    498-569).  [except (RuntimeError, LookupError)] catches a RuntimeError
    and the two LookupErrors, IndexError and KeyError. *)
Definition load_trial (data_reader : reader) (channels : list string)
    (num_onsets : nat) (trial_num_samples : Z) (trial_epoch : float * float)
    (baseline_num_samples : Z) (baseline_method : Z) (baseline_epoch : float * float)
    (out_of_bound_method : Z)
    (trial_idx : nat) (onset : float) (data : list (list (list float)))
  : M (list (list (list float))) :=
  bind (lift (Py.round ((onset + fst trial_epoch) * sampling_rate data_reader)%float))
    (fun trial_sample_start =>
  bind (lift (Py.round ((onset + fst baseline_epoch) * sampling_rate data_reader)%float))
    (fun baseline_abs =>
  let baseline_start_sample := baseline_abs - trial_sample_start in
  let baseline_end_sample := baseline_start_sample + baseline_num_samples in
  bind (trial_bounds out_of_bound_method
          (trial_idx =? 0)%nat (trial_idx =? num_onsets - 1)%nat true
          (num_samples data_reader) trial_num_samples trial_sample_start onset)
    (fun b =>
  match b with
  | BSkip => ret data
  | BWindow trial_sample_start trial_sample_end local_start local_end =>
      bind (if 0 <? baseline_method then
              if baseline_start_sample <? 0 then
                bind (logging ERROR (BaselineStartBeforeTrial onset))
                     (fun _ => raise RuntimeError)
              else if trial_num_samples <? baseline_end_sample then
                bind (logging ERROR (BaselineEndOutsideTrial onset))
                     (fun _ => raise RuntimeError)
              else if (baseline_start_sample <? local_start)
                      || (local_end <? baseline_end_sample) then
                bind (logging ERROR (BaselineInOutOfBoundPart onset))
                     (fun _ => raise RuntimeError)
              else ret tt
            else ret tt)
        (fun _ =>
      bind (lift (match retrieve_sample_range_data data_reader channels
                          trial_sample_start trial_sample_end with
                  | Raise (RuntimeError | IndexError | KeyError) => Raise RuntimeError
                  | r => r
                  end))
        (fun trial_data =>
           store_trial baseline_method trial_data baseline_start_sample
             baseline_end_sample trial_idx local_start local_end channels data))
  end))).

(** [__load_data_epochs__by_trial] (lines 467-578): trial by trial, one
    read of the trial's sample range for all channels. *)
Definition load_data_epochs_by_trial (data_reader : reader) (channels : list string)
    (onsets : list float) (trial_epoch : float * float) (baseline_method : Z)
    (baseline_epoch : float * float) (out_of_bound_method : Z)
  : M (float * list (list (list float))) :=
  bind (lift (epoch_num_samples trial_epoch (sampling_rate data_reader)))
    (fun trial_num_samples =>
  bind (lift (epoch_num_samples baseline_epoch (sampling_rate data_reader)))
    (fun baseline_num_samples =>
  let data := allocate_array (length channels) (length onsets) trial_num_samples in
  bind (for_each
          (load_trial data_reader channels (length onsets) trial_num_samples
             trial_epoch baseline_num_samples baseline_method baseline_epoch
             out_of_bound_method)
          0%nat onsets data)
    (fun data => ret (sampling_rate data_reader, data)))).

End WithNumpy.

End Bids.

(* ===================================================================== *)
(** * main_run.py: persisting the results around the detection *)
(* ===================================================================== *)

Module MainFlow.

Import Detection.







Section WithCollaborators.

Variable peak_finder : list float → option (list (Z * float)).
Variable nanstd : list float → float.
Variable cfg : n1_detect_config.
Variable cross_proj_enabled waveform_enabled : bool.


End WithCollaborators.


End MainFlow.

(* ===================================================================== *)
(** * Stand-ins for the collaborators, used to run the model on inputs *)
(* ===================================================================== *)

Module Instances.

(** A crude peak finder: the one global minimum of the signal (first
    position on ties), as index and magnitude; no peak on an empty signal. *)
Fixpoint argmin_from (best_i : Z) (best : float) (i : Z) (v : list float) : Z * float :=
  match v with
  | [] => (best_i, best)
  | x :: rest =>
      if PrimFloat.ltb x best then argmin_from i x (i + 1) rest
      else argmin_from best_i best (i + 1) rest
  end.

Definition argmin_peak_finder (signal : list float) : option (list (Z * float)) :=
  match signal with
  | [] => Some []
  | x :: rest => Some [argmin_from 0 x 1 rest]
  end.

(** Sum, mean and population standard deviation over the non-NaN elements,
    accumulated from left to right. *)
Definition seq_sum (v : list float) : float :=
  foldl (fun acc x => (acc + x)%float) 0%float v.

Definition drop_nan (v : list float) : list float :=
  filter (fun x => Is_true (negb (is_nan x))) v.

Definition seq_nanmean (v : list float) : float :=
  let w := drop_nan v in
  (seq_sum w / of_uint63 (Uint63.of_Z (Z.of_nat (length w))))%float.

Definition seq_nanstd (v : list float) : float :=
  let w := drop_nan v in
  let mu := seq_nanmean w in
  PrimFloat.sqrt
    (seq_sum ((fun x => ((x - mu) * (x - mu))%float) <$> w)
     / of_uint63 (Uint63.of_Z (Z.of_nat (length w))))%float.

(** A 'std_base' configuration sampled at 10 Hz: the peak search covers
    the samples after onset, the baseline the eight samples from one second
    before onset. *)
Definition cfg_std_base : Detection.n1_detect_config :=
  {| Detection.peak_search_epoch := (0, 0.5)%float;
     Detection.n1_search_epoch := (0, 0.5)%float;
     Detection.method := "std_base";
     Detection.std_base_baseline_epoch := Some (-1, -0.2)%float;
     Detection.std_base_baseline_threshold_factor := Some 3.4%float;
     Detection.cross_proj_threshold := None;
     Detection.waveform_threshold := None |}.

Definition cfg_cross_proj : Detection.n1_detect_config :=
  {| Detection.peak_search_epoch := (0, 0.5)%float;
     Detection.n1_search_epoch := (0, 0.5)%float;
     Detection.method := "cross_proj";
     Detection.std_base_baseline_epoch := None;
     Detection.std_base_baseline_threshold_factor := None;
     Detection.cross_proj_threshold := Some 3.5%float;
     Detection.waveform_threshold := None |}.

Definition cfg_waveform : Detection.n1_detect_config :=
  {| Detection.peak_search_epoch := (0, 0.5)%float;
     Detection.n1_search_epoch := (0, 0.5)%float;
     Detection.method := "waveform";
     Detection.std_base_baseline_epoch := None;
     Detection.std_base_baseline_threshold_factor := None;
     Detection.cross_proj_threshold := None;
     Detection.waveform_threshold := Some 1000%float |}.

(** One electrode, one stimulation pair, sixteen samples with the onset at
    sample 10: a baseline of standard deviation 10 and one trough of the
    given amplitude two samples after onset. *)
Definition row_with_trough (amplitude : float) : list float :=
  [10; -10; 10; -10; 10; -10; 10; -10; 0; 0; 0; 0; amplitude; 0; 0; 0]%float.

Definition data_with_trough (amplitude : float) : Detection.ndarray3 :=
  {| Detection.shape3 := (1, 1, 16)%nat;
     Detection.cells3 := [[row_with_trough amplitude]] |}.

(** The same with a stray NaN inside the peak-search window. *)
Definition data_with_nan : Detection.ndarray3 :=
  {| Detection.shape3 := (1, 1, 16)%nat;
     Detection.cells3 :=
       [[[10; -10; 10; -10; 10; -10; 10; -10; 0; 0; 0; nan; -171; 0; 0; 0]%float]] |}.

Definition metrics_1x1 (x : float) : Detection.ndarray2 :=
  {| Detection.shape2 := (1, 1)%nat; Detection.cells2 := [[x]] |}.

Definition metrics_2x1 (x y : float) : Detection.ndarray2 :=
  {| Detection.shape2 := (2, 1)%nat; Detection.cells2 := [[x]; [y]] |}.

End Instances.

(* ===================================================================== *)
(** * Small inputs on which the model is run *)
(* ===================================================================== *)

Module Examples.

(** Two included channels; three trials stimulate A-B and two B-A. *)
Definition channels_AB : list string := ["A"; "B"].

Definition trials_3_2 : list StimPairs.trial :=
  [(1, ("A", "B")); (2, ("B", "A")); (3, ("A", "B"));
   (4, ("B", "A")); (5, ("A", "B"))]%float.

(** A cell of a stimulated electrode: nothing but NaN after the onset. *)
Definition data_all_nan : Detection.ndarray3 :=
  {| Detection.shape3 := (1, 1, 16)%nat;
     Detection.cells3 :=
       [[[10; -10; 10; -10; 10; -10; 10; -10; 0; 0; 0; nan; nan; nan; nan; 0]%float]] |}.

(** A configuration whose peak-search window ends before it starts. *)
Definition cfg_inverted : Detection.n1_detect_config :=
  {| Detection.peak_search_epoch := (0.5, 0)%float;
     Detection.n1_search_epoch := (0, 0.5)%float;
     Detection.method := "std_base";
     Detection.std_base_baseline_epoch := Some (-1, -0.2)%float;
     Detection.std_base_baseline_threshold_factor := Some 3.4%float;
     Detection.cross_proj_threshold := None;
     Detection.waveform_threshold := None |}.

End Examples.

(* ===================================================================== *)
(** * What the epoching functions are to deliver *)
(* ===================================================================== *)

Module BidsSpec.

Import Bids.

(** ** The out-of-bound policy *)

(** The policy lets the trial window [start, start + num) through: a
    window that begins before the data needs [allow_first], one that ends
    after the data needs [allow_last]. *)
Definition permitted (out_of_bound_method : Z) (first last : bool)
    (size num start : Z) : Prop :=
  (start < 0 → (out_of_bound_method = 1 ∧ first = true) ∨ out_of_bound_method = 2) ∧
  (size < start + num → (out_of_bound_method = 1 ∧ last = true) ∨ out_of_bound_method = 2).

Global Instance permitted_dec m first last size num start :
  Decision (permitted m first last size num start).
Proof. unfold permitted. apply _. Defined.

(** Only warnings. *)
Definition warnings_only (l : log) : Prop := Forall (fun e => fst e = WARNING) l.

(** The window that is read and the slice of the row that it fills. *)
Definition aligned (size num start : Z) (b : bounds) : Prop :=
  match b with
  | BSkip => start + num < 0 ∨ size < start ∨ size < 0
  | BWindow s e ls le =>
      0 ≤ s ∧ s ≤ e ∧ e ≤ size ∧ 0 ≤ ls ∧ ls ≤ le ∧ le ≤ num ∧
      e - s = le - ls ∧ s - ls = start ∧
      (ls = 0 ∨ s = 0) ∧ (le = num ∨ e = size)
  end.

(** ** The epochs *)

(** The window [start, start + num) of a channel of [size] samples, with
    NaN wherever the window leaves the data. *)
Definition padded_row (size num start : Z) (chan : list float) : list float :=
  (fun k : nat =>
     let p := start + Z.of_nat k in
     if (0 <=? p) && (p <? size) then default nan (chan !! Z.to_nat p) else nan)
  <$> seq 0 (Z.to_nat num).

Definition nan_row (num : Z) : list float := replicate (Z.to_nat num) nan.

(** The samples [s, e) of a channel. *)
Definition window (s e : Z) (chan : list float) : list float :=
  take (Z.to_nat (e - s)) (drop (Z.to_nat s) chan).

(** An array given cell by cell. *)
Definition tensor {A} (n0 n1 : nat) (cell : nat → nat → A) : list (list A) :=
  (fun c => cell c <$> seq 0 n1) <$> seq 0 n0.

(** The samples as they are written: minus the mean or the median of the
    baseline, or as they are when there is no normalization. *)
Definition baselined (nanmean nanmedian : list float → float) (baseline_method : Z)
    (baseline samples : list float) : list float :=
  if baseline_method =? 1 then (fun x => (x - nanmean baseline)%float) <$> samples
  else if baseline_method =? 2 then (fun x => (x - nanmedian baseline)%float) <$> samples
  else samples.

(** The number of samples of a trial that lie before the recording. *)
Definition clamped (start : Z) : Z := Z.max 0 (- start).

(** The epoch of a trial on a channel: the trial begins at sample
    [mark.1], its baseline is read [shift mark.1] samples after sample
    [mark.2]; the samples of the channel are normalized by the baseline
    and the window of the trial is padded. *)
Definition epoch_row (nanmean nanmedian : list float → float) (baseline_method : Z)
    (size num bnum : Z) (shift : Z → Z) (chan : list float) (mark : Z * Z)
  : list float :=
  padded_row size num mark.1
    (baselined nanmean nanmedian baseline_method
       (window (mark.2 + shift mark.1) (mark.2 + shift mark.1 + bnum) chan) chan).

(** The array of all epochs (channel x trial x time). *)
Definition epochs (nanmean nanmedian : list float → float) (baseline_method : Z)
    (size num bnum : Z) (shift : Z → Z) (marks : list (Z * Z))
    (chans : list (list float)) : list (list (list float)) :=
  (fun chan =>
     epoch_row nanmean nanmedian baseline_method size num bnum shift chan <$> marks)
  <$> chans.

(** The first samples of the trials and of their baselines, as the loops
    compute them from the onsets. *)
Definition marks_of (sampling_rate : float) (trial_epoch baseline_epoch : float * float)
    (onsets : list float) (marks : list (Z * Z)) : Prop :=
  Forall2 (fun onset mark =>
             Py.round ((onset + fst trial_epoch) * sampling_rate) = Ok mark.1 ∧
             Py.round ((onset + fst baseline_epoch) * sampling_rate) = Ok mark.2)
    onsets marks.

(** Every trial is let through; the first and the last trial are the ones
    that the loops test for. *)
Definition all_permitted (out_of_bound_method size num : Z) (marks : list (Z * Z))
  : Prop :=
  ∀ t mark, marks !! t = Some mark →
    permitted out_of_bound_method (t =? 0)%nat (t =? length marks - 1)%nat
      size num mark.1.

(** Some trial is refused. *)
Definition some_refused (out_of_bound_method size num : Z) (marks : list (Z * Z))
  : Prop :=
  ∃ t mark, marks !! t = Some mark ∧
    ¬ permitted out_of_bound_method (t =? 0)%nat (t =? length marks - 1)%nat
        size num mark.1.

(** With normalization, the baseline of every trial lies inside the
    recording. *)
Definition baselines_in_data (baseline_method size bnum : Z) (marks : list (Z * Z))
  : Prop :=
  baseline_method ≠ 0 →
  Forall (fun mark => 0 ≤ mark.2 ∧ mark.2 + bnum ≤ size) marks.

(** With normalization, the baseline of every trial begins in the
    recorded part of the trial, and the samples that are read for it lie
    in that part. *)
Definition baselines_in_trial (baseline_method size num bnum : Z)
    (marks : list (Z * Z)) : Prop :=
  baseline_method ≠ 0 →
  Forall (fun mark => Z.max 0 mark.1 ≤ mark.2 ∧
                      mark.2 + clamped mark.1 + bnum ≤ mark.1 + num ∧
                      mark.2 + clamped mark.1 + bnum ≤ size) marks.

(** With normalization, every trial begins inside the recording. *)
Definition trials_begin_in_data (baseline_method : Z) (marks : list (Z * Z)) : Prop :=
  baseline_method ≠ 0 → Forall (fun mark => 0 ≤ mark.1) marks.

(** ** The reader over a recording held as lists *)

(** The reader serves the channels [channels], whose series are [chans]. *)
Definition channel_reader (r : reader) (channels : list string)
    (chans : list (list float)) : Prop :=
  Forall2 (fun name chan => retrieve_channel_data r name = Ok chan) channels chans.

Definition range_reader (r : reader) (channels : list string)
    (chans : list (list float)) : Prop :=
  ∀ s e, 0 ≤ s → s ≤ e → e ≤ num_samples r →
    retrieve_sample_range_data r channels s e = Ok (window s e <$> chans).

End BidsSpec.

(* ===================================================================== *)
(** * A recording held in memory *)
(* ===================================================================== *)

Module Recording.

Import Bids BidsSpec.

(** The series of the channel [name]. *)
Fixpoint channel_series (names : list string) (chans : list (list float))
    (name : string) : option (list float) :=
  match names, chans with
  | n :: names, chan :: chans =>
      if String.eqb n name then Some chan else channel_series names chans name
  | _, _ => None
  end.

(** The samples [s, e) of the channels [wanted], one row per channel. *)
Fixpoint range_series (names : list string) (chans : list (list float))
    (wanted : list string) (s e : Z) : result (list (list float)) :=
  match wanted with
  | [] => Ok []
  | name :: wanted =>
      chan <- of_option KeyError (channel_series names chans name) ;;
      rows <- range_series names chans wanted s e ;;
      Ok (window s e chan :: rows)
  end.

(** A reader that serves the channels [names] from the lists [chans]. *)
Definition list_reader (format : Z) (rate : float) (size : Z)
    (names : list string) (chans : list (list float)) : reader :=
  {| data_format := format;
     sampling_rate := rate;
     num_samples := size;
     retrieve_channel_data := fun name =>
       of_option KeyError (channel_series names chans name);
     retrieve_sample_range_data := range_series names chans |}.

(** Two channels of six samples, sampled at 2 Hz. *)
Definition series_AB : list (list float) :=
  [[1; 2; 3; 4; 5; 6]; [11; 12; 13; 14; 15; 16]]%float.

Definition reader_AB : reader :=
  list_reader 0 2%float 6 Examples.channels_AB series_AB.

(** Two trials of two seconds around the onsets: the first begins with
    the recording, the last ends one second after it. *)
Definition onsets_2 : list float := [1; 3]%float.
Definition marks_2 : list (Z * Z) := [(0, 0); (4, 4)].
(** Two trials of which the first begins one sample before the recording;
    the baselines are the half second before the onsets. *)
Definition onsets_early : list float := [0.5; 3]%float.
Definition marks_early : list (Z * Z) := [(-1, 0); (4, 5)].
Definition baseline_before : float * float := (-0.5, 0)%float.

Definition epoch_2s : float * float := (-1, 1)%float.
Definition baseline_half : float * float := (-1, -0.5)%float.

End Recording.

(* ===================================================================== *)
(** * Facts about slices and two-dimensional updates *)
(* ===================================================================== *)

Module PyFacts.

Lemma norm_index_le n i : (Py.norm_index n i ≤ n)%nat.
Proof. unfold Py.norm_index. destruct (Z.ltb_spec i 0); lia. Qed.

Lemma slice_bounds_spec n a b lo hi :
  Py.slice_bounds n a b = (lo, hi) → (lo ≤ hi ∧ hi ≤ n)%nat.
Proof.
  unfold Py.slice_bounds. intros [= <- <-].
  pose proof (norm_index_le n a). pose proof (norm_index_le n b). lia.
Qed.

Lemma slice_length {A} (l : list A) a b lo hi :
  Py.slice_bounds (length l) a b = (lo, hi) →
  length (Py.slice l a b) = (hi - lo)%nat.
Proof.
  intros H. unfold Py.slice. rewrite H.
  apply slice_bounds_spec in H.
  rewrite length_take, length_drop. lia.
Qed.

Lemma slice_lookup {A} (l : list A) a b lo hi k :
  Py.slice_bounds (length l) a b = (lo, hi) →
  Py.slice l a b !! k = if decide (k < hi - lo)%nat then l !! (lo + k)%nat else None.
Proof.
  intros H. unfold Py.slice. rewrite H.
  case_decide.
  - rewrite lookup_take_lt by done. by rewrite lookup_drop.
  - rewrite lookup_take_ge; [done | lia].
Qed.

Lemma slice_map_length {A} (f : A → A) l a b :
  length (Py.slice_map f l a b) = length l.
Proof.
  unfold Py.slice_map.
  destruct (Py.slice_bounds (length l) a b) as [lo hi] eqn:H.
  apply slice_bounds_spec in H.
  rewrite !length_app, length_fmap, !length_take, !length_drop. lia.
Qed.

(** Position by position: inside the slice the element is rewritten,
    outside it is kept. *)
Lemma slice_map_lookup {A} (f : A → A) l a b k :
  Py.slice_map f l a b !! k =
    if Py.in_slice (length l) a b k then f <$> l !! k else l !! k.
Proof.
  unfold Py.slice_map, Py.in_slice.
  destruct (Py.slice_bounds (length l) a b) as [lo hi] eqn:H.
  apply slice_bounds_spec in H.
  destruct (Nat.leb_spec lo k) as [Hlo | Hlo]; simpl.
  - rewrite lookup_app_r by (rewrite length_take; lia).
    rewrite length_take, Nat.min_l by lia.
    destruct (Nat.ltb_spec k hi) as [Hhi | Hhi].
    + rewrite lookup_app_l
        by (rewrite length_fmap, length_take, length_drop; lia).
      rewrite list_lookup_fmap, lookup_take_lt by lia.
      rewrite lookup_drop. do 2 f_equal. lia.
    + rewrite lookup_app_r
        by (rewrite length_fmap, length_take, length_drop; lia).
      rewrite length_fmap, length_take, length_drop, lookup_drop.
      f_equal. lia.
  - rewrite lookup_app_l by (rewrite length_take; lia).
    by rewrite lookup_take_lt by lia.
Qed.

Lemma in_slice_spec n a b lo hi k :
  Py.slice_bounds n a b = (lo, hi) →
  Py.in_slice n a b k = true ↔ (lo ≤ k ∧ k < hi)%nat.
Proof.
  intros H. unfold Py.in_slice. rewrite H.
  rewrite andb_true_iff, Nat.leb_le, Nat.ltb_lt. done.
Qed.

(** Reading the slice back after the in-place rewrite. *)
Lemma slice_slice_map {A} (f : A → A) l a b :
  Py.slice (Py.slice_map f l a b) a b = f <$> Py.slice l a b.
Proof.
  destruct (Py.slice_bounds (length l) a b) as [lo hi] eqn:H.
  apply list_eq. intros k.
  rewrite (slice_lookup _ a b lo hi) by (by rewrite slice_map_length).
  rewrite list_lookup_fmap, (slice_lookup l a b lo hi) by done.
  case_decide; [| done].
  rewrite slice_map_lookup.
  assert (Py.in_slice (length l) a b (lo + k) = true) as ->; [| done].
  apply (in_slice_spec _ _ _ lo hi); [done | lia].
Qed.

Import Detection.

Lemma get2_set2_eq {A} (m : list (list A)) i j x :
  get2 (set2 i j x m) i j = (fun _ => x) <$> get2 m i j.
Proof.
  unfold get2, set2. rewrite list_lookup_alter_eq.
  destruct (m !! i) as [r |]; simpl; [| done].
  destruct (r !! j) as [y |] eqn:Hj; simpl.
  - apply list_lookup_insert_eq. by eapply lookup_lt_Some.
  - rewrite list_insert_ge; [done |]. by apply lookup_ge_None.
Qed.

Lemma get2_set2_ne {A} (m : list (list A)) i j i' j' x :
  (i, j) ≠ (i', j') → get2 (set2 i j x m) i' j' = get2 m i' j'.
Proof.
  intros Hne. unfold get2, set2.
  destruct (decide (i = i')) as [<- | Hi].
  - rewrite list_lookup_alter_eq.
    destruct (m !! i) as [r |]; simpl; [| done].
    apply list_lookup_insert_ne. congruence.
  - by rewrite list_lookup_alter_ne.
Qed.

Lemma get2_replicate {A} n0 n1 (x : A) i j :
  (i < n0)%nat → (j < n1)%nat →
  get2 (replicate n0 (replicate n1 x)) i j = Some x.
Proof.
  intros Hi Hj. unfold get2.
  rewrite lookup_replicate_2 by done. simpl.
  by rewrite lookup_replicate_2.
Qed.

Lemma elem_of_cell_order n0 n1 i j :
  (i, j) ∈ cell_order n0 n1 ↔ (i < n0 ∧ j < n1)%nat.
Proof.
  unfold cell_order. rewrite list_elem_of_bind. split.
  - intros (i' & Hin & Hi'). apply list_elem_of_fmap in Hin as (j' & [= -> ->] & Hj').
    apply elem_of_seq in Hi', Hj'. lia.
  - intros [Hi Hj]. exists i. split.
    + apply list_elem_of_fmap. exists j. split; [done |]. apply elem_of_seq. lia.
    + apply elem_of_seq. lia.
Qed.

Lemma NoDup_cell_order n0 n1 : NoDup (cell_order n0 n1).
Proof.
  unfold cell_order. apply NoDup_bind.
  - intros i i' c _ _ Hc Hc'.
    apply list_elem_of_fmap in Hc as (? & -> & _).
    apply list_elem_of_fmap in Hc' as (? & [= -> _] & _). done.
  - intros i _. apply NoDup_fmap_2; [| apply NoDup_seq].
    intros ?? [= ->]. done.
  - apply NoDup_seq.
Qed.

End PyFacts.

(* ===================================================================== *)
(** * Facts about app/detection.py *)
(* ===================================================================== *)

Module DetectionFacts.

Import Detection PyFacts.

Section WithCollaborators.

Variable peak_finder : list float → option (list (Z * float)).
Variable nanstd : list float → float.
Variable cfg : n1_detect_config.
Variable cross_proj_metrics waveform_metrics : option ndarray2.

Local Abbreviation n1_cell := (n1_cell peak_finder nanstd cross_proj_metrics waveform_metrics).
Local Abbreviation detect_cell := (detect_cell peak_finder nanstd cross_proj_metrics waveform_metrics).
Local Abbreviation run_cells := (run_cells peak_finder nanstd cross_proj_metrics waveform_metrics).
Local Abbreviation detect_prologue := (detect_prologue cfg waveform_metrics).
Local Abbreviation ieeg_detect_n1 :=
  (ieeg_detect_n1 peak_finder nanstd cfg cross_proj_metrics waveform_metrics).

(** The three arrays agree at one cell in two states. *)
Definition same_cell (st st' : det_state) (i j : nat) : Prop :=
  get2 (st_data st') i j = get2 (st_data st) i j ∧
  get2 (st_indices st') i j = get2 (st_indices st) i j ∧
  get2 (st_amplitudes st') i j = get2 (st_amplitudes st) i j.

(** The effect of a completed iteration on its own cell. *)
Definition cell_post (mp : method_params) (w : windows)
    (st st' : det_state) (i j : nat) : Prop :=
  ∃ row,
    get2 (st_data st) i j = Some row ∧
    get2 (st_data st') i j = Some (snd (n1_cell mp w i j row)) ∧
    match fst (n1_cell mp w i j row) with
    | Ok Skip =>
        get2 (st_indices st') i j = get2 (st_indices st) i j ∧
        get2 (st_amplitudes st') i j = get2 (st_amplitudes st) i j
    | Ok (Peak index amplitude) =>
        get2 (st_indices st') i j = (fun _ => Some index) <$> get2 (st_indices st) i j ∧
        get2 (st_amplitudes st') i j = (fun _ => amplitude) <$> get2 (st_amplitudes st) i j
    | Raise _ => False
    end.

(** The data row of a cell after any number of iterations: untouched, or
    the NaNs of its peak-search window zeroed. *)
Definition row_touched (w : windows) (row row' : list float) : Prop :=
  let a := peak_search_start_sample w + 1 in
  let b := peak_search_end_sample w in
  row' = row ∨
  (all_nan (Py.slice row a b) = false ∧ row' = Py.slice_map nan_to_zero row a b).

Lemma n1_cell_row mp w i j row :
  row_touched w row (snd (n1_cell mp w i j row)).
Proof.
  unfold row_touched, Detection.n1_cell.
  destruct (all_nan _) eqn:Hall; simpl; [by left | by right].
Qed.

Lemma detect_cell_other mp w c st e st' i j :
  detect_cell mp w c st = (e, st') → c ≠ (i, j) → same_cell st st' i j.
Proof.
  destruct c as [i0 j0]. unfold Detection.detect_cell, same_cell.
  destruct (get2 (st_data st) i0 j0) as [row |]; [| by intros [= <- <-]].
  destruct (Detection.n1_cell _ _ _ _ _ _ _ _ row) as [r row'].
  intros Hst Hne.
  destruct r as [[| index amplitude] | e0]; injection Hst as <- <-; simpl;
    rewrite ?get2_set2_ne by done; done.
Qed.

Lemma detect_cell_done mp w i j st st' :
  detect_cell mp w (i, j) st = (None, st') → cell_post mp w st st' i j.
Proof.
  unfold Detection.detect_cell, cell_post.
  destruct (get2 (st_data st) i j) as [row |] eqn:Hrow; [| done].
  destruct (Detection.n1_cell _ _ _ _ _ _ _ _ row) as [r row'] eqn:Hcell.
  intros Hst. exists row. rewrite Hcell. split; [done |].
  destruct r as [[| index amplitude] | e0]; [| | done]; injection Hst as <-; simpl;
    rewrite ?get2_set2_eq, ?Hrow; done.
Qed.

(** A data row is read and written back by the iteration of its own
    cell only. *)
Lemma detect_cell_data mp w i j st e st' :
  detect_cell mp w (i, j) st = (e, st') →
  get2 (st_data st') i j =
    (fun row => snd (n1_cell mp w i j row)) <$> get2 (st_data st) i j.
Proof.
  unfold Detection.detect_cell.
  destruct (get2 (st_data st) i j) as [row |] eqn:Hrow; [| by intros [= <- <-]; rewrite Hrow].
  destruct (Detection.n1_cell _ _ _ _ _ _ _ _ row) as [r row'] eqn:Hcell.
  intros Hst.
  destruct r as [[| index amplitude] | e0]; injection Hst as <- <-; simpl;
    rewrite get2_set2_eq, Hrow; simpl; rewrite Hcell; done.
Qed.

(** The loop, when it runs to its end: every cell of the list got the
    effect of its iteration, every other cell is as before. *)
Lemma run_cells_done mp w cells st st' :
  NoDup cells → run_cells mp w cells st = (None, st') →
  ∀ i j, if decide ((i, j) ∈ cells)
         then cell_post mp w st st' i j
         else same_cell st st' i j.
Proof.
  intros Hnd. revert st.
  induction Hnd as [| c cells Hc Hnd IH]; intros st Hrun i j; simpl in Hrun.
  - injection Hrun as <-. rewrite decide_False by apply not_elem_of_nil. done.
  - destruct (detect_cell mp w c st) as [[e |] st1] eqn:Hstep; [done |].
    specialize (IH _ Hrun i j).
    destruct (decide (c = (i, j))) as [-> | Hne].
    + rewrite decide_True by apply list_elem_of_here.
      rewrite decide_False in IH by done.
      apply detect_cell_done in Hstep as (row & Hrow & Hrow' & Hout).
      destruct IH as (Hd & Hi & Ha).
      exists row. rewrite Hd, Hi, Ha. done.
    + pose proof (detect_cell_other _ _ _ _ _ _ i j Hstep Hne) as (Hd & Hi & Ha).
      destruct (decide ((i, j) ∈ cells)) as [Hin | Hin].
      * rewrite decide_True by (by apply list_elem_of_further).
        destruct IH as (row & Hrow & Hrow' & Hout).
        exists row. rewrite <- Hd, <- Hi, <- Ha. done.
      * rewrite decide_False by (rewrite elem_of_cons; naive_solver).
        destruct IH as (Hd' & Hi' & Ha').
        unfold same_cell. rewrite Hd', Hi', Ha'. done.
Qed.

(** Cells that the loop does not visit are as before, however it ends. *)
Lemma run_cells_other mp w cells st e st' i j :
  run_cells mp w cells st = (e, st') → (i, j) ∉ cells → same_cell st st' i j.
Proof.
  revert st. induction cells as [| c cells IH]; intros st Hrun Hnin; simpl in Hrun.
  - by injection Hrun as <- <-.
  - apply not_elem_of_cons in Hnin as [Hne Hnin].
    destruct (detect_cell mp w c st) as [o st1] eqn:Hstep.
    pose proof (detect_cell_other _ _ _ _ _ _ i j Hstep (not_eq_sym Hne))
      as (Hd & Hi & Ha).
    destruct o as [e0 |].
    + by injection Hrun as <- <-.
    + destruct (IH _ Hrun Hnin) as (Hd' & Hi' & Ha').
      unfold same_cell. by rewrite Hd', Hi', Ha'.
Qed.

(** The loop, however it ends: a data row is either untouched or has the
    NaNs of its search window zeroed. *)
Lemma run_cells_rows mp w cells st e st' :
  NoDup cells → run_cells mp w cells st = (e, st') →
  ∀ i j, match get2 (st_data st) i j with
         | Some row => ∃ row', get2 (st_data st') i j = Some row' ∧ row_touched w row row'
         | None => get2 (st_data st') i j = None
         end.
Proof.
  intros Hnd. revert st.
  induction Hnd as [| c cells Hc Hnd IH]; intros st Hrun i j; simpl in Hrun.
  - injection Hrun as <- <-. destruct (get2 _ i j); [| done].
    eexists. split; [done | by left].
  - destruct (detect_cell mp w c st) as [o st1] eqn:Hstep.
    assert (get2 (st_data st') i j = get2 (st_data st1) i j ∨
            (c ≠ (i, j) ∧ o = None)) as Hrest.
    { destruct o as [e0 |]; [left; by injection Hrun as <- <- |].
      destruct (decide (c = (i, j))) as [-> | Hne]; [left | by right].
      by destruct (run_cells_other _ _ _ _ _ _ _ _ Hrun Hc). }
    destruct (decide (c = (i, j))) as [-> | Hne].
    + destruct Hrest as [-> | [? _]]; [| done].
      rewrite (detect_cell_data _ _ _ _ _ _ _ Hstep).
      destruct (get2 (st_data st) i j) as [row |]; simpl; [| done].
      eexists. split; [done |]. apply n1_cell_row.
    + pose proof (detect_cell_other _ _ _ _ _ _ i j Hstep Hne) as (Hd & _).
      destruct Hrest as [-> | [_ ->]].
      * rewrite Hd. destruct (get2 (st_data st) i j); [| done].
        eexists. split; [done | by left].
      * specialize (IH _ Hrun i j). by rewrite Hd in IH.
Qed.

End WithCollaborators.

End DetectionFacts.

(* ===================================================================== *)
(** * app/detection.py: what a returned detection holds, cell by cell *)
(* ===================================================================== *)

Module DetectionClaims.

Import Detection PyFacts DetectionFacts.

Section WithCollaborators.

Variable peak_finder : list float → option (list (Z * float)).
Variable nanstd : list float → float.
Variable cfg : n1_detect_config.
Variable cross_proj_metrics waveform_metrics : option ndarray2.

Local Abbreviation n1_cell := (n1_cell peak_finder nanstd cross_proj_metrics waveform_metrics).
Local Abbreviation classify := (classify nanstd cross_proj_metrics waveform_metrics).
Local Abbreviation detect_prologue := (detect_prologue cfg waveform_metrics).
Local Abbreviation ieeg_detect_n1 :=
  (ieeg_detect_n1 peak_finder nanstd cfg cross_proj_metrics waveform_metrics).

(** The cell is left without a detection / holds the given peak. *)
Definition no_detection (out : list (list (option Z)) * list (list float))
    (i j : nat) : Prop :=
  get2 (fst out) i j = Some None ∧ get2 (snd out) i j = Some nan.

Definition detection (out : list (list (option Z)) * list (list float))
    (i j : nat) (index : Z) (amplitude : float) : Prop :=
  get2 (fst out) i j = Some (Some index) ∧ get2 (snd out) i j = Some amplitude.

Definition holds_verdict (out : list (list (option Z)) * list (list float))
    (i j : nat) (v : result verdict) : Prop :=
  match v with
  | Ok Skip => no_detection out i j
  | Ok (Peak index amplitude) => detection out i j index amplitude
  | Raise _ => False
  end.

(** When the call returns its two arrays, the prologue went through, and
    every cell holds the verdict of its own iteration on the caller's row;
    the caller's row is left as that iteration leaves it. *)
Lemma detect_returned data stim_onset_index sampling_rate out data' :
  ieeg_detect_n1 data stim_onset_index sampling_rate = (Returned (Some out), data') →
  ∃ mp w,
    detect_prologue data stim_onset_index sampling_rate = Ok (Some (mp, w)) ∧
    shape3 data' = shape3 data ∧
    ∀ i j, (i < fst (fst (shape3 data)))%nat → (j < snd (fst (shape3 data)))%nat →
      ∃ row,
        get2 (cells3 data) i j = Some row ∧
        get2 (cells3 data') i j = Some (snd (n1_cell mp w i j row)) ∧
        holds_verdict out i j (fst (n1_cell mp w i j row)).
Proof.
  unfold Detection.ieeg_detect_n1.
  destruct (detect_prologue _ _ _) as [[[mp w] |] | e]; [| done | done].
  destruct (Detection.run_cells _ _ _ _ _ _ _ _) as [[e |] st] eqn:Hrun; [done |].
  intros [= <- <-]. exists mp, w. split; [done |]. split; [done |].
  intros i j Hi Hj.
  pose proof (run_cells_done _ _ _ _ _ _ _ _ _ (NoDup_cell_order _ _) Hrun i j) as Hpost.
  rewrite decide_True in Hpost by (by apply elem_of_cell_order).
  destruct Hpost as (row & Hrow & Hrow' & Hout). simpl in *.
  exists row. split; [done |]. split; [done |].
  rewrite !get2_replicate in Hout by done.
  unfold holds_verdict, no_detection, detection.
  destruct (fst (n1_cell mp w i j row)) as [[| index amplitude] | e]; done.
Qed.

(** The iteration of a cell whose search window is not all NaN and whose
    selected peak is neither positive nor saturated: the verdict is the
    method's. *)
Lemma n1_cell_classified mp w i j row index amplitude :
  let a := peak_search_start_sample w + 1 in
  let b := peak_search_end_sample w in
  let row' := Py.slice_map nan_to_zero row a b in
  all_nan (Py.slice row a b) = false →
  select_peak peak_finder w (Py.slice row' a b) = Ok (Some (index, amplitude)) →
  PrimFloat.ltb 0 amplitude = false →
  PrimFloat.ltb 3000 (abs amplitude) = false →
  fst (n1_cell mp w i j row) = classify mp w i j row' index amplitude.
Proof.
  intros a b row' Hall Hsel Hpos Hsat. unfold Detection.n1_cell.
  fold a b. rewrite Hall. fold row'. simpl. rewrite Hsel. simpl.
  by rewrite Hpos, Hsat.
Qed.

(** The iteration of a cell whose selected peak is positive or saturated
    ends in a [continue]. *)
Lemma n1_cell_rejected mp w i j row index amplitude :
  let a := peak_search_start_sample w + 1 in
  let b := peak_search_end_sample w in
  let row' := Py.slice_map nan_to_zero row a b in
  all_nan (Py.slice row a b) = false →
  select_peak peak_finder w (Py.slice row' a b) = Ok (Some (index, amplitude)) →
  PrimFloat.ltb 0 amplitude = true ∨ PrimFloat.ltb 3000 (abs amplitude) = true →
  fst (n1_cell mp w i j row) = Ok Skip.
Proof.
  intros a b row' Hall Hsel Hrej. unfold Detection.n1_cell.
  fold a b. rewrite Hall. fold row'. simpl. rewrite Hsel. simpl.
  destruct (PrimFloat.ltb 0 amplitude); [done |].
  destruct Hrej as [? | ->]; done.
Qed.

(** The prologue of a 'std_base' call binds the factor of the
    configuration and maps the configured baseline window to samples. *)
Lemma prologue_std_base data stim_onset_index sampling_rate mp w :
  method cfg = "std_base" →
  detect_prologue data stim_onset_index sampling_rate = Ok (Some (mp, w)) →
  ∃ baseline_epoch factor bs be,
    mp = MStdBase baseline_epoch factor ∧
    std_base_baseline_epoch cfg = Some baseline_epoch ∧
    std_base_baseline_threshold_factor cfg = Some factor ∧
    to_sample (fst baseline_epoch) sampling_rate stim_onset_index = Ok bs ∧
    to_sample (snd baseline_epoch) sampling_rate stim_onset_index = Ok be ∧
    baseline_samples w = Some (bs, be).
Proof.
  intros Hm. unfold Detection.detect_prologue, read_method_params, check_method_input.
  destruct (shape3 data) as [[n0 n1] n2]. rewrite Hm. simpl.
  destruct (std_base_baseline_epoch cfg) as [baseline_epoch |]; [| done].
  destruct (std_base_baseline_threshold_factor cfg) as [factor |]; [| done].
  simpl.
  destruct (to_sample (fst (peak_search_epoch cfg)) _ _) as [pss |]; [| done].
  destruct (to_sample (snd (peak_search_epoch cfg)) _ _) as [pse |]; [| done].
  simpl. destruct (pse <? pss); [done |].
  destruct (Z.of_nat n2 <? pse); [done |].
  destruct (to_sample (fst (n1_search_epoch cfg)) _ _) as [n1s |]; [| done].
  destruct (to_sample (snd (n1_search_epoch cfg)) _ _) as [n1e |]; [| done].
  simpl. destruct (n1e <? n1s); [done |].
  destruct (to_sample (fst baseline_epoch) _ _) as [bs |] eqn:Hbs; [| done].
  destruct (to_sample (snd baseline_epoch) _ _) as [be |] eqn:Hbe; [| done].
  simpl. intros [= <- <-]. by exists baseline_epoch, factor, bs, be.
Qed.

(** C1.  In a 'std_base' call that returns its arrays, take a cell whose
    peak-search signal is not all NaN and whose selected peak is neither
    positive nor saturated.  The standard deviation of the configured
    baseline window of the cell is computed, and the cell is skipped when
    that window is all NaN; the deviation is raised to 50 when smaller; the
    peak is stored (index and amplitude) exactly when its absolute amplitude
    is at least the configured factor times the clamped deviation, and the
    cell is left without a detection otherwise.  With factor 3.4 and a
    baseline deviation of 10, a peak of -169 is rejected and one of -171 is
    stored. *)
Theorem std_base_threshold data stim_onset_index sampling_rate out data' mp w :
  method cfg = "std_base" →
  ieeg_detect_n1 data stim_onset_index sampling_rate = (Returned (Some out), data') →
  detect_prologue data stim_onset_index sampling_rate = Ok (Some (mp, w)) →
  ∃ baseline_epoch factor bs be,
    std_base_baseline_epoch cfg = Some baseline_epoch ∧
    std_base_baseline_threshold_factor cfg = Some factor ∧
    to_sample (fst baseline_epoch) sampling_rate stim_onset_index = Ok bs ∧
    to_sample (snd baseline_epoch) sampling_rate stim_onset_index = Ok be ∧
    ∀ i j row index amplitude,
      (i < fst (fst (shape3 data)))%nat → (j < snd (fst (shape3 data)))%nat →
      get2 (cells3 data) i j = Some row →
      let a := peak_search_start_sample w + 1 in
      let b := peak_search_end_sample w in
      let row' := Py.slice_map nan_to_zero row a b in
      all_nan (Py.slice row a b) = false →
      select_peak peak_finder w (Py.slice row' a b) = Ok (Some (index, amplitude)) →
      PrimFloat.ltb 0 amplitude = false →
      PrimFloat.ltb 3000 (abs amplitude) = false →
      let baseline := Py.slice row' bs be in
      let std := nanstd baseline in
      let clamped := if PrimFloat.ltb std 50 then 50%float else std in
      (all_nan baseline = true → no_detection out i j) ∧
      (all_nan baseline = false →
         (PrimFloat.leb (factor * abs clamped) (abs amplitude) = true ↔
            detection out i j index amplitude) ∧
         (PrimFloat.leb (factor * abs clamped) (abs amplitude) = false ↔
            no_detection out i j) ∧
         (factor = 3.4%float → std = 10%float → amplitude = (-169)%float →
            no_detection out i j) ∧
         (factor = 3.4%float → std = 10%float → amplitude = (-171)%float →
            detection out i j index (-171)%float)).
Proof.
  intros Hm Hret Hpro.
  destruct (prologue_std_base _ _ _ _ _ Hm Hpro)
    as (baseline_epoch & factor & bs & be & -> & Hbe & Hf & Hbs & Hbe' & Hw).
  exists baseline_epoch, factor, bs, be. do 4 (split; [done |]).
  intros i j row index amplitude Hi Hj Hrow a b row' Hall Hsel Hpos Hsat
    baseline std clamped.
  destruct (detect_returned _ _ _ _ _ Hret) as (mp' & w' & Hpro' & _ & Hcells).
  rewrite Hpro in Hpro'. injection Hpro' as <- <-.
  destruct (Hcells i j Hi Hj) as (row0 & Hrow0 & _ & Hv).
  rewrite Hrow in Hrow0. injection Hrow0 as <-.
  rewrite (n1_cell_classified _ _ _ _ _ _ _ Hall Hsel Hpos Hsat) in Hv.
  unfold Detection.classify in Hv. rewrite Hw in Hv.
  fold a b row' baseline in Hv.
  destruct (all_nan baseline) eqn:Hbase; [by split |].
  split; [done | intros _].
  fold std clamped in Hv.
  assert (∀ k x, detection out i j k x → no_detection out i j → False) as Hexcl.
  { intros k x [Hd _] [Hn _]. congruence. }
  destruct (PrimFloat.leb _ _) eqn:Hleb; simpl in Hv.
  - split; [done |]. split; [split; [done | intros Hn; by destruct (Hexcl _ _ Hv Hn)] |].
    split.
    + intros -> Hstd ->. subst clamped. rewrite Hstd in Hleb.
      vm_compute in Hleb. done.
    + by intros _ _ <-.
  - split; [split; [done | intros Hd; by destruct (Hexcl _ _ Hd Hv)] |].
    split; [done |]. split; [done |].
    intros -> Hstd ->. subst clamped. rewrite Hstd in Hleb.
    vm_compute in Hleb. done.
Qed.

(** C2.  In a call that returns its arrays, whatever the method: the peak
    selected for a cell is not stored when it is positive or when its
    absolute amplitude exceeds 3000; a selected peak of -3001 is never
    stored, and one of -2999 is stored by 'std_base' as soon as it reaches
    the method's threshold. *)
Theorem polarity_and_saturation data stim_onset_index sampling_rate out data' mp w
    i j row index amplitude :
  ieeg_detect_n1 data stim_onset_index sampling_rate = (Returned (Some out), data') →
  detect_prologue data stim_onset_index sampling_rate = Ok (Some (mp, w)) →
  (i < fst (fst (shape3 data)))%nat → (j < snd (fst (shape3 data)))%nat →
  get2 (cells3 data) i j = Some row →
  let a := peak_search_start_sample w + 1 in
  let b := peak_search_end_sample w in
  let row' := Py.slice_map nan_to_zero row a b in
  all_nan (Py.slice row a b) = false →
  select_peak peak_finder w (Py.slice row' a b) = Ok (Some (index, amplitude)) →
  (PrimFloat.ltb 0 amplitude = true ∨ PrimFloat.ltb 3000 (abs amplitude) = true →
     no_detection out i j) ∧
  (amplitude = (-3001)%float → no_detection out i j) ∧
  (amplitude = (-2999)%float →
     ∀ baseline_epoch factor bs be,
       mp = MStdBase baseline_epoch factor →
       baseline_samples w = Some (bs, be) →
       let baseline := Py.slice row' bs be in
       let std := nanstd baseline in
       let clamped := if PrimFloat.ltb std 50 then 50%float else std in
       all_nan baseline = false →
       PrimFloat.leb (factor * abs clamped) 2999 = true →
       detection out i j index (-2999)%float).
Proof.
  intros Hret Hpro Hi Hj Hrow a b row' Hall Hsel.
  destruct (detect_returned _ _ _ _ _ Hret) as (mp' & w' & Hpro' & _ & Hcells).
  rewrite Hpro in Hpro'. injection Hpro' as <- <-.
  destruct (Hcells i j Hi Hj) as (row0 & Hrow0 & _ & Hv).
  rewrite Hrow in Hrow0. injection Hrow0 as <-.
  assert (PrimFloat.ltb 0 amplitude = true ∨ PrimFloat.ltb 3000 (abs amplitude) = true →
          no_detection out i j) as Hrej.
  { intros Hrej. by rewrite (n1_cell_rejected _ _ _ _ _ _ _ Hall Hsel Hrej) in Hv. }
  split; [done |]. split.
  - intros ->. apply Hrej. by right.
  - intros -> baseline_epoch factor bs be -> Hw baseline std clamped Hbase Hleb.
    rewrite (n1_cell_classified _ _ _ _ _ _ _ Hall Hsel) in Hv by done.
    unfold Detection.classify in Hv. rewrite Hw in Hv.
    fold a b row' baseline in Hv. rewrite Hbase in Hv.
    fold std clamped in Hv.
    change (abs (-2999)) with 2999%float in Hv. by rewrite Hleb in Hv.
Qed.

End WithCollaborators.

Import Instances.

(** The theorem at work on one cell with a baseline deviation of 10 and a
    trough of -171: the trough is stored with its index. *)
Lemma std_base_threshold_witness :
  ∃ out data',
    ieeg_detect_n1 argmin_peak_finder seq_nanstd cfg_std_base None None
      (data_with_trough (-171)) 10 10 = (Returned (Some out), data') ∧
    detection out 0 0 11 (-171)%float.
Proof.
  eexists _, _. split; [vm_compute; reflexivity |].
  eassert (ieeg_detect_n1 argmin_peak_finder seq_nanstd cfg_std_base None None
             (data_with_trough (-171)) 10 10 = (Returned (Some _), _)) as Hret
    by (vm_compute; reflexivity).
  eassert (detect_prologue cfg_std_base None (data_with_trough (-171)) 10 10
           = Ok (Some (_, _))) as Hpro
    by (vm_compute; reflexivity).
  destruct (std_base_threshold argmin_peak_finder seq_nanstd cfg_std_base None None
              (data_with_trough (-171)) 10 10 _ _ _ _
              eq_refl Hret Hpro)
    as (baseline_epoch & factor & bs & be & Hbe & Hf & Hbs & Hbe' & Hcell).
  injection Hf as <-. injection Hbe as <-.
  injection Hbs as <-. injection Hbe' as <-.
  refine (proj2 (proj2 (proj2
            (proj2 (Hcell 0%nat 0%nat (row_with_trough (-171)) 11 (-171)%float
                      _ _ eq_refl eq_refl eq_refl eq_refl eq_refl) eq_refl)))
          eq_refl eq_refl eq_refl); simpl; lia.
Defined.

(** The theorem at work on a cell whose trough of -3001 is saturated. *)
Lemma polarity_and_saturation_witness :
  ∃ out data',
    ieeg_detect_n1 argmin_peak_finder seq_nanstd cfg_std_base None None
      (data_with_trough (-3001)) 10 10 = (Returned (Some out), data') ∧
    no_detection out 0 0.
Proof.
  eexists _, _. split; [vm_compute; reflexivity |].
  refine (proj1 (proj2
            (polarity_and_saturation argmin_peak_finder seq_nanstd cfg_std_base None None
               (data_with_trough (-3001)) 10 10 _ _ _ _
               0%nat 0%nat (row_with_trough (-3001)) 11 (-3001)%float
               eq_refl eq_refl _ _ eq_refl eq_refl eq_refl)) eq_refl); simpl; lia.
Defined.

End DetectionClaims.

(* ===================================================================== *)
(** * app/detection.py: input check of the metric methods, and the
      in-place zeroing of the caller's array *)
(* ===================================================================== *)

Module DetectionEffects.

Import Detection PyFacts DetectionFacts DetectionClaims MainFlow Instances.


Section WithCollaborators.

Variable peak_finder : list float → option (list (Z * float)).
Variable nanstd : list float → float.
Variable cfg : n1_detect_config.
Variable cross_proj_metrics waveform_metrics : option ndarray2.

Local Abbreviation n1_cell := (n1_cell peak_finder nanstd cross_proj_metrics waveform_metrics).
Local Abbreviation detect_prologue := (detect_prologue cfg waveform_metrics).
Local Abbreviation ieeg_detect_n1 :=
  (ieeg_detect_n1 peak_finder nanstd cfg cross_proj_metrics waveform_metrics).


(** A row that was touched or not agrees with the caller's outside the
    peak-search window. *)
Lemma row_touched_frame w row row' :
  row_touched w row row' →
  length row' = length row ∧
  ∀ k, Py.in_slice (length row)
         (peak_search_start_sample w + 1) (peak_search_end_sample w) k = false →
       row' !! k = row !! k.
Proof.
  intros [-> | [_ ->]]; [done |].
  rewrite slice_map_length. split; [done |]. intros k Hk.
  by rewrite slice_map_lookup, Hk.
Qed.

(** X16.  However the call ends (with its two arrays, with the error
    result or with an exception), the caller's array keeps its shape, and
    every row agrees with what it was outside the peak-search window. *)
Theorem detect_frame data stim_onset_index sampling_rate i j row :
  let r := ieeg_detect_n1 data stim_onset_index sampling_rate in
  get2 (cells3 data) i j = Some row →
  shape3 (snd r) = shape3 data ∧
  ∃ row', get2 (cells3 (snd r)) i j = Some row' ∧
    match detect_prologue data stim_onset_index sampling_rate with
    | Ok (Some (_, w)) => row_touched w row row'
    | _ => row' = row
    end.
Proof.
  intros r Hrow. subst r. unfold Detection.ieeg_detect_n1.
  destruct (detect_prologue _ _ _) as [[[mp w] |] | e]; simpl; [| by eauto..].
  destruct (Detection.run_cells _ _ _ _ _ _ _ _) as [o st] eqn:Hrun.
  pose proof (run_cells_rows _ _ _ _ _ _ _ _ _ _ (NoDup_cell_order _ _) Hrun i j) as H.
  simpl in H. rewrite Hrow in H.
  destruct o; simpl; done.
Qed.


End WithCollaborators.


(** X17.  The 'waveform' method checks its own tensor: without it, or with
    one of another shape, the call gives the error result before the loop,
    and the caller's array is untouched. *)
Theorem waveform_input_check peak_finder nanstd cfg cross_proj_metrics waveform_metrics
    data stim_onset_index sampling_rate :
  method cfg = "waveform" →
  match waveform_metrics with
  | None => True
  | Some wm => shape2 wm ≠ fst (shape3 data)
  end →
  match ieeg_detect_n1 peak_finder nanstd cfg cross_proj_metrics waveform_metrics
          data stim_onset_index sampling_rate with
  | (Returned None, data') => data' = data
  | (Raised e, data') =>
      data' = data ∧
      detect_prologue cfg waveform_metrics data stim_onset_index sampling_rate = Raise e
  | (Returned (Some _), _) => False
  end.
Proof.
  intros Hm Hbad. unfold ieeg_detect_n1.
  destruct (detect_prologue _ _ _ _ _) as [[[mp w] |] | e] eqn:Hpro; [| done | done].
  exfalso. revert Hpro.
  unfold detect_prologue, read_method_params, check_method_input.
  destruct (shape3 data) as [[n0 n1] n2]. rewrite Hm. simpl.
  destruct (waveform_threshold cfg); [| done]. simpl.
  destruct (to_sample _ _ _); [| done].
  destruct (to_sample _ _ _); [| done]. simpl.
  destruct (_ <? _); [done |]. destruct (_ <? _); [done |].
  destruct (to_sample _ _ _); [| done].
  destruct (to_sample _ _ _); [| done]. simpl.
  destruct (_ <? _); [done |].
  destruct waveform_metrics as [wm |]; [| done].
  simpl in Hbad. by rewrite decide_False.
Qed.

(** C6 (the 'cross_proj' half fails).  With method 'cross_proj', a missing
    cross-projection tensor does not give the error result: the check looks
    at the waveform tensor instead, so with a waveform tensor of the output
    shape the loop runs and (with any peak finder and deviation) the call
    either returns arrays or raises; with the stand-in peak finder the
    subscript of [None] raises a TypeError in the first cell.  A
    cross-projection tensor of another shape is not noticed either.  And a
    well-formed cross-projection tensor is turned down with the error result
    when the waveform tensor is missing. *)
Theorem cross_proj_input_check :
  (∀ peak_finder nanstd,
     fst (ieeg_detect_n1 peak_finder nanstd cfg_cross_proj
            None (Some (metrics_1x1 5))
            (data_with_trough (-171)) 10 10) ≠ Returned None) ∧
  fst (ieeg_detect_n1 argmin_peak_finder seq_nanstd cfg_cross_proj
         None (Some (metrics_1x1 5))
         (data_with_trough (-171)) 10 10) = Raised TypeError ∧
  fst (ieeg_detect_n1 argmin_peak_finder seq_nanstd cfg_cross_proj
         (Some (metrics_2x1 5 5)) (Some (metrics_1x1 5))
         (data_with_trough (-171)) 10 10)
    = Returned (Some ([[Some 11]], [[(-171)%float]])) ∧
  fst (ieeg_detect_n1 argmin_peak_finder seq_nanstd cfg_cross_proj
         (Some (metrics_1x1 5)) None
         (data_with_trough (-171)) 10 10) = Returned None.
Proof.
  split; [| by vm_compute].
  intros peak_finder nanstd. unfold ieeg_detect_n1.
  change (detect_prologue cfg_cross_proj (Some (metrics_1x1 5))
            (data_with_trough (-171)) 10 10)
    with (Ok (Some (MCrossProj 3.5%float,
                    {| peak_search_start_sample := 10;
                       peak_search_end_sample := 15;
                       n1_search_start_sample := 10;
                       n1_search_end_sample := 15;
                       baseline_samples := None |}))).
  lazy beta iota zeta.
  destruct (run_cells _ _ _ _ _ _ _ _) as [[e |] st]; done.
Qed.

End DetectionEffects.

(* ===================================================================== *)
(** * app/detection.py: further properties of [ieeg_detect_n1] *)
(* ===================================================================== *)

Module DetectionExtras.

Import Detection PyFacts DetectionFacts DetectionClaims Instances.

Lemma shape_set2 {A} (m : list (list A)) i j x :
  length <$> set2 i j x m = length <$> m.
Proof.
  apply list_eq. intros k. unfold set2. rewrite !list_lookup_fmap.
  destruct (decide (i = k)) as [<- | Hne].
  - rewrite list_lookup_alter_eq. destruct (m !! i); simpl; [| done].
    by rewrite length_insert.
  - by rewrite list_lookup_alter_ne.
Qed.

Section WithCollaborators.

Variable peak_finder : list float → option (list (Z * float)).
Variable nanstd : list float → float.
Variable cfg : n1_detect_config.
Variable cross_proj_metrics waveform_metrics : option ndarray2.

Local Abbreviation n1_cell := (n1_cell peak_finder nanstd cross_proj_metrics waveform_metrics).
Local Abbreviation classify := (classify nanstd cross_proj_metrics waveform_metrics).
Local Abbreviation detect_cell := (detect_cell peak_finder nanstd cross_proj_metrics waveform_metrics).
Local Abbreviation run_cells := (run_cells peak_finder nanstd cross_proj_metrics waveform_metrics).
Local Abbreviation detect_prologue := (detect_prologue cfg waveform_metrics).
Local Abbreviation ieeg_detect_n1 :=
  (ieeg_detect_n1 peak_finder nanstd cfg cross_proj_metrics waveform_metrics).

Lemma detect_cell_shape mp w c st e st' :
  detect_cell mp w c st = (e, st') →
  length <$> st_indices st' = length <$> st_indices st ∧
  length <$> st_amplitudes st' = length <$> st_amplitudes st.
Proof.
  destruct c as [i j]. unfold Detection.detect_cell.
  destruct (get2 (st_data st) i j) as [row |]; [| by intros [= <- <-]].
  destruct (Detection.n1_cell _ _ _ _ _ _ _ _ row) as [r row'].
  destruct r as [[| index amplitude] | e0]; intros [= <- <-]; simpl;
    rewrite ?shape_set2; done.
Qed.

Lemma run_cells_shape mp w cells st e st' :
  run_cells mp w cells st = (e, st') →
  length <$> st_indices st' = length <$> st_indices st ∧
  length <$> st_amplitudes st' = length <$> st_amplitudes st.
Proof.
  revert st. induction cells as [| c cells IH]; intros st; simpl.
  - by intros [= <- <-].
  - destruct (detect_cell mp w c st) as [[e0 |] st1] eqn:Hstep;
      apply detect_cell_shape in Hstep as [Hi Ha].
    + by intros [= <- <-].
    + intros Hrun. destruct (IH _ Hrun) as [Hi' Ha']. by rewrite Hi', Ha'.
Qed.

(** X6.  The two arrays that the call returns have the first two
    dimensions of the input: as many rows as electrodes, each as long as the
    number of stimulation pairs. *)
Theorem returned_arrays_shape data stim_onset_index sampling_rate indices amplitudes data' :
  ieeg_detect_n1 data stim_onset_index sampling_rate
    = (Returned (Some (indices, amplitudes)), data') →
  let n0 := fst (fst (shape3 data)) in
  let n1 := snd (fst (shape3 data)) in
  length <$> indices = replicate n0 n1 ∧ length <$> amplitudes = replicate n0 n1.
Proof.
  unfold Detection.ieeg_detect_n1.
  destruct (detect_prologue _ _ _) as [[[mp w] |] | e]; [| done | done].
  destruct (Detection.run_cells _ _ _ _ _ _ _ _) as [[e |] st] eqn:Hrun; [done |].
  intros [= <- <- _]. apply run_cells_shape in Hrun as [Hi Ha]. simpl in *.
  rewrite Hi, Ha, !fmap_replicate, !length_replicate. done.
Qed.

(** What [select_peak] hands on is one of the peaks of the peak finder,
    shifted by the start of the peak-search window, and lies in the N1
    search range. *)
Lemma select_peak_in_range w signal index amplitude :
  select_peak peak_finder w signal = Ok (Some (index, amplitude)) →
  n1_search_start_sample w ≤ index ≤ n1_search_end_sample w ∧
  ∃ peaks p, peak_finder signal = Some peaks ∧
             (p, amplitude) ∈ peaks ∧ index = p + peak_search_start_sample w.
Proof.
  unfold select_peak.
  set (found := match peak_finder signal with
                | Some ((0, _) :: rest) => Some rest
                | _ => peak_finder signal
                end).
  assert (∀ peaks', found = Some peaks' →
            ∃ peaks, peak_finder signal = Some peaks ∧ peaks' ⊆ peaks) as Hfound.
  { subst found. intros peaks'. destruct (peak_finder signal) as [[| [z m] rest] |];
      [intros [= <-]; by eexists | | done].
    destruct z; intros [= <-]; eexists; (split; [done |]);
      [apply list_subseteq_cons; done | done..]. }
  destruct found as [[| p0 peaks'] |]; [done | | done].
  destruct (Hfound _ eq_refl) as (peaks & Hpeaks & Hsub).
  match goal with |- context [filter ?P ?l] => set (in_range := filter P l) end.
  destruct in_range as [| q rest] eqn:Hin; [done |].
  destruct (first_max_ind _) as [max_ind |]; [| done]. simpl.
  destruct ((q :: rest) !! max_ind) as [[k a] |] eqn:Hk; [| done]. simpl.
  intros [= -> ->].
  assert ((index, amplitude) ∈ in_range) as Hel.
  { rewrite Hin. by eapply list_elem_of_lookup_2. }
  subst in_range. apply list_elem_of_filter in Hel as [Hrange Hel].
  apply Is_true_true, andb_true_iff in Hrange as [H1 H2]. simpl in H1, H2.
  split; [lia |].
  apply list_elem_of_fmap in Hel as ([p m] & [= -> ->] & Hp).
  exists peaks, p. split; [done |]. split; [by apply Hsub | done].
Qed.

Lemma classify_peak mp w i j row index amplitude index' amplitude' :
  classify mp w i j row index amplitude = Ok (Peak index' amplitude') →
  index' = index ∧ amplitude' = amplitude.
Proof.
  unfold Detection.classify. destruct mp as [be f | t | t |]; [| | | done].
  - destruct (baseline_samples w) as [[bs be'] |]; [| done].
    destruct (all_nan _); [done |]. destruct (PrimFloat.leb _ _); by intros [= <- <-].
  - destruct (metric_at _ _ _); [| done]. simpl.
    destruct (PrimFloat.ltb _ _); by intros [= <- <-].
  - destruct (metric_at _ _ _); [| done]. simpl.
    destruct (PrimFloat.ltb _ _); by intros [= <- <-].
Qed.

(** An iteration that stores a peak has selected it, and found it neither
    positive nor saturated. *)
Lemma n1_cell_peak mp w i j row index amplitude :
  fst (n1_cell mp w i j row) = Ok (Peak index amplitude) →
  let a := peak_search_start_sample w + 1 in
  let b := peak_search_end_sample w in
  all_nan (Py.slice row a b) = false ∧
  select_peak peak_finder w (Py.slice (Py.slice_map nan_to_zero row a b) a b)
    = Ok (Some (index, amplitude)) ∧
  PrimFloat.ltb 0 amplitude = false ∧
  PrimFloat.ltb 3000 (abs amplitude) = false.
Proof.
  intros Hv. cbv zeta. unfold Detection.n1_cell in Hv.
  set (a := peak_search_start_sample w + 1) in *.
  set (b := peak_search_end_sample w) in *.
  destruct (all_nan (Py.slice row a b)); [done |]. simpl in Hv.
  destruct (select_peak _ _ _) as [[[k m] |] |]; [| done | done]. simpl in Hv.
  destruct (PrimFloat.ltb 0 m) eqn:Hpos; [done |].
  destruct (PrimFloat.ltb 3000 (abs m)) eqn:Hsat; [done |].
  apply classify_peak in Hv as [-> ->]. done.
Qed.

(** X7.  Whatever the method, a peak that the call stores for a cell lies
    in the N1 search range, is not positive, does not exceed 3000 in
    magnitude, and is one of the peaks that the peak finder reported for the
    (NaN-free) peak-search signal of that cell, its index shifted by the
    start of the peak-search window. *)
Theorem stored_peak_is_valid data stim_onset_index sampling_rate out data' mp w
    i j index amplitude :
  ieeg_detect_n1 data stim_onset_index sampling_rate = (Returned (Some out), data') →
  detect_prologue data stim_onset_index sampling_rate = Ok (Some (mp, w)) →
  (i < fst (fst (shape3 data)))%nat → (j < snd (fst (shape3 data)))%nat →
  detection out i j index amplitude →
  n1_search_start_sample w ≤ index ≤ n1_search_end_sample w ∧
  PrimFloat.ltb 0 amplitude = false ∧
  PrimFloat.ltb 3000 (abs amplitude) = false ∧
  ∃ row peaks p,
    get2 (cells3 data) i j = Some row ∧
    peak_finder (nan_to_zero <$> Py.slice row (peak_search_start_sample w + 1)
                                           (peak_search_end_sample w))
      = Some peaks ∧
    (p, amplitude) ∈ peaks ∧ index = p + peak_search_start_sample w.
Proof.
  intros Hret Hpro Hi Hj [Hidx Hamp].
  destruct (detect_returned _ _ _ _ _ _ _ _ _ _ Hret) as (mp' & w' & Hpro' & _ & Hcells).
  rewrite Hpro in Hpro'. injection Hpro' as <- <-.
  destruct (Hcells i j Hi Hj) as (row & Hrow & _ & Hv).
  destruct (fst (n1_cell mp w i j row)) as [[| k a] | e] eqn:Hcell; [| | done].
  { destruct Hv as [Hn _]. congruence. }
  destruct Hv as [Hk Ha].
  assert (k = index) as -> by congruence. assert (a = amplitude) as -> by congruence.
  apply n1_cell_peak in Hcell as (_ & Hsel & Hpos & Hsat).
  rewrite slice_slice_map in Hsel.
  apply select_peak_in_range in Hsel as (Hrange & peaks & p & Hpeaks & Hp & ->).
  split; [done |]. split; [done |]. split; [done |].
  by exists row, peaks, p.
Qed.

(** X8.  With method 'waveform' ('cross_proj'), in a call that returns its
    arrays, the selected peak of a cell (window not all NaN, peak neither
    positive nor saturated) is stored exactly when the cell's waveform
    (cross-projection) metric is strictly above the configured threshold; a
    metric equal to the threshold, or NaN, leaves the cell without a
    detection. *)
Theorem metric_threshold_decision data stim_onset_index sampling_rate out data' mp w
    i j row index amplitude threshold metrics :
  ieeg_detect_n1 data stim_onset_index sampling_rate = (Returned (Some out), data') →
  detect_prologue data stim_onset_index sampling_rate = Ok (Some (mp, w)) →
  (mp = MWaveform threshold ∧ metrics = waveform_metrics) ∨
  (mp = MCrossProj threshold ∧ metrics = cross_proj_metrics) →
  (i < fst (fst (shape3 data)))%nat → (j < snd (fst (shape3 data)))%nat →
  get2 (cells3 data) i j = Some row →
  let a := peak_search_start_sample w + 1 in
  let b := peak_search_end_sample w in
  all_nan (Py.slice row a b) = false →
  select_peak peak_finder w (nan_to_zero <$> Py.slice row a b)
    = Ok (Some (index, amplitude)) →
  PrimFloat.ltb 0 amplitude = false →
  PrimFloat.ltb 3000 (abs amplitude) = false →
  ∃ v, metric_at metrics i j = Ok v ∧
       (PrimFloat.ltb threshold v = true ↔ detection out i j index amplitude) ∧
       (PrimFloat.ltb threshold v = false ↔ no_detection out i j).
Proof.
  intros Hret Hpro Hmp Hi Hj Hrow a b Hall Hsel Hpos Hsat.
  destruct (detect_returned _ _ _ _ _ _ _ _ _ _ Hret) as (mp' & w' & Hpro' & _ & Hcells).
  rewrite Hpro in Hpro'. injection Hpro' as <- <-.
  destruct (Hcells i j Hi Hj) as (row0 & Hrow0 & _ & Hv).
  rewrite Hrow in Hrow0. injection Hrow0 as <-.
  rewrite <- slice_slice_map in Hsel.
  rewrite (n1_cell_classified _ _ _ _ _ _ _ _ _ _ _ Hall Hsel Hpos Hsat) in Hv.
  assert (∀ k x, detection out i j k x → no_detection out i j → False) as Hexcl.
  { intros k x [Hd _] [Hn _]. congruence. }
  unfold Detection.classify in Hv.
  destruct Hmp as [[-> ->] | [-> ->]];
    (destruct (metric_at _ i j) as [v |]; [| done]); exists v; (split; [done |]);
    simpl in Hv; destruct (PrimFloat.ltb threshold v); simpl in Hv;
    (split; split; try done; intros H'; by destruct (Hexcl _ _ ltac:(eassumption) ltac:(eassumption))).
Qed.

(** X9.  A cell whose peak-search window holds nothing but NaN (the
    stimulated electrodes of a condition) is left without a detection, and
    its row of the caller's array is left as it was. *)
Theorem all_nan_cell_skipped data stim_onset_index sampling_rate out data' mp w i j row :
  ieeg_detect_n1 data stim_onset_index sampling_rate = (Returned (Some out), data') →
  detect_prologue data stim_onset_index sampling_rate = Ok (Some (mp, w)) →
  (i < fst (fst (shape3 data)))%nat → (j < snd (fst (shape3 data)))%nat →
  get2 (cells3 data) i j = Some row →
  all_nan (Py.slice row (peak_search_start_sample w + 1) (peak_search_end_sample w)) = true →
  no_detection out i j ∧ get2 (cells3 data') i j = Some row.
Proof.
  intros Hret Hpro Hi Hj Hrow Hall.
  destruct (detect_returned _ _ _ _ _ _ _ _ _ _ Hret) as (mp' & w' & Hpro' & _ & Hcells).
  rewrite Hpro in Hpro'. injection Hpro' as <- <-.
  destruct (Hcells i j Hi Hj) as (row0 & Hrow0 & Hrow' & Hv).
  rewrite Hrow in Hrow0. injection Hrow0 as <-.
  unfold Detection.n1_cell in Hv, Hrow'. rewrite Hall in Hv, Hrow'. done.
Qed.

(** X10.  The window checks of the prologue: when the peak-search window
    ends before it starts or ends beyond the samples of the epoch, or when
    the N1 search window ends before it starts, the call gives the error
    result and leaves the caller's array untouched. *)
Theorem window_checks data stim_onset_index sampling_rate mp pss pse :
  read_method_params cfg = Ok mp →
  to_sample (fst (peak_search_epoch cfg)) sampling_rate stim_onset_index = Ok pss →
  to_sample (snd (peak_search_epoch cfg)) sampling_rate stim_onset_index = Ok pse →
  (pse < pss ∨ Z.of_nat (snd (shape3 data)) < pse ∨
   ∃ n1s n1e,
     to_sample (fst (n1_search_epoch cfg)) sampling_rate stim_onset_index = Ok n1s ∧
     to_sample (snd (n1_search_epoch cfg)) sampling_rate stim_onset_index = Ok n1e ∧
     n1e < n1s) →
  ieeg_detect_n1 data stim_onset_index sampling_rate = (Returned None, data).
Proof.
  intros Hmp Hpss Hpse Hbad.
  unfold Detection.ieeg_detect_n1, Detection.detect_prologue.
  destruct (shape3 data) as [[n0 n1] n2]. simpl in Hbad.
  rewrite Hmp, Hpss, Hpse. simpl.
  destruct (Z.ltb_spec pse pss); [done |].
  destruct (Z.ltb_spec (Z.of_nat n2) pse); [done |].
  destruct Hbad as [? | [? | (n1s & n1e & -> & -> & Hlt)]]; [lia | lia |].
  simpl. destruct (Z.ltb_spec n1e n1s); [done | lia].
Qed.

End WithCollaborators.

Import Examples DetectionEffects.

Lemma returned_arrays_shape_witness :
  ∃ indices amplitudes data',
    ieeg_detect_n1 argmin_peak_finder seq_nanstd cfg_std_base None None
      (data_with_trough (-171)) 10 10 = (Returned (Some (indices, amplitudes)), data') ∧
    length <$> indices = [1%nat] ∧ length <$> amplitudes = [1%nat].
Proof.
  eassert (ieeg_detect_n1 argmin_peak_finder seq_nanstd cfg_std_base None None
             (data_with_trough (-171)) 10 10 = (Returned (Some (_, _)), _)) as Hret
    by (vm_compute; reflexivity).
  eexists _, _, _. split; [exact Hret |].
  exact (returned_arrays_shape _ _ _ _ _ _ _ _ _ _ _ Hret).
Defined.

Lemma stored_peak_is_valid_witness :
  ∃ out data',
    ieeg_detect_n1 argmin_peak_finder seq_nanstd cfg_std_base None None
      (data_with_trough (-171)) 10 10 = (Returned (Some out), data') ∧
    detection out 0 0 11 (-171)%float ∧
    10 ≤ 11 ≤ 15 ∧ PrimFloat.ltb 3000 (abs (-171)) = false.
Proof.
  eassert (ieeg_detect_n1 argmin_peak_finder seq_nanstd cfg_std_base None None
             (data_with_trough (-171)) 10 10 = (Returned (Some _), _)) as Hret
    by (vm_compute; reflexivity).
  eassert (detect_prologue cfg_std_base None (data_with_trough (-171)) 10 10
           = Ok (Some (_, _))) as Hpro
    by (vm_compute; reflexivity).
  eexists _, _. split; [exact Hret |].
  assert (detection ([[Some 11]], [[(-171)%float]]) 0 0 11 (-171)%float) as Hdet
    by (split; reflexivity).
  split; [exact Hdet |].
  destruct (stored_peak_is_valid _ _ _ _ _ _ _ _ _ _ _ _ 0%nat 0%nat 11 (-171)%float
              Hret Hpro ltac:(simpl; lia) ltac:(simpl; lia) Hdet)
    as (Hrange & _ & Hsat & _).
  split; [exact Hrange | exact Hsat].
Defined.

Lemma metric_threshold_decision_witness :
  ∃ out data',
    ieeg_detect_n1 argmin_peak_finder seq_nanstd cfg_waveform None
      (Some (metrics_1x1 1500)) (data_with_trough (-171)) 10 10
      = (Returned (Some out), data') ∧
    detection out 0 0 11 (-171)%float.
Proof.
  eassert (ieeg_detect_n1 argmin_peak_finder seq_nanstd cfg_waveform None
             (Some (metrics_1x1 1500)) (data_with_trough (-171)) 10 10
           = (Returned (Some _), _)) as Hret
    by (vm_compute; reflexivity).
  eassert (detect_prologue cfg_waveform (Some (metrics_1x1 1500))
             (data_with_trough (-171)) 10 10 = Ok (Some (_, _))) as Hpro
    by (vm_compute; reflexivity).
  eexists _, _. split; [exact Hret |].
  destruct (metric_threshold_decision _ _ _ _ _ _ _ _ _ _ _ _
              0%nat 0%nat (row_with_trough (-171)) 11 (-171)%float
              1000%float (Some (metrics_1x1 1500))
              Hret Hpro (or_introl (conj eq_refl eq_refl))
              ltac:(simpl; lia) ltac:(simpl; lia) eq_refl eq_refl eq_refl eq_refl eq_refl)
    as (v & Hv & Hdet & _).
  injection Hv as <-. apply Hdet. reflexivity.
Defined.

Lemma all_nan_cell_skipped_witness :
  ∃ out data',
    ieeg_detect_n1 argmin_peak_finder seq_nanstd cfg_std_base None None
      data_all_nan 10 10 = (Returned (Some out), data') ∧
    no_detection out 0 0 ∧ cells3 data' = cells3 data_all_nan.
Proof.
  eassert (ieeg_detect_n1 argmin_peak_finder seq_nanstd cfg_std_base None None
             data_all_nan 10 10 = (Returned (Some _), _)) as Hret
    by (vm_compute; reflexivity).
  eassert (detect_prologue cfg_std_base None data_all_nan 10 10
           = Ok (Some (_, _))) as Hpro
    by (vm_compute; reflexivity).
  eexists _, _. split; [exact Hret |].
  destruct (all_nan_cell_skipped _ _ _ _ _ _ _ _ _ _ _ _ 0%nat 0%nat _
              Hret Hpro ltac:(simpl; lia) ltac:(simpl; lia) eq_refl eq_refl)
    as [Hno _].
  split; [exact Hno | reflexivity].
Defined.

Lemma window_checks_witness :
  ieeg_detect_n1 argmin_peak_finder seq_nanstd cfg_inverted None None
    (data_with_trough (-171)) 10 10 = (Returned None, data_with_trough (-171)).
Proof.
  eapply (window_checks argmin_peak_finder seq_nanstd cfg_inverted None None
            (data_with_trough (-171)) 10 10 _ 15 10);
    [reflexivity | reflexivity | reflexivity | left; lia].
Defined.

Lemma detect_frame_witness :
  ∃ row',
    get2 (cells3 (snd (ieeg_detect_n1 argmin_peak_finder seq_nanstd cfg_std_base None None
                         data_with_nan 10 10))) 0 0 = Some row' ∧
    row' !! 3%nat = Some (-10)%float.
Proof.
  destruct (detect_frame argmin_peak_finder seq_nanstd cfg_std_base None None
              data_with_nan 10 10 0%nat 0%nat _ eq_refl)
    as (_ & row' & Hrow' & Hrel).
  exists row'. split; [exact Hrow' |].
  eassert (detect_prologue cfg_std_base None data_with_nan 10 10 = Ok (Some (_, _)))
    as Hpro by (vm_compute; reflexivity).
  rewrite Hpro in Hrel.
  destruct (row_touched_frame _ _ _ Hrel) as [_ Hframe].
  rewrite (Hframe 3%nat); reflexivity.
Defined.

Lemma waveform_input_check_witness :
  ieeg_detect_n1 argmin_peak_finder seq_nanstd cfg_waveform None None
    (data_with_trough (-171)) 10 10 = (Returned None, data_with_trough (-171)).
Proof.
  pose proof (waveform_input_check argmin_peak_finder seq_nanstd cfg_waveform None None
                (data_with_trough (-171)) 10 10 eq_refl I) as H.
  destruct (ieeg_detect_n1 _ _ _ _ _ _ _ _) as [[[out |] | e] data'] eqn:Hrun.
  - destruct H.
  - by rewrite H.
  - destruct H as [_ H]. vm_compute in H. discriminate H.
Defined.

End DetectionExtras.

(* ===================================================================== *)
(** * Facts about the stimulation-pair conditions *)
(* ===================================================================== *)

Module StimPairsFacts.

Import StimPairs.

(** ** Deleting positions from the last to the first *)

(** The positions in [ixs] are strictly descending and below [n]. *)
Fixpoint descending_below (n : nat) (ixs : list nat) : Prop :=
  match ixs with
  | [] => True
  | i :: rest => (i < n)%nat ∧ descending_below i rest
  end.

Lemma descending_below_mono n m ixs :
  (n ≤ m)%nat → descending_below n ixs → descending_below m ixs.
Proof. destruct ixs as [| i rest]; simpl; [done |]. intros ? [? ?]. split; [lia | done]. Qed.

Lemma foldl_delete_app {A} (l r : list A) ixs :
  descending_below (length l) ixs →
  foldl (fun acc i => delete i acc) (l ++ r) ixs
    = foldl (fun acc i => delete i acc) l ixs ++ r.
Proof.
  revert l. induction ixs as [| i rest IH]; intros l; simpl; [done |].
  intros [Hi Hrest].
  rewrite (delete_take_drop (l ++ r)), (delete_take_drop l).
  rewrite take_app_le, drop_app_le by lia.
  rewrite (assoc_L (++)). apply IH.
  eapply descending_below_mono; [| done].
  rewrite length_app, length_take, length_drop. lia.
Qed.

Section Positions.

Context {A : Type} (P : A → Prop) `{!∀ x, Decision (P x)}.

(** The positions of the elements that satisfy [P]. *)
Definition positions (l : list A) : list nat :=
  fst <$> filter (fun ix : nat * A => P (snd ix)) (imap (fun i x => (i, x)) l).

Lemma positions_snoc l x :
  positions (l ++ [x]) = positions l ++ (if decide (P x) then [length l] else []).
Proof.
  unfold positions. rewrite imap_app, filter_app, fmap_app. f_equal.
  simpl. rewrite Nat.add_0_r.
  rewrite filter_cons. simpl. by destruct (decide (P x)).
Qed.

Lemma positions_descending l :
  descending_below (length l) (reverse (positions l)).
Proof.
  induction l as [| x l IH] using rev_ind; [done |].
  rewrite positions_snoc, reverse_app, length_app. simpl.
  destruct (decide (P x)); simpl.
  - split; [lia |]. done.
  - eapply descending_below_mono; [| done]. lia.
Qed.

(** Deleting the positions that satisfy [P], last first, keeps exactly the
    elements that do not. *)
Lemma delete_positions l :
  foldl (fun acc i => delete i acc) l (reverse (positions l))
    = filter (fun x => ¬ P x) l.
Proof.
  induction l as [| x l IH] using rev_ind; [done |].
  rewrite positions_snoc, reverse_app, filter_app.
  rewrite filter_cons, filter_nil.
  destruct (decide (P x)); simpl.
  - rewrite delete_take_drop.
    rewrite take_app_le, drop_app_ge by (simpl; lia).
    rewrite take_ge by lia.
    replace (S (length l) - length l)%nat with 1%nat by lia. simpl.
    rewrite (right_id_L [] (++)), IH.
    rewrite decide_False by tauto. by rewrite (right_id_L [] (++)).
  - rewrite foldl_delete_app by apply positions_descending.
    rewrite IH. by rewrite decide_True.
Qed.

Lemma elem_of_positions l i :
  i ∈ positions l ↔ ∃ x, l !! i = Some x ∧ P x.
Proof.
  unfold positions. rewrite list_elem_of_fmap. split.
  - intros ([i' x] & -> & Hin). apply list_elem_of_filter in Hin as [HP Hin].
    apply list_elem_of_lookup in Hin as [k Hk].
    rewrite list_lookup_imap in Hk.
    destruct (l !! k) as [y |] eqn:Hy; simplify_eq/=. eauto.
  - intros (x & Hx & HP). exists (i, x). split; [done |].
    apply list_elem_of_filter. split; [done |].
    apply list_elem_of_lookup. exists i. by rewrite list_lookup_imap, Hx.
Qed.

Lemma length_positions l :
  length (positions l) = length (filter P l).
Proof.
  induction l as [| x l IH] using rev_ind; [done |].
  rewrite positions_snoc, filter_app, !length_app, IH, filter_cons, filter_nil.
  by destruct (decide (P x)).
Qed.

End Positions.

(** ** The conditions of main_run.py *)

(** The condition that the pair of positions [ij] contributes, if any. *)
Definition condition_of (concat : bool) (channels : list string) (trials : list trial)
    (ij : nat * nat) : option stimpair :=
  let indices := pair_indices concat channels (trial_pairs trials) (fst ij) (snd ij) in
  if (0 <? length indices)%nat
  then Some {| stimpair_label :=
                 pair_label (default "" (channels !! fst ij))
                            (default "" (channels !! snd ij));
               stimpair_electrode_indices := ij;
               stimpair_trial_indices := indices;
               stimpair_trial_onsets := onsets_at (trial_onsets trials) indices |}
  else None.

Lemma build_stimpairs_omap concat channels trials :
  build_stimpairs concat channels trials
    = omap (condition_of concat channels trials) (channel_pairs (length channels)).
Proof.
  unfold build_stimpairs.
  generalize (channel_pairs (length channels)) as l.
  enough (∀ l acc,
    foldl (fun acc (ij : nat * nat) =>
             let indices := pair_indices concat channels (trial_pairs trials) (fst ij) (snd ij) in
             if (0 <? length indices)%nat
             then acc ++ [{| stimpair_label :=
                               pair_label (default "" (channels !! fst ij))
                                          (default "" (channels !! snd ij));
                             stimpair_electrode_indices := ij;
                             stimpair_trial_indices := indices;
                             stimpair_trial_onsets :=
                               onsets_at (trial_onsets trials) indices |}]
             else acc) acc l
    = acc ++ omap (condition_of concat channels trials) l) as H by (intros l; apply (H l [])).
  induction l as [| ij l IH]; intros acc; simpl.
  - by rewrite (right_id_L [] (++)).
  - rewrite IH. unfold condition_of at 2.
    destruct (0 <? length _)%nat; simpl; [| done].
    by rewrite <- (assoc_L (++)).
Qed.

Lemma drop_small_filter minimum pairs :
  drop_small minimum pairs
    = filter (fun p => ¬ Is_true (Z.of_nat (length (stimpair_trial_indices p)) <? minimum))
             pairs.
Proof.
  exact (delete_positions
           (fun p => Is_true (Z.of_nat (length (stimpair_trial_indices p)) <? minimum))
           pairs).
Qed.

Lemma elem_of_channel_pairs n i j :
  (i, j) ∈ channel_pairs n ↔ (i < n ∧ j < n)%nat.
Proof. apply (PyFacts.elem_of_cell_order n n). Qed.

Lemma NoDup_channel_pairs n : NoDup (channel_pairs n).
Proof. apply (PyFacts.NoDup_cell_order n n). Qed.

Lemma condition_of_indices concat channels trials ij c :
  condition_of concat channels trials ij = Some c → stimpair_electrode_indices c = ij.
Proof. unfold condition_of. destruct (0 <? _)%nat; [| done]. by intros [= <-]. Qed.

(** A trial is selected for the pair [(c0, c1)] when it stimulates [c0-c1],
    or, with concatenation, [c1-c0]. *)
Lemma stimulates_spec concat c0 c1 x :
  stimulates concat c0 c1 x = true ↔
    x = (c0, c1) ∨ (concat = true ∧ x = (c1, c0)).
Proof.
  destruct x as [a b]. unfold stimulates. simpl.
  destruct concat; rewrite ?orb_true_iff, !andb_true_iff, !String.eqb_eq;
    naive_solver.
Qed.

Lemma elem_of_matching_indices concat c0 c1 pairs t :
  t ∈ matching_indices concat c0 c1 pairs ↔
    ∃ x, pairs !! t = Some x ∧ (x = (c0, c1) ∨ (concat = true ∧ x = (c1, c0))).
Proof.
  change (matching_indices concat c0 c1 pairs)
    with (positions (fun x => Is_true (stimulates concat c0 c1 x)) pairs).
  rewrite elem_of_positions.
  by setoid_rewrite Is_true_true; setoid_rewrite stimulates_spec.
Qed.

(** X3.  With concatenation the condition of two different channels has as
    many trials as the two directions have without it. *)
Theorem concat_adds_both_directions c0 c1 pairs :
  c0 ≠ c1 →
  length (matching_indices true c0 c1 pairs)
    = (length (matching_indices false c0 c1 pairs)
       + length (matching_indices false c1 c0 pairs))%nat.
Proof.
  intros Hne.
  change (matching_indices ?c ?a ?b pairs)
    with (positions (fun x => Is_true (stimulates c a b x)) pairs).
  rewrite !length_positions.
  induction pairs as [| x pairs IH]; [done |].
  rewrite !filter_cons.
  change (stimulates true c0 c1 x)
    with (stimulates false c0 c1 x || stimulates false c1 c0 x).
  destruct (stimulates false c0 c1 x) eqn:H01, (stimulates false c1 c0 x) eqn:H10;
    repeat case_decide; try done; cbn [length]; rewrite IH; try lia.
  apply stimulates_spec in H01 as [-> | [? _]]; [| done].
  apply stimulates_spec in H10 as [? | [? _]]; [| done]. congruence.
Qed.

(** The conditions that the legacy main flow keeps. *)
Lemma main_run_stimpairs_spec concat minimum channels trials c :
  c ∈ main_run_stimpairs concat minimum channels trials ↔
    ∃ i0 i1 c0 c1,
      channels !! i0 = Some c0 ∧ channels !! i1 = Some c1 ∧
      (concat = true → (i0 ≤ i1)%nat) ∧
      let indices := matching_indices concat c0 c1 (trial_pairs trials) in
      indices ≠ [] ∧ minimum ≤ Z.of_nat (length indices) ∧
      c = {| stimpair_label := pair_label c0 c1;
             stimpair_electrode_indices := (i0, i1);
             stimpair_trial_indices := indices;
             stimpair_trial_onsets := onsets_at (trial_onsets trials) indices |}.
Proof.
  unfold main_run_stimpairs.
  rewrite drop_small_filter, build_stimpairs_omap, list_elem_of_filter, list_elem_of_omap.
  split.
  - intros [Hmin ([i0 i1] & Hin & Hc)].
    apply elem_of_channel_pairs in Hin as [Hi0 Hi1].
    destruct (lookup_lt_is_Some_2 channels i0 Hi0) as [c0 Hc0].
    destruct (lookup_lt_is_Some_2 channels i1 Hi1) as [c1 Hc1].
    exists i0, i1, c0, c1. do 2 (split; [done |]).
    assert (∀ indices : list nat,
              (0 < length indices)%nat →
              ¬ Is_true (Z.of_nat (length indices) <? minimum) →
              indices ≠ [] ∧ minimum ≤ Z.of_nat (length indices)) as Hkeep.
    { intros indices Hpos Hge. split; [intros ->; simpl in Hpos; lia |].
      destruct (Z.ltb_spec (Z.of_nat (length indices)) minimum); [by destruct Hge | lia]. }
    revert Hc. unfold condition_of, pair_indices. simpl. rewrite Hc0, Hc1. simpl.
    destruct concat.
    + destruct (Nat.ltb_spec i1 i0); simpl; [done |].
      destruct (Nat.ltb_spec 0 (length (matching_indices true c0 c1 (trial_pairs trials))));
        [| done].
      intros [= <-]. simpl in Hmin. split; [done |].
      destruct (Hkeep _ ltac:(eassumption) Hmin). done.
    + destruct (Nat.ltb_spec 0 (length (matching_indices false c0 c1 (trial_pairs trials))));
        [| done].
      intros [= <-]. simpl in Hmin. split; [done |].
      destruct (Hkeep _ ltac:(eassumption) Hmin). done.
  - intros (i0 & i1 & c0 & c1 & Hc0 & Hc1 & Hord & Hne & Hmin & ->). simpl.
    split.
    { destruct (Z.ltb_spec (Z.of_nat (length (matching_indices concat c0 c1 (trial_pairs trials)))) minimum);
        simpl; [lia | tauto]. }
    exists (i0, i1). split.
    { apply elem_of_channel_pairs. split; by eapply lookup_lt_Some. }
    unfold condition_of, pair_indices. simpl. rewrite Hc0, Hc1. simpl.
    assert (0 < length (matching_indices concat c0 c1 (trial_pairs trials)))%nat as Hlen.
    { destruct (matching_indices concat c0 c1 (trial_pairs trials)); [done | simpl; lia]. }
    destruct concat.
    + destruct (Nat.ltb_spec i1 i0); [specialize (Hord eq_refl); lia |].
      destruct (Nat.ltb_spec 0 (length (matching_indices true c0 c1 (trial_pairs trials))));
        [done | lia].
    + destruct (Nat.ltb_spec 0 (length (matching_indices false c0 c1 (trial_pairs trials))));
        [done | lia].
Qed.

(** X5.  No pair of channel positions has two conditions. *)
Theorem one_condition_per_pair concat minimum channels trials :
  NoDup (stimpair_electrode_indices <$> main_run_stimpairs concat minimum channels trials).
Proof.
  unfold main_run_stimpairs. rewrite drop_small_filter, build_stimpairs_omap.
  generalize (NoDup_channel_pairs (length channels)).
  generalize (channel_pairs (length channels)) as l.
  induction l as [| ij l IH]; intros Hnd; simpl; [constructor |].
  apply NoDup_cons in Hnd as [Hij Hnd].
  destruct (condition_of concat channels trials ij) as [c |] eqn:Hc; [| by apply IH].
  rewrite filter_cons. destruct (decide _); [| by apply IH].
  rewrite fmap_cons. apply NoDup_cons. split; [| by apply IH].
  rewrite (condition_of_indices _ _ _ _ _ Hc).
  intros (c' & Hc' & Hin)%list_elem_of_fmap.
  apply list_elem_of_filter in Hin as [_ Hin].
  apply list_elem_of_omap in Hin as (ij' & Hin & Hcond).
  apply condition_of_indices in Hcond. congruence.
Qed.

(** ** The conditions of _erdetect.py *)

(** The string holds no dash: what [split('-')] guarantees of its parts. *)
Fixpoint dash_free (s : string) : bool :=
  match s with
  | EmptyString => true
  | String c rest => negb (Ascii.eqb c (Ascii.ascii_of_nat 45)) && dash_free rest
  end.

Lemma pair_label_nil b : pair_label "" b = String (Ascii.ascii_of_nat 45) b.
Proof. reflexivity. Qed.

Lemma pair_label_cons c a b : pair_label (String c a) b = String c (pair_label a b).
Proof. reflexivity. Qed.

Lemma pair_label_inj a b a' b' :
  dash_free a = true → dash_free a' = true →
  pair_label a b = pair_label a' b' → a = a' ∧ b = b'.
Proof.
  revert a'.
  induction a as [| c a IH]; intros [| c' a']; simpl;
    rewrite ?pair_label_nil, ?pair_label_cons.
  - by intros _ _ [= ->].
  - intros _ [Hc _]%andb_true_iff [= <- _]. done.
  - intros [Hc _]%andb_true_iff _ [= -> _]. done.
  - intros [_ Ha]%andb_true_iff [_ Ha']%andb_true_iff [= -> Heq].
    destruct (IH _ Ha Ha' Heq) as [-> ->]. done.
Qed.

Lemma dict_set_fresh {V} k (v : V) d :
  k ∉ d.*1 → dict_set k v d = d ++ [(k, v)].
Proof.
  induction d as [| [k' v'] d IH]; simpl; [done |].
  intros [Hne Hnin]%not_elem_of_cons.
  destruct (String.eqb_spec k' k); [done |]. by rewrite IH.
Qed.

Lemma foldl_dict_del {V} (d : list (string * V)) ks :
  foldl (fun acc k => dict_del k acc) d ks = filter (fun kv => fst kv ∉ ks) d.
Proof.
  revert d. induction ks as [| k ks IH]; intros d; simpl.
  - induction d as [| kv d IHd]; [done |].
    rewrite filter_cons, decide_True by apply not_elem_of_nil. by rewrite <- IHd.
  - rewrite IH. unfold dict_del. rewrite list_filter_filter.
    apply list_filter_iff. intros kv. rewrite not_elem_of_cons.
    destruct (String.eqb_spec (fst kv) k); simpl; naive_solver.
Qed.

Lemma filter_ext_elem {A} (P1 P2 : A → Prop)
    `{!∀ x, Decision (P1 x), !∀ x, Decision (P2 x)} (l : list A) :
  (∀ x, x ∈ l → P1 x ↔ P2 x) → filter P1 l = filter P2 l.
Proof.
  induction l as [| x l IH]; intros Hext; [done |].
  rewrite !filter_cons, IH by (intros; apply Hext; by right).
  pose proof (Hext x (list_elem_of_here _ _)) as Hx.
  destruct (decide (P1 x)), (decide (P2 x)); tauto || done.
Qed.

(** Deleting the keys of the entries that satisfy [P] keeps exactly the
    entries that do not, when no key occurs twice. *)
Lemma dict_del_keys {V} (P : string * V → Prop) `{!∀ x, Decision (P x)}
    (d : list (string * V)) :
  NoDup d.*1 →
  foldl (fun acc k => dict_del k acc) d (fst <$> filter P d) = filter (fun kv => ¬ P kv) d.
Proof.
  intros Hnd. rewrite foldl_dict_del.
  apply filter_ext_elem. intros kv Hkv. split.
  - intros Hnin HP. apply Hnin, list_elem_of_fmap. exists kv. split; [done |].
    by apply list_elem_of_filter.
  - intros HP (kv' & Hk & Hin)%list_elem_of_fmap.
    apply list_elem_of_filter in Hin as [HP' Hin].
    assert (kv = kv') as <-; [| done].
    apply list_elem_of_lookup in Hkv as [n Hn], Hin as [n' Hn'].
    assert (n = n'); [| congruence].
    eapply NoDup_lookup; [done | |]; rewrite list_lookup_fmap.
    + by rewrite Hn.
    + rewrite Hn'. simpl. congruence.
Qed.

Lemma lookup_matching_indices concat c0 c1 pairs t :
  t ∈ matching_indices concat c0 c1 pairs → (t < length pairs)%nat.
Proof.
  intros (x & Hx & _)%elem_of_matching_indices. by eapply lookup_lt_Some.
Qed.

Lemma length_onsets_at (onsets : list float) indices :
  Forall (fun t => (t < length onsets)%nat) indices →
  length (onsets_at onsets indices) = length indices.
Proof.
  unfold onsets_at. induction 1 as [| t indices Ht _ IH]; [done |]. simpl.
  destruct (lookup_lt_is_Some_2 _ _ Ht) as [x ->]. simpl. f_equal. exact IH.
Qed.

Lemma length_condition_onsets concat channels trials ij c :
  condition_of concat channels trials ij = Some c →
  length (stimpair_trial_onsets c) = length (stimpair_trial_indices c).
Proof.
  unfold condition_of. destruct (0 <? _)%nat; [| done]. intros [= <-]. simpl.
  apply length_onsets_at, Forall_forall. intros t Ht.
  unfold trial_onsets. rewrite length_fmap.
  unfold pair_indices in Ht.
  destruct (channels !! fst ij) as [c0 |]; [| by apply elem_of_nil in Ht].
  destruct (channels !! snd ij) as [c1 |]; [| by apply elem_of_nil in Ht].
  destruct concat; [destruct (_ <? _)%nat; [by apply elem_of_nil in Ht |] |];
    apply lookup_matching_indices in Ht; unfold trial_pairs in Ht;
    by rewrite length_fmap in Ht.
Qed.

(** The dictionary entry that a condition of the main flow corresponds to. *)
Definition dict_entry (channels : list string) (c : stimpair)
  : string * (list float * (string * string)) :=
  (stimpair_label c,
   (stimpair_trial_onsets c,
    (default "" (channels !! fst (stimpair_electrode_indices c)),
     default "" (channels !! snd (stimpair_electrode_indices c))))).

Section Refinement.

Variable concat : bool.
Variable minimum : Z.
Variable channels : list string.
Variable trials : list trial.

Hypothesis channels_unique : NoDup channels.
Hypothesis sites_split :
  Forall (fun x => dash_free (fst x) = true ∧ dash_free (snd x) = true)
         (trial_pairs trials).

Lemma condition_of_names ij c :
  condition_of concat channels trials ij = Some c →
  ∃ c0 c1, channels !! fst ij = Some c0 ∧ channels !! snd ij = Some c1 ∧
           dash_free c0 = true ∧ dash_free c1 = true ∧
           stimpair_label c = pair_label c0 c1.
Proof using All.
  unfold condition_of, pair_indices.
  destruct (channels !! fst ij) as [c0 |]; [| done].
  destruct (channels !! snd ij) as [c1 |]; [| done].
  simpl.
  assert (∀ cc, (0 < length (matching_indices cc c0 c1 (trial_pairs trials)))%nat →
                dash_free c0 = true ∧ dash_free c1 = true) as Hdash.
  { intros cc Hlen.
    destruct (matching_indices cc c0 c1 (trial_pairs trials)) as [| t rest] eqn:Hm;
      [simpl in Hlen; lia |].
    assert (t ∈ matching_indices cc c0 c1 (trial_pairs trials)) as Ht
      by (rewrite Hm; by left).
    apply elem_of_matching_indices in Ht as (x & Hx & Hcase).
    pose proof (proj1 (Forall_lookup _ _) sites_split _ _ Hx) as [H1 H2].
    destruct Hcase as [-> | [_ ->]]; done. }
  destruct concat.
  - destruct (snd ij <? fst ij)%nat; [simpl; done |].
    destruct (Nat.ltb_spec 0 (length (matching_indices true c0 c1 (trial_pairs trials))));
      [| done].
    intros [= <-]. exists c0, c1. destruct (Hdash true); done.
  - destruct (Nat.ltb_spec 0 (length (matching_indices false c0 c1 (trial_pairs trials))));
      [| done].
    intros [= <-]. exists c0, c1. destruct (Hdash false); done.
Qed.

Lemma condition_labels_unique ij ij' c c' :
  condition_of concat channels trials ij = Some c →
  condition_of concat channels trials ij' = Some c' →
  stimpair_label c = stimpair_label c' → ij = ij'.
Proof using All.
  intros (c0 & c1 & H0 & H1 & Hd0 & Hd1 & ->)%condition_of_names
         (c0' & c1' & H0' & H1' & Hd0' & Hd1' & ->)%condition_of_names Heq.
  apply pair_label_inj in Heq as [<- <-]; [| done..].
  destruct ij, ij'. simpl in *. f_equal; by eapply NoDup_lookup.
Qed.

Lemma build_dict_omap l acc :
  NoDup l →
  (∀ ij c k, ij ∈ l → condition_of concat channels trials ij = Some c →
             k ∈ acc.*1 → stimpair_label c ≠ k) →
  foldl (fun acc (ij : nat * nat) =>
           let indices :=
             pair_indices concat channels (trial_pairs trials) (fst ij) (snd ij) in
           if (0 <? length indices)%nat
           then
             let c0 := default "" (channels !! fst ij) in
             let c1 := default "" (channels !! snd ij) in
             dict_set (pair_label c0 c1)
                      (onsets_at (trial_onsets trials) indices, (c0, c1)) acc
           else acc) acc l
  = acc ++ (dict_entry channels <$> omap (condition_of concat channels trials) l).
Proof using All.
  revert acc. induction l as [| ij l IH]; intros acc Hnd Hfresh; simpl.
  - by rewrite (right_id_L [] (++)).
  - apply NoDup_cons in Hnd as [Hij Hnd].
    destruct (condition_of concat channels trials ij) as [c |] eqn:Hc.
    + pose proof Hc as Hc'. unfold condition_of in Hc'.
      destruct (0 <? _)%nat; [| done]. injection Hc' as Hc'.
      rewrite dict_set_fresh.
      2:{ intros Hin. eapply (Hfresh ij c); [by left | done | |]; [done |].
          by rewrite <- Hc'. }
      rewrite IH; [| done |].
      * rewrite <- (assoc_L (++)). simpl. do 2 f_equal.
        unfold dict_entry. by rewrite <- Hc'.
      * intros ij' c' k Hin' Hcond'.
        rewrite fmap_app, elem_of_app. simpl. rewrite list_elem_of_singleton.
        intros [Hk | ->]; [eapply Hfresh; [by right | done..] |].
        intros Heq.
        assert (ij' = ij) as ->; [| done].
        eapply condition_labels_unique; [done | done |].
        by rewrite Heq, <- Hc'.
    + unfold condition_of in Hc. destruct (0 <? _)%nat; [done |].
      apply IH; [done |]. intros ij' c' k Hin'. apply Hfresh. by right.
Qed.

(** X4.  When the included channel names are unique and the two names of
    every stimulation site hold no dash, the two dictionaries that
    _erdetect.py builds hold, in the same order, the labels, onsets and
    electrode names of the conditions that main_run.py keeps. *)
Theorem process_subset_matches_main_run :
  process_subset_stimpairs concat minimum channels trials
    = dict_entry channels <$> main_run_stimpairs concat minimum channels trials.
Proof using All.
  unfold process_subset_stimpairs, main_run_stimpairs.
  rewrite build_dict_omap;
    [| apply NoDup_channel_pairs | intros ???? _ Hin; by apply elem_of_nil in Hin].
  simpl. rewrite drop_small_filter, build_stimpairs_omap.
  set (E := omap (condition_of concat channels trials) (channel_pairs (length channels))).
  assert (∀ c, c ∈ E → ∃ ij, condition_of concat channels trials ij = Some c) as HE.
  { intros c (ij & _ & Hc)%list_elem_of_omap. eauto. }
  assert (NoDup E) as HndE.
  { apply (NoDup_fmap_1 stimpair_electrode_indices).
    subst E. generalize (NoDup_channel_pairs (length channels)).
    generalize (channel_pairs (length channels)) as l.
    induction l as [| ij l IH]; intros Hnd; simpl; [constructor |].
    apply NoDup_cons in Hnd as [Hij Hnd].
    destruct (condition_of concat channels trials ij) as [c |] eqn:Hc; [| by apply IH].
    rewrite fmap_cons. apply NoDup_cons. split; [| by apply IH].
    rewrite (condition_of_indices _ _ _ _ _ Hc).
    intros (c' & Hc' & Hin)%list_elem_of_fmap.
    apply list_elem_of_omap in Hin as (ij' & Hin & Hcond).
    apply condition_of_indices in Hcond. congruence. }
  rewrite (dict_del_keys
             (fun kv : string * (list float * (string * string)) =>
                Is_true (Z.of_nat (length (fst (snd kv))) <? minimum))).
  - clear HndE. induction E as [| c E IH]; [done |].
    rewrite fmap_cons, !filter_cons, IH by (intros; apply HE; by right).
    destruct (HE c) as [ij Hc]; [by left |].
    simpl. rewrite (length_condition_onsets _ _ _ _ _ Hc).
    by destruct (decide _).
  - rewrite <- list_fmap_compose.
    apply NoDup_fmap_2_strong; [| done].
    intros c c' Hc Hc' Heq. simpl in Heq.
    destruct (HE _ Hc) as [ij Hij], (HE _ Hc') as [ij' Hij'].
    assert (ij = ij') as <- by (by eapply condition_labels_unique).
    congruence.
Qed.

End Refinement.

(** ** The properties of the stimulation-pair construction *)

(** X1.  The conditions that the main flow keeps are exactly these: one for
    each pair of positions [(i0, i1)] of included channels (with
    concatenation only [i0 <= i1]) that has at least one trial and at least
    [minimum] trials, labelled "c0-c1", holding the positions of its trials
    in the order of the events and their onsets.  With concatenation the
    trials of a condition are those that stimulate c0-c1 or c1-c0. *)
Theorem main_run_conditions concat minimum channels trials c :
  c ∈ main_run_stimpairs concat minimum channels trials ↔
    ∃ i0 i1 c0 c1,
      channels !! i0 = Some c0 ∧ channels !! i1 = Some c1 ∧
      (concat = true → (i0 ≤ i1)%nat) ∧
      let indices := matching_indices concat c0 c1 (trial_pairs trials) in
      (∀ t, t ∈ indices ↔
         ∃ x, trial_pairs trials !! t = Some x ∧
              (x = (c0, c1) ∨ (concat = true ∧ x = (c1, c0)))) ∧
      indices ≠ [] ∧ minimum ≤ Z.of_nat (length indices) ∧
      c = {| stimpair_label := pair_label c0 c1;
             stimpair_electrode_indices := (i0, i1);
             stimpair_trial_indices := indices;
             stimpair_trial_onsets := onsets_at (trial_onsets trials) indices |}.
Proof.
  rewrite main_run_stimpairs_spec. split.
  - intros (i0 & i1 & c0 & c1 & H0 & H1 & Hord & Hne & Hmin & ->).
    exists i0, i1, c0, c1. do 3 (split; [done |]). simpl.
    split; [intros t; apply elem_of_matching_indices | done].
  - intros (i0 & i1 & c0 & c1 & H0 & H1 & Hord & _ & Hne & Hmin & ->).
    by exists i0, i1, c0, c1.
Qed.

(** X2.  With unique channel names no trial is counted twice: two kept
    conditions that share a trial are the same condition. *)
Theorem trial_in_one_condition concat minimum channels trials c c' t :
  NoDup channels →
  c ∈ main_run_stimpairs concat minimum channels trials →
  c' ∈ main_run_stimpairs concat minimum channels trials →
  t ∈ stimpair_trial_indices c → t ∈ stimpair_trial_indices c' →
  c = c'.
Proof.
  intros Hnd (i0 & i1 & c0 & c1 & H0 & H1 & Hord & _ & _ & ->)%main_run_stimpairs_spec
         (j0 & j1 & d0 & d1 & G0 & G1 & Gord & _ & _ & ->)%main_run_stimpairs_spec.
  simpl.
  intros (x & Hx & Hcase)%elem_of_matching_indices
         (y & Hy & Gcase)%elem_of_matching_indices.
  rewrite Hx in Hy. injection Hy as <-.
  assert (∀ i j a, channels !! i = Some a → channels !! j = Some a → i = j) as Hinj
    by (intros; by eapply NoDup_lookup).
  assert (i0 = j0 ∧ i1 = j1 ∧ c0 = d0 ∧ c1 = d1) as (-> & -> & -> & ->); [| done].
  destruct Hcase as [-> | [-> ->]], Gcase as [[= <- <-] | [? [= <- <-]]]; subst;
    try specialize (Hord eq_refl); try specialize (Gord eq_refl).
  - split_and!; eauto.
  - assert (i0 = j1) by eauto. assert (i1 = j0) by eauto.
    assert (i0 = i1) as -> by lia. subst. split_and!; eauto; congruence.
  - assert (i1 = j0) by eauto. assert (i0 = j1) by eauto.
    assert (i0 = i1) as -> by lia. subst. split_and!; eauto; congruence.
  - split_and!; eauto.
Qed.

Import Examples.

Lemma NoDup_channels_AB : NoDup channels_AB.
Proof.
  apply NoDup_cons. split; [| apply NoDup_singleton].
  rewrite list_elem_of_singleton. discriminate.
Qed.

Lemma trial_in_one_condition_witness :
  ∃ c, main_run_stimpairs true 5 channels_AB trials_3_2 = [c] ∧
       stimpair_trial_indices c = [0; 1; 2; 3; 4]%nat ∧
       ∀ c', c' ∈ main_run_stimpairs true 5 channels_AB trials_3_2 →
             1%nat ∈ stimpair_trial_indices c' → c = c'.
Proof.
  eassert (main_run_stimpairs true 5 channels_AB trials_3_2 = [_]) as Hrun
    by (vm_compute; reflexivity).
  eexists. split; [exact Hrun |]. split; [reflexivity |].
  intros c' Hc' Ht.
  apply (trial_in_one_condition true 5 channels_AB trials_3_2 _ c' 1%nat
           NoDup_channels_AB); [| done | | done].
  - rewrite Hrun. apply list_elem_of_here.
  - simpl. apply list_elem_of_further, list_elem_of_here.
Defined.

Lemma concat_adds_both_directions_witness :
  length (matching_indices true "A" "B" (trial_pairs trials_3_2)) = (3 + 2)%nat.
Proof.
  rewrite (concat_adds_both_directions "A" "B" (trial_pairs trials_3_2)
             ltac:(discriminate)).
  reflexivity.
Defined.

Lemma process_subset_matches_main_run_witness :
  process_subset_stimpairs true 5 channels_AB trials_3_2
    = [("A-B", ([1; 2; 3; 4; 5]%float, ("A", "B")))] ∧
  process_subset_stimpairs false 5 channels_AB trials_3_2 = [].
Proof.
  split.
  - rewrite (process_subset_matches_main_run true 5 channels_AB trials_3_2
               NoDup_channels_AB
               ltac:(repeat constructor)).
    reflexivity.
  - rewrite (process_subset_matches_main_run false 5 channels_AB trials_3_2
               NoDup_channels_AB
               ltac:(repeat constructor)).
    reflexivity.
Defined.

End StimPairsFacts.

(* ===================================================================== *)
(** * Facts about the epoching of utils/bids.py *)
(* ===================================================================== *)

Module BidsFacts.

Import Detection PyFacts Bids BidsSpec.

(** ** The bounds of one trial *)


Lemma allow_spec m f :
  ((m =? 1) && f) || (m =? 2) = true ↔ (m = 1 ∧ f = true) ∨ m = 2.
Proof.
  rewrite orb_true_iff, andb_true_iff, !Z.eqb_eq. tauto.
Qed.

(** A permitted trial: no exception, warnings at most (none when they are
    not to be logged), and a window that fits its slice. *)
Lemma trial_bounds_permitted m first last warn size num start onset l :
  0 ≤ num →
  permitted m first last size num start →
  ∃ b l',
    trial_bounds m first last warn size num start onset l = (Ok b, l ++ l') ∧
    warnings_only l' ∧ (warn = false → l' = []) ∧
    aligned size num start b.
Proof.
  intros Hnum [Hfirst Hlast]. unfold trial_bounds.
  set (allow_first := ((m =? 1) && first) || (m =? 2)).
  set (allow_last := ((m =? 1) && last) || (m =? 2)).
  assert (start < 0 → allow_first = true) as Hf
    by (intros; apply allow_spec; auto).
  assert (size < start + num → allow_last = true) as Hl
    by (intros; apply allow_spec; auto).
  assert (∀ msg (l0 : log),
            ∃ l1, (if warn then logging WARNING msg else ret tt) l0 = (Ok tt, l0 ++ l1) ∧
                  warnings_only l1 ∧ (warn = false → l1 = []) ) as Hwarn.
  { intros msg l0. destruct warn.
    - exists [(WARNING, msg)]. split; [done |]. split; [by repeat constructor | done].
    - exists []. rewrite (right_id_L [] (++)). split; [done |]. split; [constructor | done]. }
  destruct (Z.ltb_spec (start + num) 0) as [Hend | Hend].
  { rewrite Hf by lia. unfold bind.
    destruct (Hwarn (TrialEndBeforeData onset) l) as (l1 & -> & Hw & Hnil).
    exists BSkip, l1. split; [done |]. split; [done |]. split; [done |]. simpl. lia. }
  unfold bind at 1.
  destruct (Z.ltb_spec start 0) as [Hstart | Hstart].
  - rewrite Hf by lia. unfold bind at 1.
    destruct (Hwarn (TrialStartBeforeData onset) l) as (l1 & -> & Hw1 & Hnil1).
    unfold ret at 1.
    destruct (Z.ltb_spec size 0) as [Hs0 | Hs0].
    { rewrite Hl by lia. unfold bind.
      destruct (Hwarn (TrialStartAfterData onset) (l ++ l1)) as (l2 & -> & Hw2 & Hnil2).
      exists BSkip, (l1 ++ l2). rewrite (assoc_L (++)). split; [done |].
      split; [by apply Forall_app |].
      split; [intros ?; rewrite Hnil1, Hnil2; done | simpl; lia]. }
    destruct (Z.ltb_spec size (start + num)) as [Hse | Hse].
    + rewrite Hl by lia. unfold bind.
      destruct (Hwarn (TrialEndAfterData onset) (l ++ l1)) as (l2 & -> & Hw2 & Hnil2).
      eexists _, (l1 ++ l2). rewrite (assoc_L (++)). split; [done |].
      split; [by apply Forall_app |].
      split; [intros ?; rewrite Hnil1, Hnil2; done | simpl; lia].
    + eexists _, l1. split; [done |]. split; [done |]. split; [done | simpl; lia].
  - unfold ret at 1.
    destruct (Z.ltb_spec size start) as [Hss | Hss].
    { rewrite Hl by lia. unfold bind.
      destruct (Hwarn (TrialStartAfterData onset) l) as (l1 & -> & Hw & Hnil).
      exists BSkip, l1. split; [done |]. split; [done |]. split; [done | simpl; lia]. }
    destruct (Z.ltb_spec size (start + num)) as [Hse | Hse].
    + rewrite Hl by lia. unfold bind.
      destruct (Hwarn (TrialEndAfterData onset) l) as (l1 & -> & Hw & Hnil).
      eexists _, l1. split; [done |]. split; [done |]. split; [done | simpl; lia].
    + eexists _, []. rewrite (right_id_L [] (++)). split; [done |].
      split; [constructor |]. split; [done | simpl; lia].
Qed.

(** A trial that the policy does not let through: a RuntimeError, after an
    ERROR line. *)
Lemma trial_bounds_refused m first last warn size num start onset l :
  0 ≤ num → 0 ≤ size →
  ¬ permitted m first last size num start →
  ∃ l' msg,
    trial_bounds m first last warn size num start onset l
      = (Raise RuntimeError, l ++ l' ++ [(ERROR, msg)]) ∧
    warnings_only l'.
Proof.
  intros Hnum Hsize Hnot. unfold trial_bounds.
  set (allow_first := ((m =? 1) && first) || (m =? 2)).
  set (allow_last := ((m =? 1) && last) || (m =? 2)).
  assert ((start < 0 ∧ allow_first = false) ∨
          (size < start + num ∧ allow_last = false)) as Hwhy.
  { destruct (decide (start < 0)) as [Hs | Hs], allow_first eqn:Hf;
      try (left; split; done);
      destruct (decide (size < start + num)) as [He | He], allow_last eqn:Hl;
      try (right; split; done);
      exfalso; apply Hnot; split; intros; try lia; apply allow_spec; done. }
  clearbody allow_first allow_last. clear Hnot.
  assert (∀ msg (l0 : log),
            ∃ l1, (if warn then logging WARNING msg else ret tt) l0 = (Ok tt, l0 ++ l1) ∧
                  warnings_only l1) as Hwarn.
  { intros msg l0. destruct warn.
    - exists [(WARNING, msg)]. split; [done | by repeat constructor].
    - exists []. rewrite (right_id_L [] (++)). split; [done | constructor]. }
  destruct (Z.ltb_spec (start + num) 0) as [Hend | Hend].
  { destruct allow_first.
    - exfalso. destruct Hwhy as [[_ ?] | [? _]]; [done | lia].
    - exists [], (TrialEndBeforeData onset). split; [done | constructor]. }
  unfold bind at 1.
  destruct (Z.ltb_spec start 0) as [Hstart | Hstart].
  - destruct allow_first.
    2:{ exists [], (TrialStartBeforeData onset). split; [done | constructor]. }
    destruct Hwhy as [[_ ?] | [Hse Hl]]; [done |]. subst allow_last.
    unfold bind at 1.
    destruct (Hwarn (TrialStartBeforeData onset) l) as (l1 & -> & Hw).
    unfold ret at 1.
    destruct (Z.ltb_spec size 0) as [? | _]; [lia |].
    destruct (Z.ltb_spec size (start + num)) as [_ | ?]; [| lia].
    exists l1, (TrialEndAfterData onset). rewrite (assoc_L (++)). done.
  - destruct Hwhy as [[? _] | [Hse Hl]]; [lia |]. subst allow_last.
    unfold ret at 1.
    destruct (Z.ltb_spec size start) as [Hss | Hss].
    { exists [], (TrialStartAfterData onset). split; [done | constructor]. }
    destruct (Z.ltb_spec size (start + num)) as [_ | ?]; [| lia].
    exists [], (TrialEndAfterData onset). split; [done | constructor].
Qed.

(** ** The row of a trial *)


Lemma padded_row_length size num start chan :
  length (padded_row size num start chan) = Z.to_nat num.
Proof. unfold padded_row. by rewrite length_fmap, length_seq. Qed.

Lemma norm_index_inside n i : 0 ≤ i ≤ Z.of_nat n → Py.norm_index n i = Z.to_nat i.
Proof. intros H. unfold Py.norm_index. destruct (Z.ltb_spec i 0); lia. Qed.

Lemma slice_bounds_inside n a b :
  0 ≤ a → a ≤ b → b ≤ Z.of_nat n →
  Py.slice_bounds n a b = (Z.to_nat a, Z.to_nat b).
Proof.
  intros. unfold Py.slice_bounds. rewrite !norm_index_inside by lia. f_equal. lia.
Qed.

Lemma slice_inside {A} (l : list A) a b :
  0 ≤ a → a ≤ b → b ≤ Z.of_nat (length l) →
  Py.slice l a b = take (Z.to_nat (b - a)) (drop (Z.to_nat a) l).
Proof.
  intros. unfold Py.slice. rewrite slice_bounds_inside by lia. f_equal. lia.
Qed.

(** A skipped trial leaves the row of NaN, which is its padded window. *)
Lemma padded_row_outside size num start chan :
  start + num < 0 ∨ size < start ∨ size < 0 →
  padded_row size num start chan = nan_row num.
Proof.
  intros Hout. unfold padded_row, nan_row. apply list_eq. intros k.
  rewrite list_lookup_fmap.
  destruct (decide (k < Z.to_nat num)%nat) as [Hk | Hk].
  - rewrite lookup_seq_lt, lookup_replicate_2 by done. simpl.
    destruct (Z.leb_spec 0 (start + Z.of_nat k)), (Z.ltb_spec (start + Z.of_nat k) size);
      simpl; try done; lia.
  - rewrite lookup_seq_ge by lia. symmetry. apply lookup_replicate_None. lia.
Qed.

(** Writing the samples read for an aligned window into a row of NaN gives
    the padded window. *)
Lemma assign_window size num start chan s e ls le :
  Z.of_nat (length chan) = size →
  aligned size num start (BWindow s e ls le) →
  assign_slice (nan_row num) ls le (take (Z.to_nat (e - s)) (drop (Z.to_nat s) chan))
    = Ok (padded_row size num start chan).
Proof.
  intros Hsize (Hs & Hse & He & Hls & Hlsle & Hle & Hlen & Hal & Hleft & Hright).
  unfold assign_slice, nan_row. rewrite length_replicate.
  rewrite slice_bounds_inside by lia.
  rewrite decide_True by (rewrite length_take, length_drop; lia).
  f_equal. apply list_eq. intros k. unfold padded_row.
  rewrite list_lookup_fmap.
  destruct (decide (k < Z.to_nat num)%nat) as [Hk | Hk].
  2:{ rewrite lookup_seq_ge by lia.
      apply lookup_ge_None.
      rewrite !length_app, length_take, length_drop, length_take, length_drop,
        !length_replicate. lia. }
  rewrite lookup_seq_lt by done. simpl.
  destruct (decide (k < Z.to_nat ls)%nat) as [Hlo | Hlo].
  { rewrite lookup_app_l by (rewrite length_take, length_replicate; lia).
    rewrite lookup_take_lt, lookup_replicate_2 by lia.
    destruct (Z.leb_spec 0 (start + Z.of_nat k)); [lia | done]. }
  rewrite lookup_app_r by (rewrite length_take, length_replicate; lia).
  rewrite length_take, length_replicate, Nat.min_l by lia.
  destruct (decide (k < Z.to_nat le)%nat) as [Hhi | Hhi].
  - rewrite lookup_app_l by (rewrite length_take, length_drop; lia).
    rewrite lookup_take_lt, lookup_drop by lia.
    destruct (Z.leb_spec 0 (start + Z.of_nat k)); [| lia].
    destruct (Z.ltb_spec (start + Z.of_nat k) size); [| lia]. simpl.
    replace (Z.to_nat s + (k - Z.to_nat ls))%nat with (Z.to_nat (start + Z.of_nat k)) by lia.
    destruct (lookup_lt_is_Some_2 chan (Z.to_nat (start + Z.of_nat k))) as [x ->]; [lia | done].
  - rewrite lookup_app_r by (rewrite length_take, length_drop; lia).
    rewrite lookup_drop, lookup_replicate_2
      by (rewrite length_take, length_drop; lia).
    destruct (Z.leb_spec 0 (start + Z.of_nat k)),
             (Z.ltb_spec (start + Z.of_nat k) size); simpl; try done. lia.
Qed.

End BidsFacts.

(* ===================================================================== *)
(** * The epoching loops of utils/bids.py *)
(* ===================================================================== *)

Module BidsLoops.

Import Detection PyFacts Bids BidsSpec BidsFacts.

(** ** Loops with an invariant *)

(** A loop whose passes all return keeps an invariant that every pass
    keeps. *)
Lemma for_each_inv {A St} (body : nat → A → St → M St)
    (I : nat → St → log → Prop) xs :
  ∀ start s l,
    I start s l →
    (∀ i x s l, xs !! i = Some x → I (start + i)%nat s l →
       ∃ s' l', body (start + i)%nat x s l = (Ok s', l') ∧ I (S (start + i)) s' l') →
    ∃ s' l', for_each body start xs s l = (Ok s', l') ∧
             I (start + length xs)%nat s' l'.
Proof.
  induction xs as [| x xs IH]; intros start s l HI Hstep.
  - exists s, l. rewrite Nat.add_0_r. done.
  - destruct (Hstep 0%nat x s l eq_refl) as (s1 & l1 & Hb & HI1);
      [by rewrite Nat.add_0_r |].
    rewrite Nat.add_0_r in Hb, HI1.
    destruct (IH (S start) s1 l1 HI1) as (s2 & l2 & Hf & HI2).
    { intros i y s' l' Hy Hi.
      replace (S start + i)%nat with (start + S i)%nat in * by lia.
      by apply (Hstep (S i)). }
    exists s2, l2. simpl. unfold bind. rewrite Hb. split; [done |].
    by replace (start + S (length xs))%nat with (S start + length xs)%nat by lia.
Qed.

(** A loop stops at the first pass that raises. *)
Lemma for_each_raise {A St} (body : nat → A → St → M St)
    (I : nat → St → log → Prop) (Q : exn → log → Prop) xs :
  ∀ start s l i,
    I start s l →
    (i < length xs)%nat →
    (∀ j x s l, (j < i)%nat → xs !! j = Some x → I (start + j)%nat s l →
       ∃ s' l', body (start + j)%nat x s l = (Ok s', l') ∧ I (S (start + j)) s' l') →
    (∀ x s l, xs !! i = Some x → I (start + i)%nat s l →
       ∃ e l', body (start + i)%nat x s l = (Raise e, l') ∧ Q e l') →
    ∃ e l', for_each body start xs s l = (Raise e, l') ∧ Q e l'.
Proof.
  induction xs as [| x xs IH]; intros start s l i HI Hi Hstep Hfail;
    [simpl in Hi; lia |].
  destruct i as [| i].
  - destruct (Hfail x s l eq_refl) as (e & l' & Hb & HQ); [by rewrite Nat.add_0_r |].
    rewrite Nat.add_0_r in Hb. exists e, l'. simpl. unfold bind. by rewrite Hb.
  - destruct (Hstep 0%nat x s l) as (s1 & l1 & Hb & HI1);
      [lia | done | by rewrite Nat.add_0_r |].
    rewrite Nat.add_0_r in Hb, HI1.
    destruct (IH (S start) s1 l1 i HI1) as (e & l' & Hf & HQ).
    { simpl in Hi. lia. }
    { intros j y s' l0 Hj Hy HIj.
      replace (S start + j)%nat with (start + S j)%nat in * by lia.
      apply (Hstep (S j)); [lia | done | done]. }
    { intros y s' l0 Hy HIi.
      replace (S start + i)%nat with (start + S i)%nat in * by lia.
      by apply Hfail. }
    exists e, l'. simpl. unfold bind. by rewrite Hb.
Qed.

(** A decidable property holds below [n], or there is a first index below
    [n] at which it fails. *)
Lemma first_failure (P : nat → Prop) `{!∀ n, Decision (P n)} n :
  (∀ k, (k < n)%nat → P k) ∨
  (∃ j, (j < n)%nat ∧ ¬ P j ∧ ∀ k, (k < j)%nat → P k).
Proof.
  induction n as [| n [IH | IH]].
  - left. lia.
  - destruct (decide (P n)) as [Hn | Hn].
    + left. intros k Hk. destruct (decide (k = n)) as [-> | ?]; [done |].
      apply IH. lia.
    + right. exists n. split; [lia | done].
  - right. destruct IH as (j & ? & ?). exists j. split; [lia | done].
Qed.

(** ** Three-dimensional arrays, cell by cell *)

Lemma tensor_lookup {A} n0 n1 (cell : nat → nat → A) c :
  (c < n0)%nat → tensor n0 n1 cell !! c = Some (cell c <$> seq 0 n1).
Proof.
  intros Hc. unfold tensor. by rewrite list_lookup_fmap, lookup_seq_lt.
Qed.

Lemma get2_tensor {A} n0 n1 (cell : nat → nat → A) c t :
  (c < n0)%nat → (t < n1)%nat → get2 (tensor n0 n1 cell) c t = Some (cell c t).
Proof.
  intros Hc Ht. unfold get2. rewrite tensor_lookup by done. simpl.
  by rewrite list_lookup_fmap, lookup_seq_lt.
Qed.

Lemma tensor_ext {A} n0 n1 (f g : nat → nat → A) :
  (∀ c t, (c < n0)%nat → (t < n1)%nat → f c t = g c t) →
  tensor n0 n1 f = tensor n0 n1 g.
Proof.
  intros Hfg. unfold tensor. apply list_eq. intros c.
  rewrite !list_lookup_fmap.
  destruct (decide (c < n0)%nat) as [Hc | Hc].
  - rewrite lookup_seq_lt by done. simpl. f_equal.
    apply list_eq. intros t. rewrite !list_lookup_fmap.
    destruct (decide (t < n1)%nat) as [Ht | Ht].
    + rewrite lookup_seq_lt by done. simpl. f_equal. by apply Hfg.
    + by rewrite lookup_seq_ge by lia.
  - by rewrite lookup_seq_ge by lia.
Qed.

Lemma set2_tensor {A} n0 n1 (cell : nat → nat → A) c t x :
  set2 c t x (tensor n0 n1 cell)
  = tensor n0 n1 (fun c' t' => if decide (c' = c ∧ t' = t) then x else cell c' t').
Proof.
  unfold set2. apply list_eq. intros c'.
  destruct (decide (c' < n0)%nat) as [Hc' | Hc'].
  2:{ rewrite (proj2 (lookup_ge_None _ c')).
      - symmetry. apply lookup_ge_None. unfold tensor.
        rewrite length_fmap, length_seq. lia.
      - rewrite length_alter. unfold tensor. rewrite length_fmap, length_seq. lia. }
  rewrite (tensor_lookup _ _ _ c') by done.
  destruct (decide (c = c')) as [<- | Hne].
  - rewrite list_lookup_alter_eq, tensor_lookup by done. simpl. f_equal.
    apply list_eq. intros t'.
    destruct (decide (t = t')) as [<- | Hnt].
    + destruct (decide (t < n1)%nat) as [Ht | Ht].
      * rewrite list_lookup_insert_eq by (rewrite length_fmap, length_seq; lia).
        rewrite list_lookup_fmap, lookup_seq_lt by done. simpl.
        by rewrite decide_True.
      * rewrite (proj2 (lookup_ge_None _ t)).
        -- symmetry. apply lookup_ge_None. rewrite length_fmap, length_seq. lia.
        -- rewrite length_insert, length_fmap, length_seq. lia.
    + rewrite list_lookup_insert_ne by done. rewrite !list_lookup_fmap.
      destruct (seq 0 n1 !! t') as [k |] eqn:Hk; simpl; [| done].
      apply lookup_seq in Hk as [-> _]. simpl.
      by rewrite decide_False by (intros [_ ?]; done).
  - rewrite list_lookup_alter_ne, tensor_lookup by done. f_equal.
    apply list_eq. intros t'. rewrite !list_lookup_fmap.
    destruct (seq 0 n1 !! t') as [k |] eqn:Hk; simpl; [| done].
    by rewrite decide_False by (intros [? _]; done).
Qed.

Lemma tensor_fmap {A B C} (f : A → B → C) (xs : list A) (ys : list B) a b :
  tensor (length xs) (length ys)
    (fun c t => f (default a (xs !! c)) (default b (ys !! t)))
  = (fun x => f x <$> ys) <$> xs.
Proof.
  unfold tensor. apply list_eq. intros c. rewrite !list_lookup_fmap.
  destruct (xs !! c) as [x |] eqn:Hx.
  - rewrite lookup_seq_lt by (by eapply lookup_lt_Some). simpl. f_equal.
    apply list_eq. intros t. rewrite !list_lookup_fmap.
    destruct (ys !! t) as [y |] eqn:Hy.
    + rewrite lookup_seq_lt by (by eapply lookup_lt_Some). simpl.
      by rewrite Hx, Hy.
    + apply lookup_ge_None in Hy. by rewrite lookup_seq_ge by lia.
  - apply lookup_ge_None in Hx. by rewrite lookup_seq_ge by lia.
Qed.

Lemma allocate_array_tensor n0 n1 n2 :
  allocate_array n0 n1 n2 = tensor n0 n1 (fun _ _ => nan_row n2).
Proof.
  unfold allocate_array, tensor, nan_row. apply list_eq. intros c.
  rewrite list_lookup_fmap.
  destruct (decide (c < n0)%nat) as [Hc | Hc].
  - rewrite lookup_replicate_2, lookup_seq_lt by done. simpl. f_equal.
    apply list_eq. intros t. rewrite list_lookup_fmap.
    destruct (decide (t < n1)%nat) as [Ht | Ht].
    + by rewrite lookup_replicate_2, lookup_seq_lt by done.
    + rewrite lookup_seq_ge by lia. apply lookup_replicate_None. lia.
  - rewrite lookup_seq_ge by lia. apply lookup_replicate_None. lia.
Qed.

(** ** Normalization by the baseline *)

Lemma normalized_baselined nanmean nanmedian bm samples baseline :
  0 ≤ bm ≤ 2 →
  normalized nanmean nanmedian bm samples baseline
  = Some (baselined nanmean nanmedian bm baseline samples).
Proof.
  intros Hbm. assert (bm = 0 ∨ bm = 1 ∨ bm = 2) as [-> | [-> | ->]] by lia; done.
Qed.

Lemma baselined_none nanmean nanmedian b b' samples :
  baselined nanmean nanmedian 0 b samples = baselined nanmean nanmedian 0 b' samples.
Proof. done. Qed.

Lemma length_baselined nanmean nanmedian bm b samples :
  length (baselined nanmean nanmedian bm b samples) = length samples.
Proof.
  unfold baselined. destruct (bm =? 1), (bm =? 2); by rewrite ?length_fmap.
Qed.

Lemma window_baselined nanmean nanmedian bm b s e samples :
  window s e (baselined nanmean nanmedian bm b samples)
  = baselined nanmean nanmedian bm b (window s e samples).
Proof.
  unfold baselined, window.
  destruct (bm =? 1), (bm =? 2); by rewrite ?fmap_take, ?fmap_drop.
Qed.

(** A slice of a window is a window. *)
Lemma slice_window (chan : list float) s e a b :
  0 ≤ s → s ≤ e → e ≤ Z.of_nat (length chan) →
  0 ≤ a → a ≤ b → b ≤ e - s →
  Py.slice (window s e chan) a b = window (s + a) (s + b) chan.
Proof.
  intros Hs Hse He Ha Hab Hb. unfold window.
  rewrite slice_inside by (rewrite ?length_take, ?length_drop; lia).
  replace (s + b - (s + a)) with (b - a) by lia.
  apply list_eq. intros k.
  destruct (decide (k < Z.to_nat (b - a))%nat) as [Hk | Hk].
  - rewrite !lookup_take_lt by lia. rewrite lookup_drop.
    rewrite lookup_take_lt by lia. rewrite !lookup_drop. f_equal. lia.
  - by rewrite !lookup_take_ge by lia.
Qed.

(** A baseline inside the recorded part of its trial is inside the
    recording. *)
Lemma baselines_trial_data bm size num bnum marks :
  baselines_in_trial bm size num bnum marks → baselines_in_data bm size bnum marks.
Proof.
  intros Hbase Hbm. eapply Forall_impl; [exact (Hbase Hbm) |].
  intros mark (H1 & H2 & H3). unfold clamped in *. simpl in *. lia.
Qed.

(** The epochs of trials that begin inside the recording do not depend on
    where the baseline is counted from. *)
Lemma epochs_shift nanmean nanmedian bm size num bnum marks chans :
  trials_begin_in_data bm marks →
  epochs nanmean nanmedian bm size num bnum (fun _ => 0) marks chans
  = epochs nanmean nanmedian bm size num bnum clamped marks chans.
Proof.
  intros Hbegin. unfold epochs. apply list_fmap_ext. intros c chan _.
  apply list_fmap_ext. intros t mark Hmk. unfold epoch_row. f_equal.
  destruct (decide (bm = 0)) as [-> | Hbm]; [apply baselined_none |].
  pose proof (proj1 (Forall_lookup _ _) (Hbegin Hbm) _ _ Hmk) as Hstart.
  unfold clamped. simpl in Hstart. by rewrite Z.max_l by lia.
Qed.

(** ** The two loaders on a recording held as lists *)

Section Loading.

Variables nanmean nanmedian : list float → float.
Variable r : reader.
Variable channels : list string.
Variable chans : list (list float).
Variable onsets : list float.
Variable marks : list (Z * Z).
Variables trial_epoch baseline_epoch : float * float.
Variables bm m : Z.
Variables num bnum : Z.

Local Abbreviation size := (num_samples r).
Local Abbreviation rate := (sampling_rate r).

Hypothesis trial_samples : epoch_num_samples trial_epoch rate = Ok num.
Hypothesis baseline_samples : epoch_num_samples baseline_epoch rate = Ok bnum.
Hypothesis num_nonneg : 0 ≤ num.
Hypothesis bnum_nonneg : 0 ≤ bnum.
Hypothesis method_known : 0 ≤ bm ≤ 2.
Hypothesis chans_length : length chans = length channels.
Hypothesis chans_size : Forall (fun chan => Z.of_nat (length chan) = size) chans.
Hypothesis trial_marks : marks_of rate trial_epoch baseline_epoch onsets marks.

Local Abbreviation chan_at := (fun c : nat => default [] (chans !! c)).
Local Abbreviation mark_at := (fun t : nat => default (0, 0) (marks !! t)).

(** The channel [c] as the trial [t] sees it: normalized by the baseline
    of the trial. *)
Local Abbreviation chan_for := (fun (shift : Z → Z) (t c : nat) =>
  baselined nanmean nanmedian bm
    (window ((mark_at t).2 + shift (mark_at t).1)
       ((mark_at t).2 + shift (mark_at t).1 + bnum) (chan_at c))
    (chan_at c)).

(** The array while the loops run: the cells that are [done] hold their
    epoch, the others are still NaN. *)
Local Abbreviation progress := (fun (shift : Z → Z) (done : nat → nat → bool) =>
  tensor (length channels) (length onsets)
    (fun c t => if done c t
                then epoch_row nanmean nanmedian bm size num bnum shift
                       (chan_at c) (mark_at t)
                else nan_row num)).

Lemma chan_at_size c : (c < length channels)%nat → Z.of_nat (length (chan_at c)) = size.
Proof using chans_length chans_size.
  intros Hc. destruct (lookup_lt_is_Some_2 chans c) as [chan Hchan]; [lia |].
  rewrite Hchan. simpl. exact (proj1 (Forall_lookup _ _) chans_size _ _ Hchan).
Qed.

Lemma marks_length : length marks = length onsets.
Proof using trial_marks. symmetry. by eapply Forall2_length. Qed.

Lemma progress_done shift :
  progress shift (fun _ _ => true)
  = epochs nanmean nanmedian bm size num bnum shift marks chans.
Proof using chans_length trial_marks.
  unfold epochs. rewrite <- chans_length, <- marks_length.
  apply (tensor_fmap (epoch_row nanmean nanmedian bm size num bnum shift)).
Qed.

(** Writing the window of a trial into a cell that is still NaN. *)
Lemma assign3_window shift done done' c t s e ls le :
  (c < length channels)%nat → (t < length onsets)%nat →
  done c t = false →
  (∀ c' t', done' c' t' = done c' t' || bool_decide (c' = c ∧ t' = t)) →
  aligned size num (mark_at t).1 (BWindow s e ls le) →
  assign3 (progress shift done) c t ls le (window s e (chan_for shift t c))
  = Ok (progress shift done').
Proof using chans_length chans_size.
  intros Hc Ht Hdone Hdone' Hal. unfold assign3.
  rewrite get2_tensor by done. rewrite Hdone. simpl.
  unfold window at 1.
  rewrite (assign_window size num (mark_at t).1)
    by (by try (rewrite length_baselined; apply chan_at_size)).
  simpl. rewrite set2_tensor. f_equal. apply tensor_ext. intros c' t' _ _.
  rewrite Hdone'. case_decide as Heq.
  - destruct Heq as [-> ->]. rewrite bool_decide_eq_true_2 by done.
    by rewrite orb_true_r.
  - rewrite bool_decide_eq_false_2 by done. by rewrite orb_false_r.
Qed.

(** A trial that is skipped: its cells are NaN, as its padded window is. *)
Lemma progress_skip shift done done' t :
  aligned size num (mark_at t).1 BSkip →
  (∀ c' t', t' ≠ t → done' c' t' = done c' t') →
  progress shift done = progress shift done'.
Proof.
  intros Hal Hdone'. apply tensor_ext. intros c' t' _ _.
  destruct (decide (t' = t)) as [-> | Hne].
  - unfold epoch_row. rewrite (padded_row_outside size num (mark_at t).1) by done.
    by destruct (done c' t), (done' c' t).
  - by rewrite Hdone'.
Qed.

(** What the loops know of a trial. *)
Lemma trial_at t onset :
  onsets !! t = Some onset →
  ∃ mark,
    marks !! t = Some mark ∧
    Py.round ((onset + fst trial_epoch) * rate) = Ok mark.1 ∧
    Py.round ((onset + fst baseline_epoch) * rate) = Ok mark.2.
Proof using trial_marks.
  intros Hon.
  destruct (Forall2_lookup_l _ _ _ _ _ trial_marks Hon) as (mark & Hmk & Hr & Hb).
  by exists mark.
Qed.

(** The log of a loop that has only warned so far. *)
Local Abbreviation warned := (fun l l1 : log => ∃ l', l1 = l ++ l' ∧ warnings_only l').

(** The log of a loop that has stopped on an error. *)
Local Abbreviation stopped := (fun (l : log) (e : exn) (l1 : log) =>
  e = RuntimeError ∧
  ∃ l' msg, l1 = l ++ l' ++ [(ERROR, msg)] ∧ warnings_only l').

Lemma warned_refl l : warned l l.
Proof. exists []. rewrite (right_id_L [] (++)). split; [done | constructor]. Qed.

Lemma warned_trans l l1 l' :
  warned l l1 → warnings_only l' → warned l (l1 ++ l').
Proof.
  intros (l0 & -> & Hw) Hw'. exists (l0 ++ l').
  rewrite (assoc_L (++)). split; [done | by apply Forall_app].
Qed.

Lemma warned_stopped l l1 l' msg :
  warned l l1 → warnings_only l' → stopped l RuntimeError (l1 ++ l' ++ [(ERROR, msg)]).
Proof.
  intros (l0 & -> & Hw) Hw'. split; [done |]. exists (l0 ++ l'), msg.
  rewrite <- !(assoc_L (++)). split; [done | by apply Forall_app].
Qed.

(** The trial [t] is let through. *)
Local Abbreviation permitted_at := (fun t : nat =>
  permitted m (t =? 0)%nat (t =? length onsets - 1)%nat size num (mark_at t).1).

(** *** Trial by trial *)

(** With normalization, the baseline of the trial [t] begins in the
    recorded part of the trial and the samples read for it lie in that
    part. *)
Local Abbreviation baseline_in_trial := (fun t : nat =>
  bm ≠ 0 →
  Z.max 0 (mark_at t).1 ≤ (mark_at t).2 ∧
  (mark_at t).2 + clamped (mark_at t).1 + bnum ≤ (mark_at t).1 + num ∧
  (mark_at t).2 + clamped (mark_at t).1 + bnum ≤ size).

(** The channel loop of a trial fills the row of the trial in every
    channel. *)
Lemma store_trial_window t s e ls le l :
  (t < length onsets)%nat →
  baseline_in_trial t →
  aligned size num (mark_at t).1 (BWindow s e ls le) →
  store_trial nanmean nanmedian bm (window s e <$> chans)
    ((mark_at t).2 - (mark_at t).1) ((mark_at t).2 - (mark_at t).1 + bnum)
    t ls le channels
    (progress clamped (fun _ t' => bool_decide (t' < t)%nat)) l
  = (Ok (progress clamped (fun _ t' => bool_decide (t' < S t)%nat)), l).
Proof using nanmean nanmedian chans_length chans_size method_known bnum_nonneg.
  intros Ht Hbase Hal. unfold store_trial.
  set (body := fun (channel_idx : nat) (_ : string) data => _).
  destruct (for_each_inv body
    (fun k data l' =>
       l' = l ∧
       data = progress clamped (fun c' t' =>
                bool_decide (t' < t)%nat || bool_decide (t' = t ∧ c' < k)%nat))
    channels 0%nat (progress clamped (fun _ t' => bool_decide (t' < t)%nat)) l)
    as (data & l' & Hrun & -> & ->).
  - split; [done |]. apply tensor_ext. intros c' t' _ _.
    rewrite (bool_decide_eq_false_2 (t' = t ∧ (c' < 0)%nat)) by lia.
    by rewrite orb_false_r.
  - intros c name data l' Hname [-> ->]. simpl.
    assert (c < length channels)%nat as Hc by (by eapply lookup_lt_Some).
    destruct (lookup_lt_is_Some_2 chans c) as [chan Hchan]; [lia |].
    pose proof (chan_at_size c Hc) as Hlen.
    unfold body, bind, lift. rewrite list_lookup_fmap, Hchan. simpl.
    rewrite normalized_baselined by done.
    replace chan with (chan_at c) by (by rewrite Hchan).
    assert (baselined nanmean nanmedian bm
              (Py.slice (window s e (chan_at c)) ((mark_at t).2 - (mark_at t).1)
                 ((mark_at t).2 - (mark_at t).1 + bnum))
              (window s e (chan_at c))
            = window s e (chan_for clamped t c)) as ->.
    { rewrite window_baselined.
      destruct (decide (bm = 0)) as [-> | Hbm]; [apply baselined_none |].
      destruct (Hbase Hbm) as (H1 & H2 & H3).
      destruct Hal as (Hs & Hse & He & Hls & Hlsle & Hle & Hlen' & Hst & Hleft & Hright).
      unfold clamped in *.
      rewrite slice_window by lia. f_equal. f_equal; lia. }
    rewrite (assign3_window clamped _
      (fun c' t' => bool_decide (t' < t)%nat || bool_decide (t' = t ∧ c' < S c)%nat) c t);
      try done.
    + eexists _, _. split; [reflexivity |]. done.
    + rewrite bool_decide_eq_false_2 by lia.
      by rewrite bool_decide_eq_false_2 by lia.
    + intros c' t'. repeat case_bool_decide; simpl; try done; lia.
  - rewrite Hrun. f_equal. f_equal. apply tensor_ext. intros c' t' Hc' _.
    repeat case_bool_decide; simpl; try done; lia.
Qed.

(** One pass of the trial loop on a trial that is let through. *)
Lemma load_trial_permitted t onset l :
  range_reader r channels chans →
  onsets !! t = Some onset →
  permitted_at t →
  baseline_in_trial t →
  ∃ l', load_trial nanmean nanmedian r channels (length onsets) num trial_epoch
          bnum bm baseline_epoch m t onset
          (progress clamped (fun _ t' => bool_decide (t' < t)%nat)) l
        = (Ok (progress clamped (fun _ t' => bool_decide (t' < S t)%nat)), l ++ l') ∧
        warnings_only l'.
Proof using All.
  intros Hrange Hon Hperm Hbase.
  destruct (trial_at t onset Hon) as (mark & Hmk & Hr & Hb).
  assert (t < length onsets)%nat as Ht by (by eapply lookup_lt_Some).
  pose proof (store_trial_window t) as Hstore.
  cbv beta in Hperm, Hbase, Hstore.
  rewrite Hmk in Hperm, Hbase, Hstore. simpl in Hperm, Hbase, Hstore.
  destruct (trial_bounds_permitted m (t =? 0)%nat (t =? length onsets - 1)%nat true
              size num mark.1 onset l num_nonneg Hperm) as (bd & l' & Hbd & Hw & _ & Hal).
  exists l'. split; [| done].
  unfold load_trial, bind, lift. rewrite Hr, Hb. cbv beta iota zeta. rewrite Hbd.
  destruct bd as [| s e ls le]; cbv beta iota.
  - unfold ret. f_equal. f_equal. apply (progress_skip _ _ _ t).
    + by rewrite Hmk.
    + intros c' t' Hne. repeat case_bool_decide; try done; lia.
  - pose proof Hal as (Hs & Hse & He & Hls & Hlsle & Hle & Hlen' & Hst & Hleft & Hright).
    specialize (Hstore s e ls le (l ++ l') Ht Hbase Hal).
    destruct (Z.ltb_spec 0 bm) as [Hbm | Hbm];
      [ destruct Hbase as (H1 & H2 & H3); [lia |]; unfold clamped in *;
        destruct (Z.ltb_spec (mark.2 - mark.1) 0); [lia |];
        destruct (Z.ltb_spec num (mark.2 - mark.1 + bnum)); [lia |];
        destruct (Z.ltb_spec (mark.2 - mark.1) ls); [lia |];
        destruct (Z.ltb_spec le (mark.2 - mark.1 + bnum)); [lia |];
        cbv beta iota delta [orb]
      | ];
      unfold ret at 1; cbv beta iota;
      rewrite (Hrange s e Hs Hse He); cbv beta iota; exact Hstore.
Qed.

(** One pass of the trial loop on a trial that is refused. *)
Lemma load_trial_refused t onset data l :
  0 ≤ size →
  onsets !! t = Some onset →
  ¬ permitted_at t →
  ∃ l' msg,
    load_trial nanmean nanmedian r channels (length onsets) num trial_epoch
      bnum bm baseline_epoch m t onset data l
    = (Raise RuntimeError, l ++ l' ++ [(ERROR, msg)]) ∧
    warnings_only l'.
Proof using All.
  intros Hsize Hon Hperm.
  destruct (trial_at t onset Hon) as (mark & Hmk & Hr & Hb).
  cbv beta in Hperm. rewrite Hmk in Hperm. simpl in Hperm.
  destruct (trial_bounds_refused m (t =? 0)%nat (t =? length onsets - 1)%nat true
              size num mark.1 onset l num_nonneg Hsize Hperm) as (l' & msg & Hbd & Hw).
  exists l', msg. split; [| done].
  unfold load_trial, bind, lift. rewrite Hr, Hb. cbv beta iota zeta. by rewrite Hbd.
Qed.

(** The trial loop when every trial is let through. *)
Lemma by_trial_loop l :
  range_reader r channels chans →
  (∀ t, (t < length onsets)%nat → permitted_at t) →
  (∀ t, (t < length onsets)%nat → baseline_in_trial t) →
  ∃ l1,
    for_each
      (load_trial nanmean nanmedian r channels (length onsets) num trial_epoch
         bnum bm baseline_epoch m)
      0%nat onsets (allocate_array (length channels) (length onsets) num) l
    = (Ok (epochs nanmean nanmedian bm size num bnum clamped marks chans), l1) ∧
    warned l l1.
Proof using All.
  intros Hrange Hperm Hbase.
  destruct (for_each_inv
    (load_trial nanmean nanmedian r channels (length onsets) num trial_epoch
       bnum bm baseline_epoch m)
    (fun t data l1 =>
       warned l l1 ∧ data = progress clamped (fun _ t' => bool_decide (t' < t)%nat))
    onsets 0%nat (allocate_array (length channels) (length onsets) num) l)
    as (data & l1 & Hrun & Hlog & ->).
  - split; [apply warned_refl |]. rewrite allocate_array_tensor.
    apply tensor_ext. intros c t _ _. by rewrite bool_decide_eq_false_2 by lia.
  - intros t onset data l1 Hon [Hlog ->]. simpl.
    assert (t < length onsets)%nat as Ht by (by eapply lookup_lt_Some).
    destruct (load_trial_permitted t onset l1 Hrange Hon (Hperm t Ht) (Hbase t Ht))
      as (l' & Hstep & Hw).
    eexists _, _. split; [exact Hstep |]. split; [by apply warned_trans | done].
  - exists l1. split; [| done]. rewrite Hrun. f_equal. f_equal.
    rewrite <- progress_done. apply tensor_ext. intros c t _ Ht.
    by rewrite bool_decide_eq_true_2 by done.
Qed.

(** The trial loop when a trial is refused. *)
Lemma by_trial_loop_refused t l :
  0 ≤ size →
  range_reader r channels chans →
  (t < length onsets)%nat →
  ¬ permitted_at t →
  (∀ t', (t' < t)%nat → permitted_at t') →
  (∀ t', (t' < t)%nat → baseline_in_trial t') →
  ∃ e l1,
    for_each
      (load_trial nanmean nanmedian r channels (length onsets) num trial_epoch
         bnum bm baseline_epoch m)
      0%nat onsets (allocate_array (length channels) (length onsets) num) l
    = (Raise e, l1) ∧ stopped l e l1.
Proof using All.
  intros Hsize Hrange Ht Hnot Hperm Hbase.
  apply (for_each_raise _
    (fun t data l1 =>
       warned l l1 ∧ data = progress clamped (fun _ t' => bool_decide (t' < t)%nat))
    (stopped l) onsets 0%nat _ l t).
  - split; [apply warned_refl |]. rewrite allocate_array_tensor.
    apply tensor_ext. intros c t' _ _. by rewrite bool_decide_eq_false_2 by lia.
  - done.
  - intros t' onset data l1 Hlt Hon [Hlog ->]. simpl.
    destruct (load_trial_permitted t' onset l1 Hrange Hon (Hperm t' Hlt) (Hbase t' Hlt))
      as (l' & Hstep & Hw).
    eexists _, _. split; [exact Hstep |]. split; [by apply warned_trans | done].
  - intros onset data l1 Hon [Hlog ->]. simpl.
    destruct (load_trial_refused t onset
                (progress clamped (fun _ t' => bool_decide (t' < t)%nat)) l1 Hsize Hon Hnot)
      as (l' & msg & Hstep & Hw).
    eexists _, _. split; [exact Hstep |]. by apply warned_stopped.
Qed.

(** *** Channel by channel *)

(** With normalization, the baseline of the trial [t] lies inside the
    recording. *)
Local Abbreviation baseline_in_data := (fun t : nat =>
  bm ≠ 0 → 0 ≤ (mark_at t).2 ∧ (mark_at t).2 + bnum ≤ size).

(** The cells that are done when the loops are at channel [c], trial [t]. *)
Local Abbreviation upto := (fun (c t c' t' : nat) =>
  bool_decide (c' < c)%nat || bool_decide (c' = c ∧ t' < t)%nat).

(** One pass of the trial loop of a channel on a trial that is let
    through. *)
Lemma epoch_trial_permitted c chan t onset l :
  chans !! c = Some chan →
  onsets !! t = Some onset →
  permitted_at t →
  baseline_in_data t →
  ∃ l', epoch_trial nanmean nanmedian c chan rate (length onsets) num trial_epoch
          bnum bm baseline_epoch m t onset (progress (fun _ => 0) (upto c t)) l
        = (Ok (progress (fun _ => 0) (upto c (S t))), l ++ l') ∧
        warnings_only l'.
Proof using All.
  intros Hchan Hon Hperm Hbase.
  destruct (trial_at t onset Hon) as (mark & Hmk & Hr & Hb).
  assert (t < length onsets)%nat as Ht by (by eapply lookup_lt_Some).
  assert (c < length channels)%nat as Hc
    by (rewrite <- chans_length; by eapply lookup_lt_Some).
  assert (Z.of_nat (length chan) = size) as Hlen
    by exact (proj1 (Forall_lookup _ _) chans_size _ _ Hchan).
  pose proof (assign3_window (fun _ => 0) (upto c t) (upto c (S t)) c t) as Hassign.
  cbv beta in Hperm, Hbase, Hassign.
  rewrite Hmk in Hperm, Hbase, Hassign. rewrite Hchan in Hassign.
  simpl in Hperm, Hbase, Hassign.
  destruct (trial_bounds_permitted m (t =? 0)%nat (t =? length onsets - 1)%nat
              (c =? 0)%nat size num mark.1 onset l num_nonneg Hperm)
    as (bd & l' & Hbd & Hw & _ & Hal).
  exists l'. split; [| done].
  unfold epoch_trial, bind, lift. rewrite Hr, Hb, Hlen. cbv beta iota zeta.
  rewrite Hbd.
  destruct bd as [| s e ls le]; cbv beta iota.
  - unfold ret. f_equal. f_equal. apply (progress_skip _ _ _ t).
    + by rewrite Hmk.
    + intros c' t' Hne. repeat case_bool_decide; try done; lia.
  - pose proof Hal as (Hs & Hse & He & Hrest).
    rewrite normalized_baselined by done.
    assert (baselined nanmean nanmedian bm
              (Py.slice chan mark.2 (mark.2 + bnum)) (Py.slice chan s e)
            = window s e
                (baselined nanmean nanmedian bm
                   (window (mark.2 + 0) (mark.2 + 0 + bnum) chan) chan))
      as ->.
    { rewrite window_baselined, (slice_inside chan s e) by lia. fold (window s e chan).
      destruct (decide (bm = 0)) as [-> | Hbm]; [apply baselined_none |].
      destruct (Hbase Hbm) as [H1 H2].
      rewrite slice_inside by lia. unfold window.
      by replace (mark.2 + 0 + bnum - (mark.2 + 0)) with (mark.2 + bnum - mark.2) by lia;
         rewrite Z.add_0_r. }
    rewrite (Hassign s e ls le Hc Ht); try done.
    + destruct (Z.ltb_spec 0 bm) as [Hbm | Hbm]; [| done].
      destruct Hbase as [H1 H2]; [lia |].
      destruct (Z.ltb_spec mark.2 0); [lia |].
      destruct (Z.ltb_spec size (mark.2 + bnum)); [lia | done].
    + rewrite bool_decide_eq_false_2 by lia.
      by rewrite bool_decide_eq_false_2 by lia.
    + intros c' t'. repeat case_bool_decide; simpl; try done; lia.
Qed.

(** One pass of the trial loop of a channel on a trial that is refused. *)
Lemma epoch_trial_refused c chan t onset data l :
  0 ≤ size →
  chans !! c = Some chan →
  onsets !! t = Some onset →
  ¬ permitted_at t →
  ∃ l' msg,
    epoch_trial nanmean nanmedian c chan rate (length onsets) num trial_epoch
      bnum bm baseline_epoch m t onset data l
    = (Raise RuntimeError, l ++ l' ++ [(ERROR, msg)]) ∧
    warnings_only l'.
Proof using All.
  intros Hsize Hchan Hon Hperm.
  destruct (trial_at t onset Hon) as (mark & Hmk & Hr & Hb).
  assert (Z.of_nat (length chan) = size) as Hlen
    by exact (proj1 (Forall_lookup _ _) chans_size _ _ Hchan).
  cbv beta in Hperm. rewrite Hmk in Hperm. simpl in Hperm.
  destruct (trial_bounds_refused m (t =? 0)%nat (t =? length onsets - 1)%nat
              (c =? 0)%nat size num mark.1 onset l num_nonneg Hsize Hperm)
    as (l' & msg & Hbd & Hw).
  exists l', msg. split; [| done].
  unfold epoch_trial, bind, lift. rewrite Hr, Hb, Hlen. cbv beta iota zeta.
  by rewrite Hbd.
Qed.

(** The trials of one channel, all let through. *)
Lemma epoch_channel_permitted c chan l :
  chans !! c = Some chan →
  (∀ t, (t < length onsets)%nat → permitted_at t) →
  (∀ t, (t < length onsets)%nat → baseline_in_data t) →
  ∃ l1,
    epoch_data_from_channel_data_by_trials nanmean nanmedian (progress (fun _ => 0) (upto c 0%nat)) c
      chan rate onsets num trial_epoch bnum bm baseline_epoch m l
    = (Ok (progress (fun _ => 0) (upto (S c) 0%nat)), l1) ∧ warned l l1.
Proof using All.
  intros Hchan Hperm Hbase. unfold epoch_data_from_channel_data_by_trials.
  destruct (for_each_inv
    (epoch_trial nanmean nanmedian c chan rate (length onsets) num trial_epoch
       bnum bm baseline_epoch m)
    (fun t data l1 => warned l l1 ∧ data = progress (fun _ => 0) (upto c t))
    onsets 0%nat (progress (fun _ => 0) (upto c 0%nat)) l)
    as (data & l1 & Hrun & Hlog & ->).
  - split; [apply warned_refl | done].
  - intros t onset data l1 Hon [Hlog ->]. simpl.
    assert (t < length onsets)%nat as Ht by (by eapply lookup_lt_Some).
    destruct (epoch_trial_permitted c chan t onset l1 Hchan Hon (Hperm t Ht) (Hbase t Ht))
      as (l' & Hstep & Hw).
    eexists _, _. split; [exact Hstep |]. split; [by apply warned_trans | done].
  - exists l1. split; [| done]. rewrite Hrun. f_equal. f_equal.
    apply tensor_ext. intros c' t' _ Ht'. simpl.
    repeat case_bool_decide; simpl; try done; lia.
Qed.

(** The trials of one channel, one of them refused. *)
Lemma epoch_channel_refused c chan t l :
  0 ≤ size →
  chans !! c = Some chan →
  (t < length onsets)%nat →
  ¬ permitted_at t →
  (∀ t', (t' < t)%nat → permitted_at t') →
  (∀ t', (t' < t)%nat → baseline_in_data t') →
  ∃ e l1,
    epoch_data_from_channel_data_by_trials nanmean nanmedian (progress (fun _ => 0) (upto c 0%nat)) c
      chan rate onsets num trial_epoch bnum bm baseline_epoch m l
    = (Raise e, l1) ∧ stopped l e l1.
Proof using All.
  intros Hsize Hchan Ht Hnot Hperm Hbase.
  unfold epoch_data_from_channel_data_by_trials.
  apply (for_each_raise _
    (fun t data l1 => warned l l1 ∧ data = progress (fun _ => 0) (upto c t))
    (stopped l) onsets 0%nat _ l t).
  - split; [apply warned_refl | done].
  - done.
  - intros t' onset data l1 Hlt Hon [Hlog ->]. simpl.
    destruct (epoch_trial_permitted c chan t' onset l1 Hchan Hon
                (Hperm t' Hlt) (Hbase t' Hlt)) as (l' & Hstep & Hw).
    eexists _, _. split; [exact Hstep |]. split; [by apply warned_trans | done].
  - intros onset data l1 Hon [Hlog ->]. simpl.
    destruct (epoch_trial_refused c chan t onset (progress (fun _ => 0) (upto c t)) l1
                Hsize Hchan Hon Hnot) as (l' & msg & Hstep & Hw).
    eexists _, _. split; [exact Hstep |]. by apply warned_stopped.
Qed.

(** The channel loop when every trial is let through. *)
Lemma by_channels_loop l :
  channel_reader r channels chans →
  (∀ t, (t < length onsets)%nat → permitted_at t) →
  (∀ t, (t < length onsets)%nat → baseline_in_data t) →
  ∃ l1,
    for_each
      (fun channel_idx channel data =>
         bind (lift (retrieve_channel_data r channel))
           (fun channel_data =>
              epoch_data_from_channel_data_by_trials nanmean nanmedian data
                channel_idx channel_data rate onsets num trial_epoch bnum bm
                baseline_epoch m))
      0%nat channels (allocate_array (length channels) (length onsets) num) l
    = (Ok (epochs nanmean nanmedian bm size num bnum (fun _ => 0) marks chans), l1) ∧
    warned l l1.
Proof using All.
  intros Hreader Hperm Hbase.
  set (body := fun (channel_idx : nat) (channel : string) data => _).
  destruct (for_each_inv body
    (fun c data l1 => warned l l1 ∧ data = progress (fun _ => 0) (upto c 0%nat))
    channels 0%nat (allocate_array (length channels) (length onsets) num) l)
    as (data & l1 & Hrun & Hlog & ->).
  - split; [apply warned_refl |]. rewrite allocate_array_tensor.
    apply tensor_ext. intros c t _ _.
    rewrite bool_decide_eq_false_2 by lia.
    by rewrite bool_decide_eq_false_2 by lia.
  - intros c name data l1 Hname [Hlog ->]. simpl.
    destruct (Forall2_lookup_l _ _ _ _ _ Hreader Hname) as (chan & Hchan & Hget).
    destruct (epoch_channel_permitted c chan l1 Hchan Hperm Hbase)
      as (l2 & Hstep & Hlog2).
    exists (progress (fun _ => 0) (upto (S c) 0%nat)), l2. unfold body, bind, lift. rewrite Hget.
    split; [exact Hstep |]. split; [| done].
    destruct Hlog as (la & -> & Hwa), Hlog2 as (lb & -> & Hwb).
    exists (la ++ lb). rewrite (assoc_L (++)). split; [done | by apply Forall_app].
  - exists l1. split; [| done]. rewrite Hrun. f_equal. f_equal.
    rewrite <- progress_done. apply tensor_ext. intros c t Hc _. simpl.
    by rewrite bool_decide_eq_true_2 by done.
Qed.

(** The channel loop when a trial is refused: the first channel stops. *)
Lemma by_channels_loop_refused t l :
  0 ≤ size →
  channel_reader r channels chans →
  channels ≠ [] →
  (t < length onsets)%nat →
  ¬ permitted_at t →
  (∀ t', (t' < t)%nat → permitted_at t') →
  (∀ t', (t' < t)%nat → baseline_in_data t') →
  ∃ e l1,
    for_each
      (fun channel_idx channel data =>
         bind (lift (retrieve_channel_data r channel))
           (fun channel_data =>
              epoch_data_from_channel_data_by_trials nanmean nanmedian data
                channel_idx channel_data rate onsets num trial_epoch bnum bm
                baseline_epoch m))
      0%nat channels (allocate_array (length channels) (length onsets) num) l
    = (Raise e, l1) ∧ stopped l e l1.
Proof using All.
  intros Hsize Hreader Hne Ht Hnot Hperm Hbase.
  set (body := fun (channel_idx : nat) (channel : string) data => _).
  apply (for_each_raise body
    (fun c data l1 => l1 = l ∧ data = progress (fun _ => 0) (upto c 0%nat))
    (stopped l) channels 0%nat _ l 0%nat).
  - split; [done |]. rewrite allocate_array_tensor.
    apply tensor_ext. intros c t' _ _.
    rewrite bool_decide_eq_false_2 by lia.
    by rewrite bool_decide_eq_false_2 by lia.
  - destruct channels; [done | simpl; lia].
  - intros j ? ? ? Hj. lia.
  - intros name data l1 Hname [-> ->]. simpl.
    destruct (Forall2_lookup_l _ _ _ _ _ Hreader Hname) as (chan & Hchan & Hget).
    destruct (epoch_channel_refused 0 chan t l Hsize Hchan Ht Hnot Hperm Hbase)
      as (e & l2 & Hstep & Hstop).
    exists e, l2. unfold body, bind, lift. rewrite Hget. done.
Qed.

(** *** The two loaders *)

Lemma all_permitted_at :
  all_permitted m size num marks → ∀ t, (t < length onsets)%nat → permitted_at t.
Proof using trial_marks.
  intros Hperm t Ht. rewrite <- marks_length in *.
  destruct (lookup_lt_is_Some_2 marks t Ht) as [mark Hmk].
  rewrite Hmk. simpl. by apply Hperm.
Qed.

Lemma some_refused_at :
  some_refused m size num marks →
  ∃ t, (t < length onsets)%nat ∧ ¬ permitted_at t ∧
       ∀ t', (t' < t)%nat → permitted_at t'.
Proof using trial_marks.
  intros (t & mark & Hmk & Hnot).
  destruct (first_failure (fun t => permitted_at t) (length onsets))
    as [Hall | Hfirst]; [| done].
  destruct Hnot. rewrite marks_length.
  specialize (Hall t). cbv beta in Hall. rewrite Hmk in Hall. apply Hall.
  rewrite <- marks_length. by eapply lookup_lt_Some.
Qed.

Lemma permitted_or_refused :
  all_permitted m size num marks ∨ some_refused m size num marks.
Proof using trial_marks.
  destruct (first_failure (fun t => permitted_at t) (length onsets))
    as [Hall | (t & Ht & Hnot & _)].
  - left. intros t mark Hmk. rewrite marks_length.
    specialize (Hall t). cbv beta in Hall. rewrite Hmk in Hall. apply Hall.
    rewrite <- marks_length. by eapply lookup_lt_Some.
  - right. rewrite <- marks_length in *.
    destruct (lookup_lt_is_Some_2 marks t Ht) as [mark Hmk].
    exists t, mark. split; [done |]. cbv beta in Hnot. by rewrite Hmk in Hnot.
Qed.

Lemma baselines_in_trial_at :
  baselines_in_trial bm size num bnum marks →
  ∀ t, (t < length onsets)%nat → baseline_in_trial t.
Proof using trial_marks.
  intros Hbase t Ht Hbm. rewrite <- marks_length in Ht.
  destruct (lookup_lt_is_Some_2 marks t Ht) as [mark Hmk].
  rewrite Hmk. simpl. exact (proj1 (Forall_lookup _ _) (Hbase Hbm) _ _ Hmk).
Qed.

Lemma baselines_in_data_at :
  baselines_in_data bm size bnum marks →
  ∀ t, (t < length onsets)%nat → baseline_in_data t.
Proof using trial_marks.
  intros Hbase t Ht Hbm. rewrite <- marks_length in Ht.
  destruct (lookup_lt_is_Some_2 marks t Ht) as [mark Hmk].
  rewrite Hmk. simpl. exact (proj1 (Forall_lookup _ _) (Hbase Hbm) _ _ Hmk).
Qed.

(** X11.  When the out-of-bound policy lets every trial
    through and, with a normalization, the baseline of every trial lies
    in the recorded part of the trial, [__load_data_epochs__by_trial]
    returns the sampling rate and the array (channel x trial x time) that
    holds, for every channel and trial, the samples of the trial's window
    minus the mean or the median of the baseline samples (as they are
    without normalization), with NaN wherever the window leaves the
    recording; it logs nothing but warnings.  The baseline samples are
    read at the offset of the baseline in the trial from the first
    recorded sample of the trial: for a trial that begins [clamped start]
    samples before the recording, that many samples after the baseline. *)
Theorem by_trial_epochs l :
  range_reader r channels chans →
  all_permitted m size num marks →
  baselines_in_trial bm size num bnum marks →
  ∃ l',
    load_data_epochs_by_trial nanmean nanmedian r channels onsets trial_epoch bm
      baseline_epoch m l
    = (Ok (rate, epochs nanmean nanmedian bm size num bnum clamped marks chans),
       l ++ l') ∧
    warnings_only l'.
Proof using All.
  intros Hrange Hperm Hbase. unfold load_data_epochs_by_trial, bind, lift.
  rewrite trial_samples, baseline_samples. cbv beta iota zeta.
  destruct (by_trial_loop l Hrange (all_permitted_at Hperm)
              (baselines_in_trial_at Hbase)) as (l1 & -> & l' & -> & Hw).
  by exists l'.
Qed.


(** X13.  When the out-of-bound policy lets every
    trial through and, with a normalization, the baseline of every trial
    lies inside the recording, [__load_data_epochs__by_channels] returns
    the sampling rate and the array of the epochs of all channels and
    trials (the window of the trial minus the mean or the median of the
    samples of its baseline, NaN outside the recording); it logs nothing
    but warnings. *)
Theorem by_channels_epochs l :
  channel_reader r channels chans →
  all_permitted m size num marks →
  baselines_in_data bm size bnum marks →
  ∃ l',
    load_data_epochs_by_channels nanmean nanmedian r channels onsets trial_epoch bm
      baseline_epoch m l
    = (Ok (rate, epochs nanmean nanmedian bm size num bnum (fun _ => 0) marks chans),
       l ++ l') ∧
    warnings_only l'.
Proof using All.
  intros Hreader Hperm Hbase. unfold load_data_epochs_by_channels, bind, lift.
  rewrite trial_samples, baseline_samples. cbv beta iota zeta.
  destruct (by_channels_loop l Hreader (all_permitted_at Hperm)
              (baselines_in_data_at Hbase)) as (l1 & Hrun & l' & -> & Hw).
  exists l'. split; [| done]. unfold bind, lift in Hrun. by rewrite Hrun.
Qed.


(** X15.  On the same recording with at least one channel,
    loading trial by trial and loading channel by channel come to the
    same end, the same sampling rate and epochs or both a RuntimeError,
    provided that with a normalization every trial begins inside the
    recording and has its baseline in its recorded part. *)
Theorem loaders_agree l :
  0 ≤ size →
  channel_reader r channels chans →
  range_reader r channels chans →
  channels ≠ [] →
  baselines_in_trial bm size num bnum marks →
  trials_begin_in_data bm marks →
  (load_data_epochs_by_channels nanmean nanmedian r channels onsets trial_epoch bm
     baseline_epoch m l).1
  = (load_data_epochs_by_trial nanmean nanmedian r channels onsets trial_epoch bm
       baseline_epoch m l).1.
Proof using All.
  intros Hsize Hreader Hrange Hne Hbase Hbegin.
  pose proof (baselines_in_trial_at Hbase) as Htrial.
  pose proof (baselines_in_data_at (baselines_trial_data _ _ _ _ _ Hbase)) as Hdata.
  unfold load_data_epochs_by_channels, load_data_epochs_by_trial, bind, lift.
  rewrite trial_samples, baseline_samples. cbv beta iota zeta.
  destruct permitted_or_refused as [Hperm | Href].
  - destruct (by_trial_loop l Hrange (all_permitted_at Hperm) Htrial) as (l1 & -> & _).
    destruct (by_channels_loop l Hreader (all_permitted_at Hperm) Hdata)
      as (l2 & Hrun & _).
    unfold bind, lift in Hrun. rewrite Hrun. simpl. f_equal. f_equal.
    by apply epochs_shift.
  - destruct (some_refused_at Href) as (t & Ht & Hnot & Hbefore).
    destruct (by_trial_loop_refused t l Hsize Hrange Ht Hnot Hbefore)
      as (e1 & l1 & -> & -> & _).
    { intros t' Ht'. apply Htrial. lia. }
    destruct (by_channels_loop_refused t l Hsize Hreader Hne Ht Hnot Hbefore)
      as (e2 & l2 & Hrun & -> & _).
    { intros t' Ht'. apply Hdata. lia. }
    unfold bind, lift in Hrun. by rewrite Hrun.
Qed.

End Loading.

(** ** The loaders on a recording of two channels *)

Section OnRecording.

Import Recording Examples.

Local Abbreviation nanmean := Instances.seq_nanmean.

Lemma recording_sizes :
  Forall (fun chan => Z.of_nat (length chan) = num_samples reader_AB) series_AB.
Proof. by repeat constructor. Qed.

Lemma recording_marks :
  marks_of (sampling_rate reader_AB) epoch_2s baseline_half onsets_2 marks_2.
Proof. repeat constructor; vm_compute; reflexivity. Qed.

Lemma recording_channels : channel_reader reader_AB channels_AB series_AB.
Proof. by repeat constructor. Qed.

Lemma recording_ranges : range_reader reader_AB channels_AB series_AB.
Proof. intros s e _ _ _. reflexivity. Qed.

(** Under 'first_last_only' the two trials are let through. *)
Lemma recording_permitted : all_permitted 1 6 4 marks_2.
Proof.
  intros [| [| t]] mark [= <-]; split; simpl; intros; (lia || tauto).
Qed.


Lemma recording_baselines : baselines_in_trial 1 6 4 1 marks_2.
Proof. intros _. repeat constructor; unfold clamped; simpl; lia. Qed.

Lemma recording_begins : trials_begin_in_data 1 marks_2.
Proof. intros _. repeat constructor; simpl; lia. Qed.

Lemma early_marks :
  marks_of (sampling_rate reader_AB) epoch_2s baseline_before onsets_early marks_early.
Proof. repeat constructor; vm_compute; reflexivity. Qed.

Lemma early_permitted : all_permitted 1 6 4 marks_early.
Proof.
  intros [| [| t]] mark [= <-]; split; simpl; intros; (lia || tauto).
Qed.

Lemma early_baselines : baselines_in_trial 1 6 4 1 marks_early.
Proof. intros _. repeat constructor; unfold clamped; simpl; lia. Qed.

Lemma by_trial_epochs_witness :
  ∃ l',
    load_data_epochs_by_trial nanmean nanmean reader_AB channels_AB onsets_early
      epoch_2s 1 baseline_before 1 []
    = (Ok (2%float, epochs nanmean nanmean 1 6 4 1 clamped marks_early series_AB),
       [] ++ l') ∧
    warnings_only l'.
Proof.
  apply (by_trial_epochs nanmean nanmean reader_AB channels_AB series_AB onsets_early
           marks_early epoch_2s baseline_before 1 1 4 1
           ltac:(vm_compute; reflexivity) ltac:(vm_compute; reflexivity)
           ltac:(lia) ltac:(lia) ltac:(lia) ltac:(reflexivity)
           recording_sizes early_marks []
           recording_ranges early_permitted early_baselines).
Defined.


Lemma by_channels_epochs_witness :
  ∃ l',
    load_data_epochs_by_channels nanmean nanmean reader_AB channels_AB onsets_2
      epoch_2s 1 baseline_half 1 []
    = (Ok (2%float, epochs nanmean nanmean 1 6 4 1 (fun _ => 0) marks_2 series_AB),
       [] ++ l') ∧
    warnings_only l'.
Proof.
  apply (by_channels_epochs nanmean nanmean reader_AB channels_AB series_AB onsets_2
           marks_2 epoch_2s baseline_half 1 1 4 1
           ltac:(vm_compute; reflexivity) ltac:(vm_compute; reflexivity)
           ltac:(lia) ltac:(lia) ltac:(lia) ltac:(reflexivity)
           recording_sizes recording_marks []
           recording_channels recording_permitted
           (baselines_trial_data _ _ _ _ _ recording_baselines)).
Defined.


Lemma loaders_agree_witness :
  (load_data_epochs_by_channels nanmean nanmean reader_AB channels_AB onsets_2
     epoch_2s 1 baseline_half 1 []).1
  = (load_data_epochs_by_trial nanmean nanmean reader_AB channels_AB onsets_2
       epoch_2s 1 baseline_half 1 []).1.
Proof.
  apply (loaders_agree nanmean nanmean reader_AB channels_AB series_AB onsets_2
           marks_2 epoch_2s baseline_half 1 1 4 1
           ltac:(vm_compute; reflexivity) ltac:(vm_compute; reflexivity)
           ltac:(lia) ltac:(lia) ltac:(lia) ltac:(reflexivity)
           recording_sizes recording_marks []
           ltac:(simpl; lia) recording_channels recording_ranges
           ltac:(discriminate) recording_baselines recording_begins).
Defined.

End OnRecording.

End BidsLoops.
